(** * vArmor policy reconciliation: the policy controllers

    A shallow embedding of [internal/policy/policy_controller.go] (the
    namespace-scoped [PolicyController]) and of its cluster-scoped twin
    (the [ClusterPolicyController]), together with the properties of the
    Event Router, the Validation Gate, the Profile Synchronizer, the Status
    Reporter and the Worker Loop.

    Go pointers to API objects are modelled by explicit state passing: a
    function that mutates [vp] in place returns the mutated object.  Calls to
    the API server, channel sends, detached goroutines and queue operations
    are threaded through a [World]; every such call is also recorded, in
    order, in the world's [trace].  Logging has no effect on the state and is
    left out. *)

From Stdlib Require Import Ascii.
From stdpp Require Import gmap strings list fin_maps pretty.

Open Scope Z_scope.
Open Scope string_scope.
Open Scope list_scope.

(** ** Data model *)

(** Go's [error]: [nil] is [None].  [k8errors.IsNotFound] must be able to
    tell a missing object from every other failure. *)
Inductive GoError :=
  | ErrNotFound
  | ErrMsg (msg : string).

Definition error := option GoError.

Definition IsNotFound (e : GoError) : bool :=
  match e with ErrNotFound => true | ErrMsg _ => false end.

(** [err.Error()] *)
Definition Error (e : GoError) : string :=
  match e with ErrNotFound => "not found" | ErrMsg m => m end.

#[global] Instance GoError_eq_dec : EqDecision GoError.
Proof. solve_decision. Defined.

(** Modelled from the spec: the typed string constants of
    [internal/types] and [k8s.io/api/core/v1] (their declarations are not
    part of the sources at hand); the values are the names the
    specification uses for them. *)
Definition VarmorPolicyPhase := string.
Definition VarmorPolicyConditionType := string.
Definition ConditionStatus := string.
Definition VarmorPolicyMode := string.

Definition VarmorPolicyPending : VarmorPolicyPhase := "Pending".
Definition VarmorPolicyModeling : VarmorPolicyPhase := "Modeling".
Definition VarmorPolicyCompleted : VarmorPolicyPhase := "Completed".
Definition VarmorPolicyProtecting : VarmorPolicyPhase := "Protecting".
Definition VarmorPolicyError : VarmorPolicyPhase := "Error".
Definition VarmorPolicyUnchanged : VarmorPolicyPhase := "Unchanged".

Definition VarmorPolicyCreated : VarmorPolicyConditionType := "Created".
Definition VarmorPolicyUpdated : VarmorPolicyConditionType := "Updated".

Definition ConditionTrue : ConditionStatus := "True".
Definition ConditionFalse : ConditionStatus := "False".

Definition DefenseInDepthMode : VarmorPolicyMode := "DefenseInDepth".

(** [metav1.Time], read off a logical clock: the value that two time
    stamps are compared by. *)
Definition Time := Z.

(** Go slices, maps and pointers.  [reflect.DeepEqual] tells a [nil] slice
    from an empty one and a [nil] map from an empty one, compares slices
    element by element in order, maps as sets of entries, and pointers by
    what they point to.  A slice is therefore an [option (list A)] and a map
    an [option (gmap K V)], [None] being [nil]; a pointer is an [option]
    too.  With this encoding two values of the types below are deeply equal
    exactly when they are equal, and [bool_decide (x = y)] is
    [reflect.DeepEqual(x, y)].  [elements] is what a [range] loop or an
    index sees of a slice, and [append] always yields a slice that is not
    [nil]. *)
Definition elements {A : Type} (s : option (list A)) : list A := default [] s.

Definition append {A : Type} (s : option (list A)) (x : A) : option (list A) :=
  Some (elements s ++ [x]).

(** [metav1.LabelSelectorRequirement] *)
Record LabelSelectorRequirement := {
  Key : string;
  Operator : string;
  Values : option (list string)
}.

(** [metav1.LabelSelector]: the label map and the list of requirements. *)
Record LabelSelector := {
  MatchLabels : option (gmap string string);
  MatchExpressions : option (list LabelSelectorRequirement)
}.

(** [varmor.Target]; [Containers] is a slice and [Selector] a pointer. *)
Record Target := {
  Kind : string;
  TargetName : string;
  Containers : option (list string);
  Selector : option LabelSelector
}.

Record DefenseInDepth := {
  ModelingDuration : Z
}.

(** [varmor.Policy]: the fields the controller reads; the rule set, which
    the controller only compares and hands to the profile generator, is an
    opaque text, one text for each rule set up to [reflect.DeepEqual]. *)
Record Policy := {
  Enforcer : string;
  Mode : VarmorPolicyMode;
  PolicyDefenseInDepth : DefenseInDepth;
  Rules : string
}.

Record VarmorPolicySpec := {
  SpecTarget : Target;
  SpecPolicy : Policy
}.

Record VarmorPolicyCondition := {
  Type_ : VarmorPolicyConditionType;
  Status : ConditionStatus;
  LastTransitionTime : Time;
  Reason : string;
  Message : string
}.

(** [varmor.VarmorPolicyStatus].  Its [Conditions] field is a slice: the
    field itself is [ConditionSlice], and [Conditions] below are its
    elements. *)
Record VarmorPolicyStatus := {
  ProfileName : string;
  Ready : bool;
  Phase : VarmorPolicyPhase;
  ConditionSlice : option (list VarmorPolicyCondition)
}.

Definition Conditions (st : VarmorPolicyStatus) : list VarmorPolicyCondition :=
  elements (ConditionSlice st).

(** [varmor.VarmorPolicy] and [varmor.VarmorClusterPolicy]; the latter has
    an empty [Namespace]. *)
Record VarmorPolicy := {
  Namespace : string;
  Name : string;
  ResourceVersion : string;
  Spec : VarmorPolicySpec;
  PolicyStatus : VarmorPolicyStatus
}.

(** [varmor.Profile]: the compiled enforcement content. *)
Record Profile := {
  ProfName : string;
  ProfEnforcer : string;
  ProfMode : string;
  Content : string
}.

Record BehaviorModeling := {
  BmModelingDuration : Z;
  UniqueID : string
}.

Record ArmorProfileSpec := {
  ApTarget : Target;
  ApProfile : Profile;
  ApBehaviorModeling : BehaviorModeling
}.

Record ArmorProfileCondition := {
  NodeName : string;
  ApcType : string;
  ApcStatus : string;
  ApcReason : string;
  ApcMessage : string
}.

(** [varmor.ArmorProfileStatus].  The controllers never compare this
    status and only ever clear its conditions, so the elements of that slice
    are all that is modelled of it; the same holds for the status of a model
    below. *)
Record ArmorProfileStatus := {
  CurrentNumberLoaded : Z;
  ApConditions : list ArmorProfileCondition
}.

Record ArmorProfile := {
  ApNamespace : string;
  ApName : string;
  ApSpec : ArmorProfileSpec;
  ApStatus : ArmorProfileStatus
}.

(** [varmor.ArmorProfileModel], its status subtree (see the CRD). *)
Record ArmorProfileModelStatus := {
  CompletedNumber : Z;
  ApmConditions : list ArmorProfileCondition;
  ApmReady : bool
}.

(** [reflect.DeepEqual] on these values is equality, and decidable. *)
#[global] Instance LabelSelectorRequirement_eq_dec : EqDecision LabelSelectorRequirement.
Proof. solve_decision. Defined.
#[global] Instance LabelSelector_eq_dec : EqDecision LabelSelector.
Proof. solve_decision. Defined.
#[global] Instance Target_eq_dec : EqDecision Target.
Proof. solve_decision. Defined.
#[global] Instance DefenseInDepth_eq_dec : EqDecision DefenseInDepth.
Proof. solve_decision. Defined.
#[global] Instance Policy_eq_dec : EqDecision Policy.
Proof. solve_decision. Defined.
#[global] Instance VarmorPolicySpec_eq_dec : EqDecision VarmorPolicySpec.
Proof. solve_decision. Defined.
#[global] Instance VarmorPolicyCondition_eq_dec : EqDecision VarmorPolicyCondition.
Proof. solve_decision. Defined.
#[global] Instance VarmorPolicyStatus_eq_dec : EqDecision VarmorPolicyStatus.
Proof. solve_decision. Defined.
#[global] Instance VarmorPolicy_eq_dec : EqDecision VarmorPolicy.
Proof. solve_decision. Defined.
#[global] Instance Profile_eq_dec : EqDecision Profile.
Proof. solve_decision. Defined.
#[global] Instance BehaviorModeling_eq_dec : EqDecision BehaviorModeling.
Proof. solve_decision. Defined.
#[global] Instance ArmorProfileSpec_eq_dec : EqDecision ArmorProfileSpec.
Proof. solve_decision. Defined.
#[global] Instance ArmorProfileCondition_eq_dec : EqDecision ArmorProfileCondition.
Proof. solve_decision. Defined.
#[global] Instance ArmorProfileStatus_eq_dec : EqDecision ArmorProfileStatus.
Proof. solve_decision. Defined.
#[global] Instance ArmorProfile_eq_dec : EqDecision ArmorProfile.
Proof. solve_decision. Defined.
#[global] Instance ArmorProfileModelStatus_eq_dec : EqDecision ArmorProfileModelStatus.
Proof. solve_decision. Defined.

(** ** The world outside the controller *)

(** Modelled from the spec: the Change Queue (the controllers use a
    rate-limiting queue of [k8s.io/client-go/util/workqueue], whose code is
    not part of the sources at hand).  The operations below follow the
    specification's description of the queue: [add] is idempotent, a key
    added while it is being processed is delivered again after the attempt
    in flight, [get] blocks until a key is available or the queue is shut
    down, and after [shutdown] it signals termination.  The FIFO of pending
    keys with its [dirty] and [processing] sets gives the de-duplication and
    the one-worker-per-key discipline; [failures] is the per-key retry
    counter of the rate limiter; [waiting] holds the keys parked by
    [AddRateLimited] until their back-off delay has elapsed. *)
Record WorkQueue := {
  items : list string;
  dirty : gset string;
  processing : gset string;
  shuttingDown : bool;
  failures : gmap string nat;
  waiting : list string
}.

(** Everything the controller does to the outside, in the order it does it. *)
Inductive Call :=
  | CallPolicyGet (ns name : string)
  | CallPolicyUpdateStatus (vp : VarmorPolicy)
  | CallProfileGet (ns name : string)
  | CallProfileCreate (ns : string) (ap : ArmorProfile)
  | CallProfileUpdate (ns : string) (ap : ArmorProfile)
  | CallProfileUpdateStatus (ns : string) (ap : ArmorProfile)
  | CallProfileDelete (ns name : string)
  | CallModelGet (ns name : string)
  | CallModelUpdateStatus (ns name : string) (st : ArmorProfileModelStatus)
  | GoUpdateWorkloadAnnotationsAndEnv
      (ns enforcer : string) (target : Target) (profileName uniqueID : string)
      (bpfExclusiveMode : bool)
  | SendDeleteCh (key : string)
  | SendResetCh (key : string)
  | SendUpdateStatusCh (key : string)
  | SetUpdateDesiredNumber
  | RuntimeHandleError (e : GoError)
  | QueueAdd (key : string)
  | QueueAddRateLimited (key : string)
  | QueueForget (key : string)
  | QueueDone (key : string).

#[global] Instance Call_eq_dec : EqDecision Call.
Proof. solve_decision. Defined.

(** Modelled from the spec: the resource store ([get], [create], [update],
    [updateStatus], [delete]; every call may fail, and a failed [get] may be
    a "not found").  The stores are indexed by namespace and name.  [answers] is
    what the server will say to the coming calls, one entry per call, in
    order: [Some e] makes the call fail with [e] and leaves the store as it
    is, [None] lets it through; once the list is used up every call goes
    through. *)
Record World := {
  policies : gmap (string * string) VarmorPolicy;
  profiles : gmap (string * string) ArmorProfile;
  models : gmap (string * string) ArmorProfileModelStatus;
  answers : list error;
  clock : Time;
  queue : WorkQueue;
  UpdateDesiredNumber : bool;
  trace : list Call
}.

Definition set_policies (f : gmap (string * string) VarmorPolicy -> gmap (string * string) VarmorPolicy) (w : World) : World :=
  {| policies := f (policies w); profiles := profiles w; models := models w;
     answers := answers w; clock := clock w; queue := queue w;
     UpdateDesiredNumber := UpdateDesiredNumber w; trace := trace w |}.

Definition set_profiles (f : gmap (string * string) ArmorProfile -> gmap (string * string) ArmorProfile) (w : World) : World :=
  {| policies := policies w; profiles := f (profiles w); models := models w;
     answers := answers w; clock := clock w; queue := queue w;
     UpdateDesiredNumber := UpdateDesiredNumber w; trace := trace w |}.

Definition set_models (f : gmap (string * string) ArmorProfileModelStatus -> gmap (string * string) ArmorProfileModelStatus) (w : World) : World :=
  {| policies := policies w; profiles := profiles w; models := f (models w);
     answers := answers w; clock := clock w; queue := queue w;
     UpdateDesiredNumber := UpdateDesiredNumber w; trace := trace w |}.

Definition set_answers (f : list error -> list error) (w : World) : World :=
  {| policies := policies w; profiles := profiles w; models := models w;
     answers := f (answers w); clock := clock w; queue := queue w;
     UpdateDesiredNumber := UpdateDesiredNumber w; trace := trace w |}.

Definition set_clock (f : Time -> Time) (w : World) : World :=
  {| policies := policies w; profiles := profiles w; models := models w;
     answers := answers w; clock := f (clock w); queue := queue w;
     UpdateDesiredNumber := UpdateDesiredNumber w; trace := trace w |}.

Definition set_queue (f : WorkQueue -> WorkQueue) (w : World) : World :=
  {| policies := policies w; profiles := profiles w; models := models w;
     answers := answers w; clock := clock w; queue := f (queue w);
     UpdateDesiredNumber := UpdateDesiredNumber w; trace := trace w |}.

Definition set_UpdateDesiredNumber (b : bool) (w : World) : World :=
  {| policies := policies w; profiles := profiles w; models := models w;
     answers := answers w; clock := clock w; queue := queue w;
     UpdateDesiredNumber := b; trace := trace w |}.

Definition set_trace (f : list Call -> list Call) (w : World) : World :=
  {| policies := policies w; profiles := profiles w; models := models w;
     answers := answers w; clock := clock w; queue := queue w;
     UpdateDesiredNumber := UpdateDesiredNumber w; trace := f (trace w) |}.

(** ** The state monad of the controller *)

Definition M (A : Type) : Type := World -> A * World.

Definition ret {A} (a : A) : M A := fun w => (a, w).

Definition bind {A B} (m : M A) (k : A -> M B) : M B :=
  fun w => let (a, w') := m w in k a w'.

Notation "x <- m ;; k" := (bind m (fun x => k))
  (at level 100, m at next level, right associativity).
Notation "m ;;; k" := (bind m (fun _ => k))
  (at level 100, right associativity).

Definition modify (f : World -> World) : M unit := fun w => (tt, f w).

(** Record a call in the trace. *)
Definition emit (c : Call) : M unit := modify (set_trace (fun t => t ++ [c])).

(** The server's verdict on the call being made. *)
Definition answer : M error :=
  fun w => match answers w with
           | [] => (None, w)
           | a :: rest => (a, set_answers (fun _ => rest) w)
           end.

(** [metav1.Now()] *)
Definition Now : M Time :=
  fun w => (clock w, set_clock (fun t => t + 1) w).

(** *** The API server

    Every call is recorded in the trace, then answered by the server:
    an error leaves the store unchanged, a success applies the call.
    Resource versions and the conflicts they raise are part of the
    server's answers, not of the stores. *)

Definition withStatus (st : VarmorPolicyStatus) (vp : VarmorPolicy) : VarmorPolicy :=
  {| Namespace := Namespace vp; Name := Name vp; ResourceVersion := ResourceVersion vp;
     Spec := Spec vp; PolicyStatus := st |}.

Definition withApStatus (st : ArmorProfileStatus) (ap : ArmorProfile) : ArmorProfile :=
  {| ApNamespace := ApNamespace ap; ApName := ApName ap; ApSpec := ApSpec ap; ApStatus := st |}.

Definition withApSpec (sp : ArmorProfileSpec) (ap : ArmorProfile) : ArmorProfile :=
  {| ApNamespace := ApNamespace ap; ApName := ApName ap; ApSpec := sp; ApStatus := ApStatus ap |}.

(** [VarmorPolicies(ns).Get] and [VarmorClusterPolicies().Get] *)
Definition PolicyGet (ns name : string) : M (VarmorPolicy + GoError) :=
  emit (CallPolicyGet ns name) ;;;
  a <- answer ;;
  match a with
  | Some e => ret (inr e)
  | None => fun w => match policies w !! (ns, name) with
                     | Some vp => (inl vp, w)
                     | None => (inr ErrNotFound, w)
                     end
  end.

(** [UpdateStatus] on a policy: the status subtree of the stored object is
    replaced. *)
Definition PolicyUpdateStatus (vp : VarmorPolicy) : M error :=
  emit (CallPolicyUpdateStatus vp) ;;;
  a <- answer ;;
  match a with
  | Some e => ret (Some e)
  | None =>
      modify (set_policies (alter (withStatus (PolicyStatus vp)) (Namespace vp, Name vp))) ;;;
      ret None
  end.

Definition ProfileGet (ns name : string) : M (ArmorProfile + GoError) :=
  emit (CallProfileGet ns name) ;;;
  a <- answer ;;
  match a with
  | Some e => ret (inr e)
  | None => fun w => match profiles w !! (ns, name) with
                     | Some ap => (inl ap, w)
                     | None => (inr ErrNotFound, w)
                     end
  end.

Definition ProfileCreate (ns : string) (ap : ArmorProfile) : M (ArmorProfile + GoError) :=
  emit (CallProfileCreate ns ap) ;;;
  a <- answer ;;
  match a with
  | Some e => ret (inr e)
  | None => modify (set_profiles (insert (ns, ApName ap) ap)) ;;; ret (inl ap)
  end.

Definition ProfileDelete (ns name : string) : M error :=
  emit (CallProfileDelete ns name) ;;;
  a <- answer ;;
  match a with
  | Some e => ret (Some e)
  | None => modify (set_profiles (delete (ns, name))) ;;; ret None
  end.

(** [ArmorProfiles(ns).UpdateStatus]: only the status subtree is stored. *)
Definition ProfileUpdateStatus (ns : string) (ap : ArmorProfile) : M (ArmorProfile + GoError) :=
  emit (CallProfileUpdateStatus ns ap) ;;;
  a <- answer ;;
  match a with
  | Some e => ret (inr e)
  | None =>
      modify (set_profiles (alter (withApStatus (ApStatus ap)) (ns, ApName ap))) ;;;
      ret (inl ap)
  end.

(** [ArmorProfiles(ns).Update]: only the spec is stored. *)
Definition ProfileUpdate (ns : string) (ap : ArmorProfile) : M error :=
  emit (CallProfileUpdate ns ap) ;;;
  a <- answer ;;
  match a with
  | Some e => ret (Some e)
  | None =>
      modify (set_profiles (alter (withApSpec (ApSpec ap)) (ns, ApName ap))) ;;;
      ret None
  end.

Definition ModelGet (ns name : string) : M (ArmorProfileModelStatus + GoError) :=
  emit (CallModelGet ns name) ;;;
  a <- answer ;;
  match a with
  | Some e => ret (inr e)
  | None => fun w => match models w !! (ns, name) with
                     | Some st => (inl st, w)
                     | None => (inr ErrNotFound, w)
                     end
  end.

Definition ModelUpdateStatus (ns name : string) (st : ArmorProfileModelStatus) : M error :=
  emit (CallModelUpdateStatus ns name st) ;;;
  a <- answer ;;
  match a with
  | Some e => ret (Some e)
  | None => modify (set_models (alter (fun _ => st) (ns, name))) ;;; ret None
  end.

(** *** The work queue

    [Add] is idempotent on a pending key and defers a key that is being
    processed until [Done]; [Forget] resets the retry counter;
    [AddRateLimited] counts one more failure and parks the key. *)

Definition qAdd (item : string) (q : WorkQueue) : WorkQueue :=
  if shuttingDown q then q
  else if decide (item ∈ dirty q) then q
  else
    {| items := if decide (item ∈ processing q) then items q else items q ++ [item];
       dirty := {[item]} ∪ dirty q;
       processing := processing q; shuttingDown := shuttingDown q;
       failures := failures q; waiting := waiting q |}.

(** [Get] returns a key and the "done" flag.  Once the queue is shut down
    it signals termination and hands out no further key; otherwise it hands
    out the oldest pending key, and blocks while there is none: [None]. *)
Definition qGet (q : WorkQueue) : option (string * bool * WorkQueue) :=
  if shuttingDown q then Some ("", true, q)
  else
    match items q with
    | [] => None
    | item :: rest =>
        Some (item, false,
              {| items := rest; dirty := dirty q ∖ {[item]};
                 processing := {[item]} ∪ processing q; shuttingDown := shuttingDown q;
                 failures := failures q; waiting := waiting q |})
    end.

Definition qDone (item : string) (q : WorkQueue) : WorkQueue :=
  {| items := if decide (item ∈ dirty q) then items q ++ [item] else items q;
     dirty := dirty q; processing := processing q ∖ {[item]};
     shuttingDown := shuttingDown q; failures := failures q; waiting := waiting q |}.

Definition qNumRequeues (item : string) (q : WorkQueue) : nat :=
  default 0%nat (failures q !! item).

Definition qForget (item : string) (q : WorkQueue) : WorkQueue :=
  {| items := items q; dirty := dirty q; processing := processing q;
     shuttingDown := shuttingDown q; failures := delete item (failures q);
     waiting := waiting q |}.

(** [AddAfter (item, rateLimiter.When item)]: the limiter counts the
    failure, and the item is parked for a positive delay. *)
Definition qAddRateLimited (item : string) (q : WorkQueue) : WorkQueue :=
  {| items := items q; dirty := dirty q; processing := processing q;
     shuttingDown := shuttingDown q;
     failures := <[item := S (qNumRequeues item q)]> (failures q);
     waiting := if shuttingDown q then waiting q else waiting q ++ [item] |}.

(** The delay of the oldest parked item elapses. *)
Definition qElapse (q : WorkQueue) : WorkQueue :=
  match waiting q with
  | [] => q
  | item :: rest =>
      qAdd item
        {| items := items q; dirty := dirty q; processing := processing q;
           shuttingDown := shuttingDown q; failures := failures q; waiting := rest |}
  end.

Definition qShutDown (q : WorkQueue) : WorkQueue :=
  {| items := items q; dirty := dirty q; processing := processing q;
     shuttingDown := true; failures := failures q; waiting := waiting q |}.

Definition QAdd (key : string) : M unit :=
  emit (QueueAdd key) ;;; modify (set_queue (qAdd key)).
Definition QForget (key : string) : M unit :=
  emit (QueueForget key) ;;; modify (set_queue (qForget key)).
Definition QAddRateLimited (key : string) : M unit :=
  emit (QueueAddRateLimited key) ;;; modify (set_queue (qAddRateLimited key)).
Definition QDone (key : string) : M unit :=
  emit (QueueDone key) ;;; modify (set_queue (qDone key)).
Definition QNumRequeues (key : string) : M nat :=
  fun w => (qNumRequeues key (queue w), w).

(** *** [k8s.io/client-go/tools/cache] *)

(** Modelled from the spec: the stable key of a policy, ["namespace/name"],
    or ["name"] for the cluster scope ([cache.MetaNamespaceKeyFunc], which
    cannot fail on a typed policy object). *)
Definition MetaNamespaceKeyFunc (vp : VarmorPolicy) : string :=
  if decide (Namespace vp = "") then Name vp else Namespace vp +:+ "/" +:+ Name vp.

(** [strings.Split (key, "/")], as [cache.SplitMetaNamespaceKey] uses it. *)
Fixpoint splitSlash (s : string) : list string :=
  match s with
  | EmptyString => [""]
  | String a rest =>
      if decide (a = "/"%char) then "" :: splitSlash rest
      else match splitSlash rest with
           | [] => [String a ""]
           | p :: ps => String a p :: ps
           end
  end.

(** [fmt]'s [%q] verb ([strconv.Quote]): the text between double quotes,
    with a backslash before a double quote or a backslash, the escapes of
    Go for the control characters, and every other character as it is.
    Bytes above 127 are copied, which is what Go does with the UTF-8
    encoding of a printable character. *)
Definition doubleQuote : ascii := "034"%char.

Definition hexDigit (n : N) : ascii :=
  default "0"%char (String.get (N.to_nat n) "0123456789abcdef").

Definition quoteByte (a : ascii) : string :=
  if decide (a = doubleQuote) then String "\"%char (String doubleQuote "")
  else
    match N_of_ascii a with
    | 92%N => "\\"
    | 7%N => "\a"
    | 8%N => "\b"
    | 9%N => "\t"
    | 10%N => "\n"
    | 11%N => "\v"
    | 12%N => "\f"
    | 13%N => "\r"
    | n =>
        if ((n <? 32) || (n =? 127))%N
        then "\x" +:+ String (hexDigit (n / 16)) (String (hexDigit (n mod 16)) "")
        else String a ""
    end.

Fixpoint quoteBytes (s : string) : string :=
  match s with
  | EmptyString => ""
  | String a rest => quoteByte a +:+ quoteBytes rest
  end.

Definition Quote (s : string) : string :=
  String doubleQuote (quoteBytes s) +:+ String doubleQuote "".

(** [cache.SplitMetaNamespaceKey] *)
Definition SplitMetaNamespaceKey (key : string) : (string * string) + GoError :=
  match splitSlash key with
  | [name] => inl ("", name)
  | [ns; name] => inl (ns, name)
  | _ => inr (ErrMsg ("unexpected key format: " +:+ Quote key))
  end.

(** ** The controllers *)

(** The two controllers are the same code up to the places marked below;
    [scope] selects the file: [Namespaced] is [PolicyController]
    (policy_controller.go), [Cluster] is [ClusterPolicyController]. *)
Inductive Scope := Namespaced | Cluster.

#[global] Instance Scope_eq_dec : EqDecision Scope.
Proof. solve_decision. Defined.

(** The fields of the controller struct that steer its behaviour. *)
Record PolicyController := {
  scope : Scope;
  restartExistWorkloads : bool;
  enableDefenseInDepth : bool;
  bpfExclusiveMode : bool
}.

(** What the controllers import from [internal/profile] and
    [internal/config]: the name deriver, the profile generator and the
    namespace vArmor runs in.  Their code is outside the sources at hand, so
    they are parameters of the development. *)
Record Collaborators := {
  GenerateArmorProfileName : string -> string -> bool -> string;
  ProfileNameTemplate : string;
  NewArmorProfile : VarmorPolicy -> bool -> ArmorProfile + GoError;
  GenerateProfile : Policy -> string -> bool -> string -> Profile + GoError;
  varmorconfigNamespace : string
}.

(** [maxRetries] used for setting the retry times of sync failed *)
Definition maxRetries : nat := 5.

(** [metav1.NamespaceAll] *)
Definition NamespaceAll : string := "".

Definition isCluster (sc : Scope) : bool :=
  match sc with Cluster => true | Namespaced => false end.

(** The kind's name as the messages of each file spell it. *)
Definition kindName (sc : Scope) : string :=
  match sc with Namespaced => "VarmorPolicy" | Cluster => "VarmorClusterPolicy" end.

(** *** Status Reporter *)

(** The loop of [updateVarmorPolicyStatus]: the first condition of type
    [Updated] gets the new status, time, reason and message, and the loop
    breaks.  The boolean is [exist]. *)
Fixpoint setUpdatedCondition (conds : list VarmorPolicyCondition)
    (status : ConditionStatus) (now : Time) (reason message : string)
    : list VarmorPolicyCondition * bool :=
  match conds with
  | [] => ([], false)
  | c :: rest =>
      if decide (Type_ c = VarmorPolicyUpdated) then
        ({| Type_ := Type_ c; Status := status; LastTransitionTime := now;
            Reason := reason; Message := message |} :: rest, true)
      else
        let (rest', exist) := setUpdatedCondition rest status now reason message in
        (c :: rest', exist)
  end.

(** The in-memory part of [updateVarmorPolicyStatus] and of
    [updateVarmorClusterPolicyStatus], given the reading of the clock.  The
    loop ranges over the elements of the slice (none for a [nil] slice) and
    writes the one it finds in place; otherwise [append] adds the new
    condition.  Either way the slice that results is not [nil]. *)
Definition applyStatus (st : VarmorPolicyStatus) (profileName : string)
    (resetReady : bool) (phase : VarmorPolicyPhase)
    (condType : VarmorPolicyConditionType) (status : ConditionStatus)
    (reason message : string) (now : Time) : VarmorPolicyStatus :=
  let (conds, exist) :=
    if decide (condType = VarmorPolicyUpdated)
    then setUpdatedCondition (Conditions st) status now reason message
    else (Conditions st, false) in
  let conds :=
    if exist then conds
    else conds ++ [{| Type_ := condType; Status := status; LastTransitionTime := now;
                      Reason := reason; Message := message |}] in
  {| ProfileName := if decide (profileName = "") then ProfileName st else profileName;
     Ready := if resetReady then false else Ready st;
     Phase := if decide (phase = VarmorPolicyUnchanged) then Phase st else phase;
     ConditionSlice := Some conds |}.

(** [updateVarmorPolicyStatus] / [updateVarmorClusterPolicyStatus]: [vp] is
    changed in place whatever the server answers; the answer is returned
    as it is. *)
Definition updateVarmorPolicyStatus (vp : VarmorPolicy) (profileName : string)
    (resetReady : bool) (phase : VarmorPolicyPhase)
    (condType : VarmorPolicyConditionType) (status : ConditionStatus)
    (reason message : string) : M (VarmorPolicy * error) :=
  now <- Now ;;
  let vp' := withStatus (applyStatus (PolicyStatus vp) profileName resetReady phase
                           condType status reason message now) vp in
  err <- PolicyUpdateStatus vp' ;;
  ret (vp', err).

Section Controller.

Context (pkg : Collaborators) (c : PolicyController).

(** *** Event Router *)

(** [enqueuePolicy] / [enqueueClusterPolicy] *)
Definition enqueuePolicy (vp : VarmorPolicy) : M unit :=
  QAdd (MetaNamespaceKeyFunc vp).

(** [addVarmorPolicy] / [addVarmorClusterPolicy] *)
Definition addVarmorPolicy (obj : VarmorPolicy) : M unit := enqueuePolicy obj.

(** [deleteVarmorPolicy] / [deleteVarmorClusterPolicy] *)
Definition deleteVarmorPolicy (obj : VarmorPolicy) : M unit := enqueuePolicy obj.

(** [updateVarmorPolicy] / [updateVarmorClusterPolicy]: the same
    three-way test in both files. *)
Definition updateVarmorPolicy (oldVp newVp : VarmorPolicy) : M unit :=
  if bool_decide (ResourceVersion newVp = ResourceVersion oldVp)
     || bool_decide (Spec newVp = Spec oldVp)
     || negb (bool_decide (PolicyStatus newVp = PolicyStatus oldVp))
  then ret tt
  else enqueuePolicy newVp.

(** *** Profile Synchronizer: delete *)

(** [handleDeleteVarmorPolicy] / [handleDeleteVarmorClusterPolicy]; the
    cluster controller ignores the namespace, keeps its profiles in the
    namespace of vArmor and restarts workloads in all namespaces. *)
Definition handleDeleteVarmorPolicy (namespace name : string) : M error :=
  let apName :=
    match scope c with
    | Namespaced => GenerateArmorProfileName pkg namespace name false
    | Cluster => GenerateArmorProfileName pkg "" name true
    end in
  let apNamespace :=
    match scope c with
    | Namespaced => namespace
    | Cluster => varmorconfigNamespace pkg
    end in
  r <- ProfileGet apNamespace apName ;;
  match r with
  | inr err => if IsNotFound err then ret None else ret (Some err)
  | inl ap =>
      err <- ProfileDelete apNamespace apName ;;
      match err with
      | Some e => ret (Some e)
      | None =>
          (if restartExistWorkloads c then
             emit (GoUpdateWorkloadAnnotationsAndEnv
                     (match scope c with Namespaced => namespace | Cluster => NamespaceAll end)
                     (ProfEnforcer (ApProfile (ApSpec ap)))
                     (ApTarget (ApSpec ap)) "" "" false)
           else ret tt) ;;;
          emit (SendDeleteCh
                  (match scope c with
                   | Namespaced => namespace +:+ "/" +:+ name
                   | Cluster => name
                   end)) ;;;
          ret None
      end
  end.

(** [resetArmorProfileModelStatus] (namespace-scoped controller only) *)
Definition resetArmorProfileModelStatus (namespace name : string) : M error :=
  r <- ModelGet namespace name ;;
  match r with
  | inl apm =>
      ModelUpdateStatus namespace name
        {| CompletedNumber := 0; ApmConditions := []; ApmReady := false |}
  | inr _ => ret None
  end.

(** *** Validation Gate: create *)

(** The body shared by the five rejections of [ignoreAdd]: the status
    write, whose error is logged and dropped, then [return true]. *)
Definition forbidAdd (vp : VarmorPolicy) (message : string) : M bool :=
  updateVarmorPolicyStatus vp "" true VarmorPolicyError VarmorPolicyCreated
    ConditionFalse "Forbidden" message ;;;
  ret true.

(** [ignoreAdd]; the files differ in the behavior-modeling check (the
    cluster controller never accepts the mode) and in two messages. *)
Definition ignoreAdd (vp : VarmorPolicy) : M bool :=
  let target := SpecTarget (Spec vp) in
  if bool_decide (Kind target ≠ "Deployment") && bool_decide (Kind target ≠ "StatefulSet")
     && bool_decide (Kind target ≠ "DaemonSet") && bool_decide (Kind target ≠ "Pod")
  then forbidAdd vp "This kind of target is not supported."
  else if bool_decide (TargetName target = "") && bool_decide (Selector target = None)
  then forbidAdd vp "You should specify the target workload by name or selector."
  else if bool_decide (TargetName target ≠ "") && bool_decide (Selector target ≠ None)
  then forbidAdd vp
         match scope c with
         | Namespaced => "You shouldn't specify the target workload by both both name and selector."
         | Cluster => "You shouldn't specify the target workload by both name and selector."
         end
  else if match scope c with
          | Namespaced => negb (enableDefenseInDepth c)
                          && bool_decide (Mode (SpecPolicy (Spec vp)) = DefenseInDepthMode)
          | Cluster => bool_decide (Mode (SpecPolicy (Spec vp)) = DefenseInDepthMode)
          end
  then forbidAdd vp
         match scope c with
         | Namespaced => "The DefenseInDepth feature is not enabled."
         | Cluster => "The DefenseInDepth feature is not supported for the VarmorClusterPolicy controller."
         end
  else
    let profileName :=
      match scope c with
      | Namespaced => GenerateArmorProfileName pkg (Namespace vp) (Name vp) false
      | Cluster => GenerateArmorProfileName pkg "" (Name vp) true
      end in
    if bool_decide (63 < Z.of_nat (String.length profileName))
    then forbidAdd vp
           ("The length of "
            +:+ match scope c with Namespaced => "VarmorProfile" | Cluster => "VarmorClusterPolicy" end
            +:+ " object name is too long, please limit it to "
            +:+ pretty (63 - Z.of_nat (String.length (ProfileNameTemplate pkg)) + 4
                        - Z.of_nat (String.length (Namespace vp)))
            +:+ " bytes")
    else ret false.

(** *** Profile Synchronizer: create *)

(** [handleAddVarmorPolicy] / [handleAddVarmorClusterPolicy] *)
Definition handleAddVarmorPolicy (vp : VarmorPolicy) : M error :=
  ignore <- ignoreAdd vp ;;
  if ignore then ret None
  else
    match NewArmorProfile pkg vp (isCluster (scope c)) with
    | inr err =>
        r <- updateVarmorPolicyStatus vp "" true VarmorPolicyError VarmorPolicyCreated
               ConditionFalse "Error" (Error err) ;;
        match r.2 with
        | Some e => ret (Some e)
        | None => ret None
        end
    | inl ap =>
        r <- updateVarmorPolicyStatus vp (ProfName (ApProfile (ApSpec ap))) true
               VarmorPolicyPending VarmorPolicyCreated ConditionTrue "" "" ;;
        match r.2 with
        | Some e => ret (Some e)
        | None =>
            (match scope c with
             | Namespaced =>
                 if bool_decide (Mode (SpecPolicy (Spec vp)) = DefenseInDepthMode)
                 then resetArmorProfileModelStatus (ApNamespace ap) (ApName ap) ;;; ret tt
                 else ret tt
             | Cluster => ret tt
             end) ;;;
            emit SetUpdateDesiredNumber ;;;
            modify (set_UpdateDesiredNumber true) ;;;
            r <- ProfileCreate
                   (match scope c with
                    | Namespaced => Namespace vp
                    | Cluster => varmorconfigNamespace pkg
                    end) ap ;;
            match r with
            | inr e => ret (Some e)
            | inl ap =>
                (if restartExistWorkloads c then
                   emit (GoUpdateWorkloadAnnotationsAndEnv
                           (match scope c with Namespaced => Namespace vp | Cluster => NamespaceAll end)
                           (Enforcer (SpecPolicy (Spec vp)))
                           (SpecTarget (Spec vp))
                           (ApName ap)
                           (UniqueID (ApBehaviorModeling (ApSpec ap)))
                           (bpfExclusiveMode c))
                 else ret tt) ;;;
                ret None
            end
        end
    end.

(** *** Validation Gate: update *)

(** The body shared by the five rejections of [ignoreUpdate]: the status
    write, then [return true, err] with the error of that write. *)
Definition forbidUpdate (newVp : VarmorPolicy) (resetReady : bool) (message : string)
    : M (bool * error) :=
  r <- updateVarmorPolicyStatus newVp "" resetReady VarmorPolicyUnchanged
         VarmorPolicyUpdated ConditionFalse "Forbidden" message ;;
  ret (true, r.2).

(** [ignoreUpdate]; the files differ in the kind named by the messages. *)
Definition ignoreUpdate (newVp : VarmorPolicy) (oldAp : ArmorProfile) : M (bool * error) :=
  let policy := SpecPolicy (Spec newVp) in
  let recorded := BmModelingDuration (ApBehaviorModeling (ApSpec oldAp)) in
  (* Disallow modify the target. *)
  if negb (bool_decide (SpecTarget (Spec newVp) = ApTarget (ApSpec oldAp)))
  then forbidUpdate newVp true
         ("Modify the target of " +:+ kindName (scope c)
          +:+ " is not allowed. You need to recreate the " +:+ kindName (scope c) +:+ " object.")
  (* Disallow switch mode from others to DefenseInDepth. *)
  else if bool_decide (Mode policy = DefenseInDepthMode) && bool_decide (recorded = 0)
  then forbidUpdate newVp true
         ("Switch the mode from others to DefenseInDepth is not allowed. You need to recreate the "
          +:+ kindName (scope c) +:+ " object.")
  (* Disallow switch mode from DefenseInDepth to others. *)
  else if bool_decide (Mode policy ≠ DefenseInDepthMode) && bool_decide (recorded ≠ 0)
  then forbidUpdate newVp true
         ("Switch the mode from DefenseInDepth to others is not allowed. You need to recreate the "
          +:+ kindName (scope c) +:+ " object.")
  (* Disallow modify the policy that run as DefenseInDepth mode and already completed. *)
  else if bool_decide (Mode policy = DefenseInDepthMode)
          && (bool_decide (Phase (PolicyStatus newVp) = VarmorPolicyCompleted)
              || bool_decide (Phase (PolicyStatus newVp) = VarmorPolicyProtecting))
  then forbidUpdate newVp false
         ("Modify the " +:+ kindName (scope c)
          +:+ " that run as DefenseInDepth mode and already completed is not allowed. You need to recreate the "
          +:+ kindName (scope c) +:+ " object.")
  (* Nothing need to be updated if the policy is in the modeling phase and
     its duration is not changed. *)
  else if bool_decide (Mode policy = DefenseInDepthMode)
          && bool_decide (Phase (PolicyStatus newVp) = VarmorPolicyModeling)
          && bool_decide (ModelingDuration (PolicyDefenseInDepth policy) = recorded)
  then ret (true, None)
  (* Disallow switch the enforcer. *)
  else if bool_decide (Enforcer policy ≠ ProfEnforcer (ApProfile (ApSpec oldAp)))
  then forbidUpdate newVp true
         ("Switch the enforcer is not allowed. You need to recreate the "
          +:+ kindName (scope c) +:+ " object.")
  else ret (false, None).

(** *** Profile Synchronizer: update *)

(** The spec the update handler builds from the old one and the
    recompiled profile ([newApSpec]). *)
Definition buildApSpec (newVp : VarmorPolicy) (oldAp : ArmorProfile) (newProfile : Profile)
    : ArmorProfileSpec :=
  let old := ApSpec oldAp in
  {| ApTarget := ApTarget old;
     ApProfile := newProfile;
     ApBehaviorModeling :=
       match scope c with
       | Namespaced =>
           if bool_decide (Mode (SpecPolicy (Spec newVp)) = DefenseInDepthMode)
           then {| BmModelingDuration :=
                     ModelingDuration (PolicyDefenseInDepth (SpecPolicy (Spec newVp)));
                   UniqueID := UniqueID (ApBehaviorModeling old) |}
           else ApBehaviorModeling old
       | Cluster => ApBehaviorModeling old
       end |}.

(** [handleUpdateVarmorPolicy] / [handleUpdateVarmorClusterPolicy]; only
    the namespace-scoped controller resets the behavior model, and the
    status key is ["namespace/name"] there and the bare name in the cluster
    controller. *)
Definition handleUpdateVarmorPolicy (newVp : VarmorPolicy) (oldAp : ArmorProfile) : M error :=
  g <- ignoreUpdate newVp oldAp ;;
  if g.1 then ret g.2
  else
    (* First, reset the policy's status *)
    r <- updateVarmorPolicyStatus newVp "" true VarmorPolicyPending VarmorPolicyUpdated
           ConditionTrue "" "" ;;
    let newVp := r.1 in
    match r.2 with
    | Some e => ret (Some e)
    | None =>
        (* Second, build a new ArmorProfileSpec *)
        match GenerateProfile pkg (SpecPolicy (Spec newVp))
                (ProfName (ApProfile (ApSpec oldAp))) false "" with
        | inr err =>
            r <- updateVarmorPolicyStatus newVp "" true VarmorPolicyError VarmorPolicyCreated
                   ConditionFalse "Error" (Error err) ;;
            match r.2 with
            | Some e => ret (Some e)
            | None => ret None
            end
        | inl newProfile =>
            let newApSpec := buildApSpec newVp oldAp newProfile in
            (* Last, do update *)
            let statusKey :=
              match scope c with
              | Namespaced => Namespace newVp +:+ "/" +:+ Name newVp
              | Cluster => Name newVp
              end in
            emit SetUpdateDesiredNumber ;;;
            modify (set_UpdateDesiredNumber true) ;;;
            if negb (bool_decide (ApSpec oldAp = newApSpec)) then
              let oldAp := withApStatus {| CurrentNumberLoaded := 0; ApConditions := [] |} oldAp in
              r <- ProfileUpdateStatus
                     (match scope c with
                      | Namespaced => Namespace newVp
                      | Cluster => ApNamespace oldAp
                      end) oldAp ;;
              match r with
              | inr e => ret (Some e)
              | inl oldAp =>
                  (match scope c with
                   | Namespaced =>
                       if bool_decide (Mode (SpecPolicy (Spec newVp)) = DefenseInDepthMode)
                       then resetArmorProfileModelStatus (Namespace newVp) (ApName oldAp) ;;; ret tt
                       else ret tt
                   | Cluster => ret tt
                   end) ;;;
                  emit (SendResetCh statusKey) ;;;
                  let oldAp := withApSpec newApSpec oldAp in
                  err <- ProfileUpdate
                           (match scope c with
                            | Namespaced => Namespace newVp
                            | Cluster => ApNamespace oldAp
                            end) oldAp ;;
                  match err with
                  | Some e => ret (Some e)
                  | None => ret None
                  end
              end
            else
              emit (SendUpdateStatusCh statusKey) ;;;
              ret None
        end
    end.

(** *** Profile Synchronizer: dispatch *)

(** [syncPolicy] / [syncClusterPolicy] *)
Definition syncPolicy (key : string) : M error :=
  match SplitMetaNamespaceKey key with
  | inr err => ret (Some err)
  | inl (namespace, name) =>
      let policyNamespace :=
        match scope c with Namespaced => namespace | Cluster => "" end in
      r <- PolicyGet policyNamespace name ;;
      match r with
      | inr err =>
          if IsNotFound err then
            (* policy delete event *)
            handleDeleteVarmorPolicy namespace name
          else ret (Some err)
      | inl vp =>
          let apName :=
            match scope c with
            | Namespaced => GenerateArmorProfileName pkg (Namespace vp) (Name vp) false
            | Cluster => GenerateArmorProfileName pkg "" (Name vp) true
            end in
          r <- ProfileGet
                 (match scope c with
                  | Namespaced => Namespace vp
                  | Cluster => varmorconfigNamespace pkg
                  end) apName ;;
          match r with
          | inr err =>
              if IsNotFound err then
                (* policy create event *)
                handleAddVarmorPolicy vp
              else ret (Some err)
          | inl ap =>
              (* policy update event *)
              handleUpdateVarmorPolicy vp ap
          end
      end
  end.

(** *** Worker Loop *)

(** [handleErr], the same in both files. *)
Definition handleErr (err : error) (key : string) : M unit :=
  match err with
  | None => QForget key
  | Some e =>
      n <- QNumRequeues key ;;
      if bool_decide (n < maxRetries)%nat then QAddRateLimited key
      else
        emit (RuntimeHandleError e) ;;;
        QForget key
  end.

(** [None] when [queue.Get] would block; [defer c.queue.Done(key)] runs
    last. *)
Definition processNextWorkItem (w : World) : option (bool * World) :=
  match qGet (queue w) with
  | None => None
  | Some (key, quit, q) =>
      let w := set_queue (fun _ => q) w in
      if quit then Some (false, w)
      else
        let (_, w) :=
          (err <- syncPolicy key ;;
           handleErr err key ;;;
           QDone key) w in
        Some (true, w)
  end.

(** How a run of [worker] ends: [processNextWorkItem] said [false] and the
    loop returned; [queue.Get] has nothing to hand out and blocks; or the
    turns allotted to the run are used up. *)
Inductive WorkerResult :=
  | Returned (w : World)
  | Blocked (w : World)
  | StillRunning (w : World).

(** [worker]: [for c.processNextWorkItem() {}], for at most [turns] turns
    of the loop. *)
Fixpoint worker (turns : nat) (w : World) : WorkerResult :=
  match turns with
  | O => StillRunning w
  | S turns =>
      match processNextWorkItem w with
      | None => Blocked w
      | Some (false, w') => Returned w'
      | Some (true, w') => worker turns w'
      end
  end.

(** [CleanUp] *)
Definition CleanUp : M unit := modify (set_queue qShutDown).

End Controller.

(** * Reference definitions and sample inputs *)

(** The condition a call to the status reporter writes. *)
Definition mkCondition (condType : VarmorPolicyConditionType) (status : ConditionStatus)
    (now : Time) (reason message : string) : VarmorPolicyCondition :=
  {| Type_ := condType; Status := status; LastTransitionTime := now;
     Reason := reason; Message := message |}.


(** ** The update gate as the specification words it

    [validateUpdate]: six checks, evaluated in a fixed order, the first
    one that matches decides. *)
Inductive UpdateCheck :=
  | TargetChange          (* 1. target differs *)
  | SwitchIntoModeling    (* 2. into behavior-modeling, recorded duration zero *)
  | SwitchOutOfModeling   (* 3. out of behavior-modeling, recorded duration non-zero *)
  | CompletedLock         (* 4. behavior-modeling and already Completed/Protecting *)
  | NoopDuration          (* 5. behavior-modeling, Modeling, duration unchanged *)
  | EnforcerMismatch.     (* 6. enforcer differs from the recorded one *)

#[global] Instance UpdateCheck_eq_dec : EqDecision UpdateCheck.
Proof. solve_decision. Defined.

Definition updateChecks : list UpdateCheck :=
  [TargetChange; SwitchIntoModeling; SwitchOutOfModeling; CompletedLock;
   NoopDuration; EnforcerMismatch].

Definition matches (newVp : VarmorPolicy) (oldAp : ArmorProfile) (ck : UpdateCheck) : bool :=
  let policy := SpecPolicy (Spec newVp) in
  let recorded := BmModelingDuration (ApBehaviorModeling (ApSpec oldAp)) in
  let modeling := bool_decide (Mode policy = DefenseInDepthMode) in
  match ck with
  | TargetChange => negb (bool_decide (SpecTarget (Spec newVp) = ApTarget (ApSpec oldAp)))
  | SwitchIntoModeling => modeling && bool_decide (recorded = 0)
  | SwitchOutOfModeling => negb modeling && negb (bool_decide (recorded = 0))
  | CompletedLock =>
      modeling && (bool_decide (Phase (PolicyStatus newVp) = VarmorPolicyCompleted)
                   || bool_decide (Phase (PolicyStatus newVp) = VarmorPolicyProtecting))
  | NoopDuration =>
      modeling && bool_decide (Phase (PolicyStatus newVp) = VarmorPolicyModeling)
      && bool_decide (ModelingDuration (PolicyDefenseInDepth policy) = recorded)
  | EnforcerMismatch =>
      negb (bool_decide (Enforcer policy = ProfEnforcer (ApProfile (ApSpec oldAp))))
  end.

(** The first check that matches, if any. *)
Definition firstMatch (newVp : VarmorPolicy) (oldAp : ArmorProfile) : option UpdateCheck :=
  List.find (matches newVp oldAp) updateChecks.

(** The message a rejection records. *)
Definition rejectionMessage (sc : Scope) (ck : UpdateCheck) : string :=
  match ck with
  | TargetChange =>
      "Modify the target of " +:+ kindName sc
      +:+ " is not allowed. You need to recreate the " +:+ kindName sc +:+ " object."
  | SwitchIntoModeling =>
      "Switch the mode from others to DefenseInDepth is not allowed. You need to recreate the "
      +:+ kindName sc +:+ " object."
  | SwitchOutOfModeling =>
      "Switch the mode from DefenseInDepth to others is not allowed. You need to recreate the "
      +:+ kindName sc +:+ " object."
  | CompletedLock =>
      "Modify the " +:+ kindName sc
      +:+ " that run as DefenseInDepth mode and already completed is not allowed. You need to recreate the "
      +:+ kindName sc +:+ " object."
  | NoopDuration => ""
  | EnforcerMismatch =>
      "Switch the enforcer is not allowed. You need to recreate the "
      +:+ kindName sc +:+ " object."
  end.

(** Whether the rejection passes [resetReady = true] to the reporter. *)
Definition resetsReady (ck : UpdateCheck) : bool :=
  match ck with CompletedLock => false | _ => true end.

(** What the gate does once the deciding check is known: proceed, skip
    silently, or record a [Forbidden] condition of type [Updated]. *)
Definition gateOutcome (sc : Scope) (newVp : VarmorPolicy) (ck : option UpdateCheck)
    : M (bool * error) :=
  match ck with
  | None => ret (false, None)
  | Some NoopDuration => ret (true, None)
  | Some ck =>
      r <- updateVarmorPolicyStatus newVp "" (resetsReady ck) VarmorPolicyUnchanged
             VarmorPolicyUpdated ConditionFalse "Forbidden" (rejectionMessage sc ck) ;;
      ret (true, r.2)
  end.

(** The policy object a rejection by check [ck] submits to the store, when
    the clock reads [now]. *)
Definition rejectedPolicy (sc : Scope) (newVp : VarmorPolicy) (ck : UpdateCheck) (now : Time)
    : VarmorPolicy :=
  withStatus (applyStatus (PolicyStatus newVp) "" (resetsReady ck) VarmorPolicyUnchanged
                VarmorPolicyUpdated ConditionFalse "Forbidden" (rejectionMessage sc ck) now)
    newVp.

(** ** Sample inputs *)

(** A stand-in for [internal/profile]: names follow the
    ["varmor-<namespace>-<name>"] pattern, and the generator refuses the
    rule set ["invalid"]. *)
Definition samplePkg : Collaborators :=
  {| GenerateArmorProfileName := fun ns name cluster =>
       if cluster then "varmor-cluster-varmor-" +:+ name
       else "varmor-" +:+ ns +:+ "-" +:+ name;
     ProfileNameTemplate := "varmor-%s-%s";
     NewArmorProfile := fun vp cluster =>
       if bool_decide (Rules (SpecPolicy (Spec vp)) = "invalid")
       then inr (ErrMsg "unknown rule")
       else inl {| ApNamespace := if cluster then "varmor" else Namespace vp;
                   ApName := if cluster then "varmor-cluster-varmor-" +:+ Name vp
                             else "varmor-" +:+ Namespace vp +:+ "-" +:+ Name vp;
                   ApSpec :=
                     {| ApTarget := SpecTarget (Spec vp);
                        ApProfile :=
                          {| ProfName := if cluster then "varmor-cluster-varmor-" +:+ Name vp
                                         else "varmor-" +:+ Namespace vp +:+ "-" +:+ Name vp;
                             ProfEnforcer := Enforcer (SpecPolicy (Spec vp));
                             ProfMode := Mode (SpecPolicy (Spec vp));
                             Content := Rules (SpecPolicy (Spec vp)) |};
                        ApBehaviorModeling :=
                          {| BmModelingDuration :=
                               ModelingDuration (PolicyDefenseInDepth (SpecPolicy (Spec vp)));
                             UniqueID := "" |} |};
                   ApStatus := {| CurrentNumberLoaded := 0; ApConditions := [] |} |};
     GenerateProfile := fun policy name _ _ =>
       if bool_decide (Rules policy = "invalid")
       then inr (ErrMsg "unknown rule")
       else inl {| ProfName := name; ProfEnforcer := Enforcer policy;
                   ProfMode := Mode policy; Content := Rules policy |};
     varmorconfigNamespace := "varmor" |}.

Definition nsController : PolicyController :=
  {| scope := Namespaced; restartExistWorkloads := true;
     enableDefenseInDepth := true; bpfExclusiveMode := false |}.

Definition clusterController : PolicyController :=
  {| scope := Cluster; restartExistWorkloads := true;
     enableDefenseInDepth := false; bpfExclusiveMode := false |}.

Definition targetA : Target :=
  {| Kind := "Deployment"; TargetName := "a"; Containers := None; Selector := None |}.

Definition targetB : Target :=
  {| Kind := "Deployment"; TargetName := "b"; Containers := None; Selector := None |}.

Definition mkPolicy (target : Target) (enforcer : string) (mode : VarmorPolicyMode)
    (duration : Z) (rules : string) (rv : string) (st : VarmorPolicyStatus) : VarmorPolicy :=
  {| Namespace := "default"; Name := "demo"; ResourceVersion := rv;
     Spec := {| SpecTarget := target;
                SpecPolicy := {| Enforcer := enforcer; Mode := mode;
                                 PolicyDefenseInDepth := {| ModelingDuration := duration |};
                                 Rules := rules |} |};
     PolicyStatus := st |}.

Definition mkProfile (target : Target) (enforcer : string) (mode : string)
    (duration : Z) (content : string) : ArmorProfile :=
  {| ApNamespace := "default"; ApName := "varmor-default-demo";
     ApSpec := {| ApTarget := target;
                  ApProfile := {| ProfName := "varmor-default-demo"; ProfEnforcer := enforcer;
                                  ProfMode := mode; Content := content |};
                  ApBehaviorModeling := {| BmModelingDuration := duration; UniqueID := "" |} |};
     ApStatus := {| CurrentNumberLoaded := 3; ApConditions := [] |} |}.

Definition createdTrue : VarmorPolicyCondition :=
  mkCondition VarmorPolicyCreated ConditionTrue 7 "" "".

Definition updatedTrue : VarmorPolicyCondition :=
  mkCondition VarmorPolicyUpdated ConditionTrue 8 "" "".

Definition statusOf (ready : bool) (phase : VarmorPolicyPhase)
    (conds : list VarmorPolicyCondition) : VarmorPolicyStatus :=
  {| ProfileName := "varmor-default-demo"; Ready := ready; Phase := phase;
     ConditionSlice := Some conds |}.

Definition emptyQueue : WorkQueue :=
  {| items := []; dirty := ∅; processing := ∅; shuttingDown := false;
     failures := ∅; waiting := [] |}.

(** A world whose stores hold the policy and its profile and whose server
    gives the listed answers. *)
Definition worldOf (vp : VarmorPolicy) (ap : ArmorProfile) (ans : list error) : World :=
  {| policies := {[ (Namespace vp, Name vp) := vp ]};
     profiles := {[ (ApNamespace ap, ApName ap) := ap ]};
     models := ∅;
     answers := ans;
     clock := 100;
     queue := emptyQueue;
     UpdateDesiredNumber := false;
     trace := [] |}.

(** The policy of the end-to-end scenario: enforcer AppArmor, mode
    AlwaysAllow, target [a], ready and protecting. *)
Definition plainPolicy : VarmorPolicy :=
  mkPolicy targetA "AppArmor" "AlwaysAllow" 0 "" "1"
    (statusOf true VarmorPolicyProtecting [createdTrue]).

Definition plainProfile : ArmorProfile :=
  mkProfile targetA "AppArmor" "AlwaysAllow" 0 "".

(** The policy object a rejected create submits to the store. *)
Definition createRejection (vp : VarmorPolicy) (message : string) (now : Time) : VarmorPolicy :=
  withStatus (applyStatus (PolicyStatus vp) "" true VarmorPolicyError VarmorPolicyCreated
                ConditionFalse "Forbidden" message now) vp.

(** A policy in behavior-modeling mode, phase [Modeling]. *)
Definition modelingPolicy (target : Target) (enforcer : string) (duration : Z) : VarmorPolicy :=
  mkPolicy target enforcer DefenseInDepthMode duration "" "5"
    (statusOf true VarmorPolicyModeling [createdTrue]).

Definition conflict : GoError := ErrMsg "the object has been modified".

(** The policy object the update handler submits first, once the gate has
    let the update through: phase [Pending], condition [Updated]/[True],
    ready flag reset. *)
Definition pendingPolicy (newVp : VarmorPolicy) (now : Time) : VarmorPolicy :=
  withStatus (applyStatus (PolicyStatus newVp) "" true VarmorPolicyPending
                VarmorPolicyUpdated ConditionTrue "" "" now) newVp.

(** The policy object submitted when the recompilation fails with [err]. *)
Definition failedPolicy (vp : VarmorPolicy) (err : GoError) (now : Time) : VarmorPolicy :=
  withStatus (applyStatus (PolicyStatus vp) "" true VarmorPolicyError
                VarmorPolicyCreated ConditionFalse "Error" (Error err) now) vp.

(** The key under which the status manager knows the policy. *)
Definition statusKeyOf (sc : Scope) (vp : VarmorPolicy) : string :=
  match sc with
  | Namespaced => Namespace vp +:+ "/" +:+ Name vp
  | Cluster => Name vp
  end.

(** Where [syncPolicy] looks for the policy of a key and for its profile. *)
Definition policyRef (sc : Scope) (namespace name : string) : string * string :=
  match sc with Namespaced => (namespace, name) | Cluster => ("", name) end.

Definition profileRef (pkg : Collaborators) (sc : Scope) (vp : VarmorPolicy) : string * string :=
  match sc with
  | Namespaced => (Namespace vp, GenerateArmorProfileName pkg (Namespace vp) (Name vp) false)
  | Cluster => (varmorconfigNamespace pkg, GenerateArmorProfileName pkg "" (Name vp) true)
  end.

(** The worker's reactions to a run of consecutive failed syncs of one
    key: [handleErr] once per failure. *)
Fixpoint handleErrs (errs : list GoError) (key : string) : M unit :=
  match errs with
  | [] => ret tt
  | e :: rest => handleErr (Some e) key ;;; handleErrs rest key
  end.

(** One turn of a worker, followed by the back-off delay of the oldest
    parked key running out. *)
Definition workerTurn (pkg : Collaborators) (c : PolicyController) (w : World) : World :=
  match processNextWorkItem pkg c w with
  | Some (_, w') => set_queue qElapse w'
  | None => w
  end.

(** A world whose queue holds the key of [plainPolicy] and whose server
    fails the next six calls. *)
Definition failingWorld : World :=
  set_queue (qAdd "default/demo")
    (worldOf plainPolicy plainProfile (replicate 6 (Some conflict))).

(** ** Calls a handler may make *)

(** [w'] comes from [w] by calls that all satisfy [allowed], none of them
    on the work queue: the trace only grows, by allowed calls, and the
    queue is as it was. *)
Definition extends (allowed : Call -> bool) (w w' : World) : Prop :=
  queue w' = queue w
  ∧ ∃ t, trace w' = trace w ++ t ∧ Forall (fun call => allowed call = true) t.

Definition confined {A} (allowed : Call -> bool) (m : M A) : Prop :=
  ∀ w, extends allowed w (m w).2.

(** The calls of the delete handler. *)
Definition deleteCalls (call : Call) : bool :=
  match call with
  | CallProfileGet _ _ | CallProfileDelete _ _
  | GoUpdateWorkloadAnnotationsAndEnv _ _ _ _ _ _ | SendDeleteCh _ => true
  | _ => false
  end.

(** The calls of the create handler. *)
Definition addCalls (call : Call) : bool :=
  match call with
  | CallPolicyUpdateStatus _ | CallModelGet _ _ | CallModelUpdateStatus _ _ _
  | SetUpdateDesiredNumber | CallProfileCreate _ _
  | GoUpdateWorkloadAnnotationsAndEnv _ _ _ _ _ _ => true
  | _ => false
  end.

(** The calls of the update handler. *)
Definition updateCalls (call : Call) : bool :=
  match call with
  | CallPolicyUpdateStatus _ | CallModelGet _ _ | CallModelUpdateStatus _ _ _
  | SetUpdateDesiredNumber | CallProfileUpdateStatus _ _ | CallProfileUpdate _ _
  | SendResetCh _ | SendUpdateStatusCh _ => true
  | _ => false
  end.

(** The calls of a sync: the two reads and those of the three handlers. *)
Definition syncCalls (call : Call) : bool :=
  match call with
  | CallPolicyGet _ _ | CallProfileGet _ _ => true
  | _ => deleteCalls call || addCalls call || updateCalls call
  end.

(** A call on the work queue. *)
Definition queueCall (call : Call) : bool :=
  match call with
  | QueueAdd _ | QueueAddRateLimited _ | QueueForget _ | QueueDone _ => true
  | _ => false
  end.

(** ** Stepping through the server *)

(** The world once the server has answered one call recorded as [call]. *)
Definition answered (call : Call) (w : World) : World :=
  set_answers tail (set_trace (fun t => t ++ [call]) w).

(** The answer the server gives to the next call. *)
Definition nextAnswer (w : World) : error := hd None (answers w).

(** The status the rebuild path of the update handler gives the profile. *)
Definition resetStatus : ArmorProfileStatus :=
  {| CurrentNumberLoaded := 0; ApConditions := [] |}.

(** Where the update handler writes the profile. *)
Definition updateRef (c : PolicyController) (newVp : VarmorPolicy) (oldAp : ArmorProfile)
    : string * string :=
  (match scope c with Namespaced => Namespace newVp | Cluster => ApNamespace oldAp end,
   ApName oldAp).

(** Where the create handler writes the profile. *)
Definition createNamespace (pkg : Collaborators) (c : PolicyController) (vp : VarmorPolicy)
    : string :=
  match scope c with Namespaced => Namespace vp | Cluster => varmorconfigNamespace pkg end.

(** Where the delete handler looks for the profile of a key. *)
Definition deleteRef (pkg : Collaborators) (c : PolicyController) (namespace name : string)
    : string * string :=
  match scope c with
  | Namespaced => (namespace, GenerateArmorProfileName pkg namespace name false)
  | Cluster => (varmorconfigNamespace pkg, GenerateArmorProfileName pkg "" name true)
  end.

(** The name the create gate derives for the profile of a policy. *)
Definition derivedName (pkg : Collaborators) (c : PolicyController) (vp : VarmorPolicy)
    : string :=
  match scope c with
  | Namespaced => GenerateArmorProfileName pkg (Namespace vp) (Name vp) false
  | Cluster => GenerateArmorProfileName pkg "" (Name vp) true
  end.

(** What the create gate asks of a policy. *)
Definition admissible (pkg : Collaborators) (c : PolicyController) (vp : VarmorPolicy) : Prop :=
  Kind (SpecTarget (Spec vp)) ∈ ["Deployment"; "StatefulSet"; "DaemonSet"; "Pod"]
  ∧ (TargetName (SpecTarget (Spec vp)) = "" ↔ Selector (SpecTarget (Spec vp)) ≠ None)
  ∧ (Mode (SpecPolicy (Spec vp)) = DefenseInDepthMode →
     scope c = Namespaced ∧ enableDefenseInDepth c = true)
  ∧ (String.length (derivedName pkg c vp) ≤ 63)%nat.

(** The policy object a create submits once the profile is generated:
    phase [Pending], condition [Created]/[True], the profile's name. *)
Definition createdPolicy (vp : VarmorPolicy) (ap : ArmorProfile) (now : Time) : VarmorPolicy :=
  withStatus (applyStatus (PolicyStatus vp) (ProfName (ApProfile (ApSpec ap))) true
                VarmorPolicyPending VarmorPolicyCreated ConditionTrue "" "" now) vp.

(** The restart the create handler starts for a new profile. *)
Definition createRestart (c : PolicyController) (vp : VarmorPolicy) (ap : ArmorProfile) : Call :=
  GoUpdateWorkloadAnnotationsAndEnv
    (match scope c with Namespaced => Namespace vp | Cluster => NamespaceAll end)
    (Enforcer (SpecPolicy (Spec vp))) (SpecTarget (Spec vp)) (ApName ap)
    (UniqueID (ApBehaviorModeling (ApSpec ap))) (bpfExclusiveMode c).

Definition isRestart (call : Call) : bool :=
  match call with GoUpdateWorkloadAnnotationsAndEnv _ _ _ _ _ _ => true | _ => false end.

(** The keys a trace marks as done, in order. *)
Definition doneKeys (t : list Call) : list string :=
  omap (fun call => match call with QueueDone key => Some key | _ => None end) t.

(** The world a worker's turn hands to the sync: [Get] has taken a key off
    the queue. *)
Definition taken (w : World) : World :=
  match qGet (queue w) with
  | Some (_, _, q) => set_queue (fun _ => q) w
  | None => w
  end.

(** The world a turn of a worker leaves behind; a blocked turn leaves the
    world as it is. *)
Definition turn (pkg : Collaborators) (c : PolicyController) (w : World) : World :=
  match processNextWorkItem pkg c w with
  | Some (_, w') => w'
  | None => w
  end.

(** What the worker is to call on the queue and the error reporter for a
    key that has failed [n] times before, once its sync has returned
    [err]. *)
Definition verdictCalls (err : error) (n : nat) (key : string) : list Call :=
  match err with
  | None => [QueueForget key]
  | Some e =>
      if bool_decide (n < maxRetries)%nat then [QueueAddRateLimited key]
      else [RuntimeHandleError e; QueueForget key]
  end.

(** A run of consecutive failed syncs of [key], given by the worlds the
    worker's turns on [key] start from and the errors the syncs return: at
    each of these worlds the queue is open and hands out [key], the sync of
    [key] fails with the given error, and whatever happens between the end
    of that turn and the next world of the run (turns on other keys, new
    events, delays running out) leaves the retry counter of [key] as the
    turn left it. *)
Fixpoint failingRun (pkg : Collaborators) (c : PolicyController) (key : string)
    (run : list (World * GoError)) : Prop :=
  match run with
  | [] => True
  | (w, e) :: rest =>
      shuttingDown (queue w) = false
      ∧ head (items (queue w)) = Some key
      ∧ (syncPolicy pkg c key (taken w)).1 = Some e
      ∧ match rest with
        | [] => True
        | (w2, _) :: _ =>
            qNumRequeues key (queue w2) = qNumRequeues key (queue (turn pkg c w))
        end
      ∧ failingRun pkg c key rest
  end.

(** The six turns of a worker on [failingWorld], each followed by the
    back-off delay of the parked key running out. *)
Definition sixFailures : list (World * GoError) :=
  map (fun i => (Nat.iter i (workerTurn samplePkg nsController) failingWorld, conflict))
      (seq 0 6).

(** A policy object as the server hands it out after a write: the same
    object under a new resource version. *)
Definition withResourceVersion (rv : string) (vp : VarmorPolicy) : VarmorPolicy :=
  {| Namespace := Namespace vp; Name := Name vp; ResourceVersion := rv;
     Spec := Spec vp; PolicyStatus := PolicyStatus vp |}.

(** What lets an update through the gate. *)
Definition updatable (newVp : VarmorPolicy) (oldAp : ArmorProfile) : Prop :=
  let policy := SpecPolicy (Spec newVp) in
  let recorded := BmModelingDuration (ApBehaviorModeling (ApSpec oldAp)) in
  SpecTarget (Spec newVp) = ApTarget (ApSpec oldAp)
  ∧ (Mode policy = DefenseInDepthMode ↔ recorded ≠ 0)
  ∧ (Mode policy = DefenseInDepthMode →
     Phase (PolicyStatus newVp) ≠ VarmorPolicyCompleted
     ∧ Phase (PolicyStatus newVp) ≠ VarmorPolicyProtecting
     ∧ ¬ (Phase (PolicyStatus newVp) = VarmorPolicyModeling
          ∧ ModelingDuration (PolicyDefenseInDepth policy) = recorded))
  ∧ Enforcer policy = ProfEnforcer (ApProfile (ApSpec oldAp)).

(** No ["/"] in a name. *)
Fixpoint noSlash (s : string) : bool :=
  match s with
  | EmptyString => true
  | String a rest => negb (bool_decide (a = "/"%char)) && noSlash rest
  end.
(** * Properties *)

(** ** Status Reporter *)

Lemma setUpdatedCondition_absent conds status now reason message :
  (∀ c, c ∈ conds → Type_ c ≠ VarmorPolicyUpdated) →
  setUpdatedCondition conds status now reason message = (conds, false).
Proof.
  induction conds as [|c rest IH]; intros Hno; simpl; [done|].
  destruct (decide (Type_ c = VarmorPolicyUpdated)) as [Heq|_].
  - exfalso. apply (Hno c); [left | done].
  - rewrite IH; [done|]. intros c' Hin. apply Hno. by right.
Qed.

Lemma setUpdatedCondition_first conds i c status now reason message :
  conds !! i = Some c →
  Type_ c = VarmorPolicyUpdated →
  (∀ j c', (j < i)%nat → conds !! j = Some c' → Type_ c' ≠ VarmorPolicyUpdated) →
  setUpdatedCondition conds status now reason message
  = (<[i := mkCondition VarmorPolicyUpdated status now reason message]> conds, true).
Proof.
  revert i. induction conds as [|c0 rest IH]; intros i Hi Hty Hfirst; [done|].
  destruct i as [|i]; simpl in *.
  - injection Hi as ->. rewrite decide_True by done. by rewrite Hty.
  - rewrite decide_False.
    + rewrite (IH i); [done | done | done |].
      intros j c' Hj Hc'. apply (Hfirst (S j) c'); [lia | done].
    + apply (Hfirst 0%nat c0); [lia | done].
Qed.

Lemma updateVarmorPolicyStatus_unfold vp profileName resetReady phase condType status
    reason message w :
  let vp' := withStatus (applyStatus (PolicyStatus vp) profileName resetReady phase
                            condType status reason message (clock w)) vp in
  let w1 := set_trace (fun t => t ++ [CallPolicyUpdateStatus vp'])
              (set_clock (fun t => t + 1) w) in
  updateVarmorPolicyStatus vp profileName resetReady phase condType status reason message w
  = match answers w with
    | [] =>
        ((vp', None),
         set_policies (alter (withStatus (PolicyStatus vp')) (Namespace vp, Name vp)) w1)
    | Some e :: rest => ((vp', Some e), set_answers (fun _ => rest) w1)
    | None :: rest =>
        ((vp', None),
         set_policies (alter (withStatus (PolicyStatus vp')) (Namespace vp, Name vp))
           (set_answers (fun _ => rest) w1))
    end.
Proof.
  unfold updateVarmorPolicyStatus, PolicyUpdateStatus, bind, Now, emit, modify, answer, ret.
  simpl. destruct (answers w) as [|[e|] rest]; reflexivity.
Qed.

(** What a status write leaves alone, and what it returns. *)
Lemma updateVarmorPolicyStatus_facts vp profileName resetReady phase condType status
    reason message w :
  let r := updateVarmorPolicyStatus vp profileName resetReady phase condType status
             reason message w in
  let vp' := withStatus (applyStatus (PolicyStatus vp) profileName resetReady phase
                            condType status reason message (clock w)) vp in
  r.1.1 = vp'
  ∧ r.1.2 = hd None (answers w)
  ∧ trace r.2 = trace w ++ [CallPolicyUpdateStatus vp']
  ∧ answers r.2 = tail (answers w)
  ∧ profiles r.2 = profiles w
  ∧ models r.2 = models w
  ∧ queue r.2 = queue w
  ∧ clock r.2 = clock w + 1
  ∧ UpdateDesiredNumber r.2 = UpdateDesiredNumber w.
Proof.
  intros r vp'. subst r. rewrite updateVarmorPolicyStatus_unfold.
  destruct (answers w) as [|[e|] rest] eqn:Ha; simpl; rewrite ?Ha; done.
Qed.

Lemma setUpdatedCondition_elem conds conds' status now reason message :
  setUpdatedCondition conds status now reason message = (conds', true) →
  mkCondition VarmorPolicyUpdated status now reason message ∈ conds'.
Proof.
  revert conds'. induction conds as [|c rest IH]; intros conds'; simpl; [done|].
  destruct (decide (Type_ c = VarmorPolicyUpdated)) as [Heq|Hne].
  - intros [= <-]. rewrite Heq. left.
  - destruct (setUpdatedCondition rest status now reason message) as [rest' ex] eqn:E.
    intros [= <- ->]. right. by apply IH.
Qed.

(** Whatever the type, the condition handed to the reporter ends up in
    the list. *)
Lemma applyStatus_elem st profileName resetReady phase condType status reason message now :
  mkCondition condType status now reason message
  ∈ Conditions (applyStatus st profileName resetReady phase condType status reason message now).
Proof.
  unfold applyStatus.
  destruct (decide (condType = VarmorPolicyUpdated)) as [->|Hne].
  - destruct (setUpdatedCondition (Conditions st) status now reason message)
      as [conds' [|]] eqn:E; simpl.
    + by eapply setUpdatedCondition_elem.
    + apply elem_of_app. right. left.
  - simpl. apply elem_of_app. right. left.
Qed.

Lemma applyStatus_Ready st profileName resetReady phase condType status reason message now :
  Ready (applyStatus st profileName resetReady phase condType status reason message now)
  = if resetReady then false else Ready st.
Proof.
  unfold applyStatus.
  destruct (if decide (condType = VarmorPolicyUpdated) then _ else _) as [conds ex].
  reflexivity.
Qed.

Lemma applyStatus_Phase st profileName resetReady phase condType status reason message now :
  Phase (applyStatus st profileName resetReady phase condType status reason message now)
  = if decide (phase = VarmorPolicyUnchanged) then Phase st else phase.
Proof.
  unfold applyStatus.
  destruct (if decide (condType = VarmorPolicyUpdated) then _ else _) as [conds ex].
  reflexivity.
Qed.

(** A type other than [Updated] is never looked up: the condition is
    appended. *)
Lemma applyStatus_append st profileName resetReady phase condType status reason message now :
  condType ≠ VarmorPolicyUpdated →
  Conditions (applyStatus st profileName resetReady phase condType status reason message now)
  = Conditions st ++ [mkCondition condType status now reason message].
Proof.
  intros Hne. unfold applyStatus. rewrite decide_False by done. reflexivity.
Qed.

(** ** Validation Gate *)

(** The gate of the source is the ordered first-match evaluation of the
    six checks. *)
Lemma ignoreUpdate_firstMatch c newVp oldAp :
  ignoreUpdate c newVp oldAp = gateOutcome (scope c) newVp (firstMatch newVp oldAp).
Proof.
  unfold ignoreUpdate, firstMatch, forbidUpdate. simpl.
  repeat (case_bool_decide; simpl; try reflexivity; try congruence).
Qed.

(** ** Event Router *)

Lemma QAdd_unfold key w :
  QAdd key w = (tt, set_queue (qAdd key) (set_trace (fun t => t ++ [QueueAdd key]) w)).
Proof. reflexivity. Qed.

(** C1, as amended.  An update notification is enqueued exactly when the
    resource version changed, the spec changed and the status did not
    change; every other notification, among them one in which both the
    spec and the status changed, leaves the queue and the trace as they
    are.  "Changed" is what [reflect.DeepEqual] reports: the two specs, or
    the two statuses, are not deeply equal. *)
Theorem update_enqueues_iff_spec_changed_and_status_kept oldVp newVp w :
  (ResourceVersion newVp ≠ ResourceVersion oldVp
   ∧ Spec newVp ≠ Spec oldVp
   ∧ PolicyStatus newVp = PolicyStatus oldVp →
   updateVarmorPolicy oldVp newVp w
   = (tt, set_queue (qAdd (MetaNamespaceKeyFunc newVp))
            (set_trace (fun t => t ++ [QueueAdd (MetaNamespaceKeyFunc newVp)]) w)))
  ∧ (¬ (ResourceVersion newVp ≠ ResourceVersion oldVp
        ∧ Spec newVp ≠ Spec oldVp
        ∧ PolicyStatus newVp = PolicyStatus oldVp) →
     updateVarmorPolicy oldVp newVp w = (tt, w)).
Proof.
  unfold updateVarmorPolicy, enqueuePolicy. split.
  - intros (Hrv & Hspec & Hst).
    rewrite (bool_decide_eq_false_2 _ Hrv), (bool_decide_eq_false_2 _ Hspec),
      (bool_decide_eq_true_2 _ Hst). reflexivity.
  - intros Hno.
    destruct (bool_decide (ResourceVersion newVp = ResourceVersion oldVp)) eqn:E1; [done|].
    destruct (bool_decide (Spec newVp = Spec oldVp)) eqn:E2; [done|].
    destruct (bool_decide (PolicyStatus newVp = PolicyStatus oldVp)) eqn:E3; [|done].
    exfalso. apply Hno.
    apply bool_decide_eq_false in E1. apply bool_decide_eq_false in E2.
    apply bool_decide_eq_true in E3. done.
Qed.

(** A notification with a new resource version, a new spec and an
    unchanged status puts the key ["default/demo"] in the queue. *)
Lemma update_enqueues_witness :
  items (queue (updateVarmorPolicy plainPolicy
                  (mkPolicy targetA "AppArmor" "AlwaysAllow" 0 "deny-exec" "2"
                     (statusOf true VarmorPolicyProtecting [createdTrue]))
                  (worldOf plainPolicy plainProfile [])).2)
  = ["default/demo"].
Proof.
  destruct (update_enqueues_iff_spec_changed_and_status_kept plainPolicy
              (mkPolicy targetA "AppArmor" "AlwaysAllow" 0 "deny-exec" "2"
                 (statusOf true VarmorPolicyProtecting [createdTrue]))
              (worldOf plainPolicy plainProfile [])) as [He _].
  rewrite He; [reflexivity|].
  split; [discriminate | split; [discriminate | reflexivity]].
Defined.

(** C1, counterexample.  The resource version changed, the spec changed
    (new rules) and the status changed as well (ready went from true to
    false): the claim wants the key enqueued, the router skips the
    notification. *)
Lemma update_with_spec_and_status_change_is_skipped :
  ResourceVersion (mkPolicy targetA "AppArmor" "AlwaysAllow" 0 "deny-exec" "2"
                     (statusOf false VarmorPolicyPending [createdTrue]))
    ≠ ResourceVersion plainPolicy
  ∧ Spec (mkPolicy targetA "AppArmor" "AlwaysAllow" 0 "deny-exec" "2"
            (statusOf false VarmorPolicyPending [createdTrue]))
    ≠ Spec plainPolicy
  ∧ updateVarmorPolicy plainPolicy
      (mkPolicy targetA "AppArmor" "AlwaysAllow" 0 "deny-exec" "2"
         (statusOf false VarmorPolicyPending [createdTrue]))
      (worldOf plainPolicy plainProfile [])
    = (tt, worldOf plainPolicy plainProfile []).
Proof. split; [discriminate | split; [discriminate | reflexivity]]. Qed.

(** What the router's comparisons tell apart.  A list of containers that
    is empty where it was [nil] is a changed spec, and the notification is
    enqueued. *)
Lemma empty_containers_are_a_changed_spec :
  items (queue (updateVarmorPolicy plainPolicy
                  (mkPolicy {| Kind := "Deployment"; TargetName := "a";
                               Containers := Some []; Selector := None |}
                     "AppArmor" "AlwaysAllow" 0 "" "2"
                     (statusOf true VarmorPolicyProtecting [createdTrue]))
                  (worldOf plainPolicy plainProfile [])).2)
  = ["default/demo"].
Proof. reflexivity. Qed.

(** A list of conditions that is [nil] where it was empty is a changed
    status, and the notification is skipped although the spec changed. *)
Lemma nil_conditions_are_a_changed_status :
  updateVarmorPolicy
    (mkPolicy targetA "AppArmor" "AlwaysAllow" 0 "" "1"
       (statusOf true VarmorPolicyProtecting []))
    (mkPolicy targetA "AppArmor" "AlwaysAllow" 0 "deny-exec" "2"
       {| ProfileName := "varmor-default-demo"; Ready := true;
          Phase := VarmorPolicyProtecting; ConditionSlice := None |})
    (worldOf plainPolicy plainProfile [])
  = (tt, worldOf plainPolicy plainProfile []).
Proof. reflexivity. Qed.

(** The labels of a selector are a map: the order in which they are written
    makes no difference to a target, while an empty map is not a [nil]
    one. *)
Lemma selector_labels_are_a_map kind (k1 k2 v1 v2 : string) exprs :
  k1 ≠ k2 →
  {| Kind := kind; TargetName := ""; Containers := None;
     Selector := Some {| MatchLabels := Some (<[k1 := v1]> (<[k2 := v2]> ∅));
                         MatchExpressions := exprs |} |}
  = {| Kind := kind; TargetName := ""; Containers := None;
       Selector := Some {| MatchLabels := Some (<[k2 := v2]> (<[k1 := v1]> ∅));
                           MatchExpressions := exprs |} |}
  ∧ {| MatchLabels := Some ∅; MatchExpressions := exprs |}
    ≠ {| MatchLabels := None; MatchExpressions := exprs |}.
Proof.
  intros Hne. split; [|discriminate].
  by rewrite (insert_insert_ne (M := gmap string) ∅ k1 k2 v1 v2).
Qed.

(** ** Status Reporter: the claims *)

(** C3, as amended.  Only a condition of type [Updated] is looked up:
    when the list holds one, the first such entry gets the new status,
    reason, message and time in place, the order, the length and every
    other entry stay as they are; when it holds none, the condition is
    appended.  For every other type the condition is appended, whether or
    not the list already holds an entry of that type. *)
Theorem status_reporter_replaces_only_updated vp profileName resetReady phase condType
    status reason message w :
  let conds := Conditions (PolicyStatus vp) in
  let conds' :=
    Conditions (PolicyStatus (updateVarmorPolicyStatus vp profileName resetReady phase
                                condType status reason message w).1.1) in
  let new := mkCondition condType status (clock w) reason message in
  (condType ≠ VarmorPolicyUpdated → conds' = conds ++ [new])
  ∧ (condType = VarmorPolicyUpdated →
     (∀ c, c ∈ conds → Type_ c ≠ VarmorPolicyUpdated) →
     conds' = conds ++ [new])
  ∧ (condType = VarmorPolicyUpdated →
     ∀ i c, conds !! i = Some c →
            Type_ c = VarmorPolicyUpdated →
            (∀ j c', (j < i)%nat → conds !! j = Some c' → Type_ c' ≠ VarmorPolicyUpdated) →
            conds' = <[i := new]> conds ∧ length conds' = length conds).
Proof.
  intros conds conds' new. subst conds'.
  destruct (updateVarmorPolicyStatus_facts vp profileName resetReady phase condType
              status reason message w) as (-> & _).
  simpl. subst conds new. split; [|split].
  - intros Hne. by apply applyStatus_append.
  - intros -> Hno. unfold applyStatus. rewrite decide_True by done.
    by rewrite setUpdatedCondition_absent.
  - intros -> i c0 Hi Hty Hfirst. unfold applyStatus. rewrite decide_True by done.
    rewrite (setUpdatedCondition_first _ i c0) by done. simpl.
    split; [done | apply length_insert].
Qed.

(** The second of three conditions is the first of type [Updated]: it is
    the one rewritten. *)
Lemma status_reporter_witness :
  Conditions (PolicyStatus
    (updateVarmorPolicyStatus
       (mkPolicy targetA "AppArmor" "AlwaysAllow" 0 "" "1"
          (statusOf true VarmorPolicyProtecting [createdTrue; updatedTrue; updatedTrue]))
       "" true VarmorPolicyUnchanged VarmorPolicyUpdated ConditionFalse
       "Forbidden" "no" (worldOf plainPolicy plainProfile [])).1.1)
  = [createdTrue;
     mkCondition VarmorPolicyUpdated ConditionFalse 100 "Forbidden" "no";
     updatedTrue].
Proof.
  destruct (status_reporter_replaces_only_updated
              (mkPolicy targetA "AppArmor" "AlwaysAllow" 0 "" "1"
                 (statusOf true VarmorPolicyProtecting [createdTrue; updatedTrue; updatedTrue]))
              "" true VarmorPolicyUnchanged VarmorPolicyUpdated ConditionFalse
              "Forbidden" "no" (worldOf plainPolicy plainProfile [])) as (_ & _ & Hin).
  destruct (Hin eq_refl 1%nat updatedTrue) as [Heq _].
  - reflexivity.
  - reflexivity.
  - intros j c' Hj. destruct j as [|j]; [|lia]. simpl. intros [= <-]. discriminate.
  - exact Heq.
Defined.

(** C3, counterexample.  The list already holds a condition of type
    [Created]; reporting [Created] again leaves that entry as it was and
    appends a second one. *)
Lemma status_reporter_created_is_appended :
  createdTrue ∈ Conditions (PolicyStatus plainPolicy)
  ∧ Type_ createdTrue = VarmorPolicyCreated
  ∧ Conditions (PolicyStatus
      (updateVarmorPolicyStatus plainPolicy "" true VarmorPolicyError VarmorPolicyCreated
         ConditionFalse "Error" "unknown rule" (worldOf plainPolicy plainProfile [])).1.1)
    = [createdTrue; mkCondition VarmorPolicyCreated ConditionFalse 100 "Error" "unknown rule"].
Proof. split; [left | split; reflexivity]. Qed.

(** ** Validation Gate: what a rejection does *)

Lemma updateVarmorPolicyStatus_policies vp profileName resetReady phase condType status
    reason message w :
  let r := updateVarmorPolicyStatus vp profileName resetReady phase condType status
             reason message w in
  policies r.2
  = match hd None (answers w) with
    | None => alter (withStatus (PolicyStatus r.1.1)) (Namespace vp, Name vp) (policies w)
    | Some _ => policies w
    end.
Proof.
  intros r. subst r. rewrite updateVarmorPolicyStatus_unfold.
  destruct (answers w) as [|[e|] rest] eqn:Ha; reflexivity.
Qed.

Lemma gateOutcome_reject sc newVp ck w :
  ck ≠ NoopDuration →
  let r := gateOutcome sc newVp (Some ck) w in
  r.1 = (true, hd None (answers w))
  ∧ trace r.2 = trace w ++ [CallPolicyUpdateStatus (rejectedPolicy sc newVp ck (clock w))]
  ∧ answers r.2 = tail (answers w)
  ∧ profiles r.2 = profiles w
  ∧ models r.2 = models w
  ∧ queue r.2 = queue w
  ∧ policies r.2
    = match hd None (answers w) with
      | None => alter (withStatus (PolicyStatus (rejectedPolicy sc newVp ck (clock w))))
                  (Namespace newVp, Name newVp) (policies w)
      | Some _ => policies w
      end.
Proof.
  intros Hck r.
  assert (r = let u := updateVarmorPolicyStatus newVp "" (resetsReady ck)
                         VarmorPolicyUnchanged VarmorPolicyUpdated ConditionFalse
                         "Forbidden" (rejectionMessage sc ck) w in
              ((true, u.1.2), u.2)) as ->.
  { subst r. destruct ck; try done; unfold gateOutcome, bind, ret; simpl;
      by destruct (updateVarmorPolicyStatus _ _ _ _ _ _ _ _ w) as [[? ?] ?]. }
  pose proof (updateVarmorPolicyStatus_facts newVp "" (resetsReady ck)
                VarmorPolicyUnchanged VarmorPolicyUpdated ConditionFalse
                "Forbidden" (rejectionMessage sc ck) w) as (Hvp & Herr & Htr & Hans & Hpr & Hmo & Hq & _).
  pose proof (updateVarmorPolicyStatus_policies newVp "" (resetsReady ck)
                VarmorPolicyUnchanged VarmorPolicyUpdated ConditionFalse
                "Forbidden" (rejectionMessage sc ck) w) as Hpol.
  simpl in *. rewrite Hvp in Hpol. rewrite Herr. done.
Qed.

(** Once the gate says "ignore", the update handler hands back the gate's
    error and does nothing else. *)
Lemma handleUpdate_ignored pkg c newVp oldAp w :
  (ignoreUpdate c newVp oldAp w).1.1 = true →
  handleUpdateVarmorPolicy pkg c newVp oldAp w
  = ((ignoreUpdate c newVp oldAp w).1.2, (ignoreUpdate c newVp oldAp w).2).
Proof.
  intros Hg. unfold handleUpdateVarmorPolicy, bind.
  destruct (ignoreUpdate c newVp oldAp w) as [[ig err] w']. simpl in *. by subst ig.
Qed.

Lemma handleUpdate_rejected pkg c newVp oldAp w ck :
  firstMatch newVp oldAp = Some ck →
  ck ≠ NoopDuration →
  handleUpdateVarmorPolicy pkg c newVp oldAp w
  = (hd None (answers w), (gateOutcome (scope c) newVp (Some ck) w).2).
Proof.
  intros Hm Hck.
  pose proof (gateOutcome_reject (scope c) newVp ck w Hck) as (Hr & _).
  rewrite handleUpdate_ignored; rewrite ignoreUpdate_firstMatch, Hm; by rewrite Hr.
Qed.

(** The silent skip: the gate touches nothing. *)
Lemma ignoreUpdate_noop c newVp oldAp w :
  SpecTarget (Spec newVp) = ApTarget (ApSpec oldAp) →
  BmModelingDuration (ApBehaviorModeling (ApSpec oldAp)) ≠ 0 →
  Mode (SpecPolicy (Spec newVp)) = DefenseInDepthMode →
  Phase (PolicyStatus newVp) = VarmorPolicyModeling →
  ModelingDuration (PolicyDefenseInDepth (SpecPolicy (Spec newVp)))
  = BmModelingDuration (ApBehaviorModeling (ApSpec oldAp)) →
  firstMatch newVp oldAp = Some NoopDuration
  ∧ ignoreUpdate c newVp oldAp w = ((true, None), w).
Proof.
  intros Ht Hrec Hmode Hphase Hdur.
  assert (firstMatch newVp oldAp = Some NoopDuration) as Hm.
  { unfold firstMatch. simpl. rewrite Hphase.
    rewrite (bool_decide_eq_true_2 _ Ht), (bool_decide_eq_true_2 _ Hmode),
      (bool_decide_eq_false_2 _ Hrec), (bool_decide_eq_true_2 _ Hdur). reflexivity. }
  split; [done|]. by rewrite ignoreUpdate_firstMatch, Hm.
Qed.

Lemma ignoreAdd_cases pkg c vp :
  ignoreAdd pkg c vp = ret false ∨ ∃ message, ignoreAdd pkg c vp = forbidAdd vp message.
Proof.
  unfold ignoreAdd.
  repeat match goal with
         | |- context [if ?b then _ else _] =>
             destruct b; [right; eexists; reflexivity|]
         end.
  by left.
Qed.

Lemma forbidAdd_facts vp message w :
  (forbidAdd vp message w).1 = true
  ∧ trace (forbidAdd vp message w).2
    = trace w ++ [CallPolicyUpdateStatus (createRejection vp message (clock w))]
  ∧ profiles (forbidAdd vp message w).2 = profiles w.
Proof.
  unfold forbidAdd, bind, ret.
  pose proof (updateVarmorPolicyStatus_facts vp "" true VarmorPolicyError
                VarmorPolicyCreated ConditionFalse "Forbidden" message w)
    as (_ & _ & Htr & _ & Hpr & _).
  destruct (updateVarmorPolicyStatus _ _ _ _ _ _ _ _ w) as [[? ?] ?]. done.
Qed.

(** ** Validation Gate: the claims *)

(** C2, as amended.  A create the gate rejects submits one status write
    carrying a [Created]/[False]/[Forbidden] condition and the handler
    returns [nil] whatever the store answers.  An update the gate rejects
    as Forbidden submits one status write carrying an
    [Updated]/[False]/[Forbidden] condition and the handler returns the
    store's answer to that write: [nil] when the write is accepted, the
    store's error when it is not. *)
Theorem validation_rejection_result pkg c vp w :
  ((ignoreAdd pkg c vp w).1 = true →
   (handleAddVarmorPolicy pkg c vp w).1 = None
   ∧ ∃ message,
       trace (handleAddVarmorPolicy pkg c vp w).2
       = trace w ++ [CallPolicyUpdateStatus (createRejection vp message (clock w))]
       ∧ mkCondition VarmorPolicyCreated ConditionFalse (clock w) "Forbidden" message
         ∈ Conditions (PolicyStatus (createRejection vp message (clock w))))
  ∧ (∀ oldAp ck,
       firstMatch vp oldAp = Some ck →
       ck ≠ NoopDuration →
       (handleUpdateVarmorPolicy pkg c vp oldAp w).1 = hd None (answers w)
       ∧ trace (handleUpdateVarmorPolicy pkg c vp oldAp w).2
         = trace w ++ [CallPolicyUpdateStatus (rejectedPolicy (scope c) vp ck (clock w))]
       ∧ mkCondition VarmorPolicyUpdated ConditionFalse (clock w) "Forbidden"
           (rejectionMessage (scope c) ck)
         ∈ Conditions (PolicyStatus (rejectedPolicy (scope c) vp ck (clock w)))).
Proof.
  split.
  - intros Hig. unfold handleAddVarmorPolicy, bind.
    destruct (ignoreAdd_cases pkg c vp) as [Hno | [message Hyes]].
    + rewrite Hno in Hig. discriminate.
    + rewrite Hyes in *. destruct (forbidAdd_facts vp message w) as (Ht & Htr & _).
      destruct (forbidAdd vp message w) as [ig w'] eqn:E. simpl in Ht, Htr. subst ig.
      split; [reflexivity|]. exists message. split; [exact Htr|].
      unfold createRejection. apply applyStatus_elem.
  - intros oldAp ck Hm Hck.
    rewrite (handleUpdate_rejected pkg c vp oldAp w ck Hm Hck).
    destruct (gateOutcome_reject (scope c) vp ck w Hck) as (_ & Htr & _).
    split; [reflexivity|]. split; [exact Htr|].
    unfold rejectedPolicy. apply applyStatus_elem.
Qed.

(** An update that changes the target while the store accepts the status
    write: the handler returns [nil]. *)
Lemma validation_rejection_witness :
  (handleUpdateVarmorPolicy samplePkg nsController
     (mkPolicy targetB "AppArmor" "AlwaysAllow" 0 "" "2"
        (statusOf true VarmorPolicyProtecting [createdTrue]))
     plainProfile (worldOf plainPolicy plainProfile [])).1 = None.
Proof.
  destruct (validation_rejection_result samplePkg nsController
              (mkPolicy targetB "AppArmor" "AlwaysAllow" 0 "" "2"
                 (statusOf true VarmorPolicyProtecting [createdTrue]))
              (worldOf plainPolicy plainProfile [])) as [_ Hupd].
  destruct (Hupd plainProfile TargetChange) as (Hres & _).
  - reflexivity.
  - discriminate.
  - exact Hres.
Defined.

(** C2, counterexample.  The update changes the target, the gate rejects
    it as Forbidden, and the store answers the status write with a
    conflict: the handler returns that error instead of [nil], the stored
    policy has no new condition, and the worker requeues the key with rate
    limiting. *)
Lemma rejected_update_returns_store_error :
  firstMatch (mkPolicy targetB "AppArmor" "AlwaysAllow" 0 "" "2"
                (statusOf true VarmorPolicyProtecting [createdTrue]))
    plainProfile = Some TargetChange
  ∧ (handleUpdateVarmorPolicy samplePkg nsController
       (mkPolicy targetB "AppArmor" "AlwaysAllow" 0 "" "2"
          (statusOf true VarmorPolicyProtecting [createdTrue]))
       plainProfile (worldOf plainPolicy plainProfile [Some conflict])).1
    = Some conflict
  ∧ policies (handleUpdateVarmorPolicy samplePkg nsController
       (mkPolicy targetB "AppArmor" "AlwaysAllow" 0 "" "2"
          (statusOf true VarmorPolicyProtecting [createdTrue]))
       plainProfile (worldOf plainPolicy plainProfile [Some conflict])).2
    = policies (worldOf plainPolicy plainProfile [Some conflict])
  ∧ trace (handleErr (Some conflict) "default/demo"
             (worldOf plainPolicy plainProfile [])).2
    = [QueueAddRateLimited "default/demo"].
Proof. repeat split; reflexivity. Qed.

(** C4, as amended.  The gate is the first-match evaluation of the six
    checks in the order target change, switch into behavior-modeling,
    switch out of behavior-modeling, completed/protecting lock, no-op
    duration, enforcer mismatch.  Consequently an update that matches none
    of the first four checks (the target is the profile's and the recorded
    modeling duration is not zero), with the policy in behavior-modeling
    mode, in phase [Modeling], with the recorded duration, but with
    another enforcer, is skipped silently: the enforcer check matches but
    is not reached, and the world is left exactly as it was. *)
Theorem gate_first_match_skips_before_enforcer c newVp oldAp w :
  ignoreUpdate c newVp oldAp
  = gateOutcome (scope c) newVp
      (List.find (matches newVp oldAp)
         [TargetChange; SwitchIntoModeling; SwitchOutOfModeling; CompletedLock;
          NoopDuration; EnforcerMismatch])
  ∧ (SpecTarget (Spec newVp) = ApTarget (ApSpec oldAp) →
     BmModelingDuration (ApBehaviorModeling (ApSpec oldAp)) ≠ 0 →
     Mode (SpecPolicy (Spec newVp)) = DefenseInDepthMode →
     Phase (PolicyStatus newVp) = VarmorPolicyModeling →
     ModelingDuration (PolicyDefenseInDepth (SpecPolicy (Spec newVp)))
     = BmModelingDuration (ApBehaviorModeling (ApSpec oldAp)) →
     Enforcer (SpecPolicy (Spec newVp)) ≠ ProfEnforcer (ApProfile (ApSpec oldAp)) →
     matches newVp oldAp EnforcerMismatch = true
     ∧ ignoreUpdate c newVp oldAp w = ((true, None), w)).
Proof.
  split; [apply ignoreUpdate_firstMatch|].
  intros Ht Hrec Hmode Hphase Hdur Henf. split.
  - simpl. by rewrite (bool_decide_eq_false_2 _ Henf).
  - by apply ignoreUpdate_noop.
Qed.

(** Modeling for 30 minutes as recorded, enforcer switched from AppArmor
    to BPF: nothing happens. *)
Lemma gate_first_match_witness :
  ignoreUpdate nsController (modelingPolicy targetA "BPF" 30)
    (mkProfile targetA "AppArmor" DefenseInDepthMode 30 "")
    (worldOf plainPolicy plainProfile [])
  = ((true, None), worldOf plainPolicy plainProfile []).
Proof.
  destruct (gate_first_match_skips_before_enforcer nsController
              (modelingPolicy targetA "BPF" 30)
              (mkProfile targetA "AppArmor" DefenseInDepthMode 30 "")
              (worldOf plainPolicy plainProfile [])) as [_ Hskip].
  destruct Hskip as [_ Heq].
  - reflexivity.
  - discriminate.
  - reflexivity.
  - reflexivity.
  - reflexivity.
  - discriminate.
  - exact Heq.
Defined.

(** C4, counterexample.  Two updates of a policy in behavior-modeling
    mode, in phase [Modeling], whose duration is the recorded one and whose
    enforcer (BPF) differs from the recorded one (AppArmor).  In the first
    the duration, requested and recorded, is zero and nothing else differs:
    the switch-into-modeling check comes first.  In the second the duration
    is 30 and the target differs too: the target check comes first.
    Neither is skipped silently: a Forbidden condition is written and the
    ready flag is reset. *)
Lemma modeling_update_caught_by_earlier_check :
  (Mode (SpecPolicy (Spec (modelingPolicy targetA "BPF" 0))) = DefenseInDepthMode
   ∧ Phase (PolicyStatus (modelingPolicy targetA "BPF" 0)) = VarmorPolicyModeling
   ∧ ModelingDuration (PolicyDefenseInDepth (SpecPolicy (Spec (modelingPolicy targetA "BPF" 0))))
     = BmModelingDuration (ApBehaviorModeling
                             (ApSpec (mkProfile targetA "AppArmor" DefenseInDepthMode 0 "")))
   ∧ Enforcer (SpecPolicy (Spec (modelingPolicy targetA "BPF" 0)))
     ≠ ProfEnforcer (ApProfile (ApSpec (mkProfile targetA "AppArmor" DefenseInDepthMode 0 "")))
   ∧ trace (ignoreUpdate nsController (modelingPolicy targetA "BPF" 0)
              (mkProfile targetA "AppArmor" DefenseInDepthMode 0 "")
              (worldOf plainPolicy plainProfile [])).2
     = [CallPolicyUpdateStatus
          (mkPolicy targetA "BPF" DefenseInDepthMode 0 "" "5"
             (statusOf false VarmorPolicyModeling
                [createdTrue;
                 mkCondition VarmorPolicyUpdated ConditionFalse 100 "Forbidden"
                   "Switch the mode from others to DefenseInDepth is not allowed. You need to recreate the VarmorPolicy object."]))])
  ∧ (Mode (SpecPolicy (Spec (modelingPolicy targetB "BPF" 30))) = DefenseInDepthMode
     ∧ Phase (PolicyStatus (modelingPolicy targetB "BPF" 30)) = VarmorPolicyModeling
     ∧ ModelingDuration (PolicyDefenseInDepth (SpecPolicy (Spec (modelingPolicy targetB "BPF" 30))))
       = BmModelingDuration (ApBehaviorModeling
                               (ApSpec (mkProfile targetA "AppArmor" DefenseInDepthMode 30 "")))
     ∧ Enforcer (SpecPolicy (Spec (modelingPolicy targetB "BPF" 30)))
       ≠ ProfEnforcer (ApProfile (ApSpec (mkProfile targetA "AppArmor" DefenseInDepthMode 30 "")))
     ∧ trace (ignoreUpdate nsController (modelingPolicy targetB "BPF" 30)
                (mkProfile targetA "AppArmor" DefenseInDepthMode 30 "")
                (worldOf plainPolicy plainProfile [])).2
       = [CallPolicyUpdateStatus
            (mkPolicy targetB "BPF" DefenseInDepthMode 30 "" "5"
               (statusOf false VarmorPolicyModeling
                  [createdTrue;
                   mkCondition VarmorPolicyUpdated ConditionFalse 100 "Forbidden"
                     "Modify the target of VarmorPolicy is not allowed. You need to recreate the VarmorPolicy object."]))]).
Proof. repeat split; try reflexivity; discriminate. Qed.

(** C5.  An update whose target differs from the stored profile's target
    is rejected before anything is done to a profile: the profile store is
    left as it is (so the profile keeps its target), the only call made is
    one status write on the policy, the policy submitted there carries a
    condition of type [Updated] with status [False] and reason
    [Forbidden], and when the store accepts the write that is the status
    of the stored policy. *)
Theorem target_change_is_rejected pkg c newVp oldAp w :
  SpecTarget (Spec newVp) ≠ ApTarget (ApSpec oldAp) →
  let r := handleUpdateVarmorPolicy pkg c newVp oldAp w in
  let vp' := rejectedPolicy (scope c) newVp TargetChange (clock w) in
  profiles r.2 = profiles w
  ∧ trace r.2 = trace w ++ [CallPolicyUpdateStatus vp']
  ∧ (∃ cond, cond ∈ Conditions (PolicyStatus vp')
             ∧ Type_ cond = VarmorPolicyUpdated
             ∧ Status cond = ConditionFalse
             ∧ Reason cond = "Forbidden")
  ∧ r.1 = hd None (answers w)
  ∧ (hd None (answers w) = None →
     policies r.2
     = alter (withStatus (PolicyStatus vp')) (Namespace newVp, Name newVp) (policies w)).
Proof.
  intros Ht r vp'.
  assert (firstMatch newVp oldAp = Some TargetChange) as Hm.
  { unfold firstMatch. simpl. by rewrite (bool_decide_eq_false_2 _ Ht). }
  subst r. rewrite (handleUpdate_rejected pkg c newVp oldAp w TargetChange Hm) by done.
  destruct (gateOutcome_reject (scope c) newVp TargetChange w) as (_ & Htr & _ & Hpr & _ & _ & Hpol);
    [done|].
  cbn [fst snd]. split; [exact Hpr|]. split; [exact Htr|]. split; [|split; [reflexivity|]].
  - exists (mkCondition VarmorPolicyUpdated ConditionFalse (clock w) "Forbidden"
              (rejectionMessage (scope c) TargetChange)).
    split; [|done]. subst vp'. unfold rejectedPolicy. apply applyStatus_elem.
  - intros Hok. rewrite Hpol, Hok. reflexivity.
Qed.

(** The profile targets [a], the update asks for [b]: the stored profile
    still targets [a]. *)
Lemma target_change_witness :
  ApTarget (ApSpec plainProfile) = targetA
  ∧ profiles (handleUpdateVarmorPolicy samplePkg nsController
                (mkPolicy targetB "AppArmor" "AlwaysAllow" 0 "" "2"
                   (statusOf true VarmorPolicyProtecting [createdTrue]))
                plainProfile (worldOf plainPolicy plainProfile [])).2
    = {[ ("default", "varmor-default-demo") := plainProfile ]}.
Proof.
  split; [reflexivity|].
  destruct (target_change_is_rejected samplePkg nsController
              (mkPolicy targetB "AppArmor" "AlwaysAllow" 0 "" "2"
                 (statusOf true VarmorPolicyProtecting [createdTrue]))
              plainProfile (worldOf plainPolicy plainProfile [])) as (Hpr & _).
  - discriminate.
  - exact Hpr.
Defined.

(** C9.  Every Forbidden rejection of the update gate submits a policy
    whose ready flag is [false], except the rejection of a
    behavior-modeling policy already [Completed] or [Protecting], which
    submits the flag as it found it. *)
Theorem only_completed_lock_keeps_ready c newVp oldAp w ck :
  firstMatch newVp oldAp = Some ck →
  ck ≠ NoopDuration →
  ∃ vp',
    trace (ignoreUpdate c newVp oldAp w).2 = trace w ++ [CallPolicyUpdateStatus vp']
    ∧ mkCondition VarmorPolicyUpdated ConditionFalse (clock w) "Forbidden"
        (rejectionMessage (scope c) ck) ∈ Conditions (PolicyStatus vp')
    ∧ Ready (PolicyStatus vp')
      = match ck with
        | CompletedLock => Ready (PolicyStatus newVp)
        | TargetChange | SwitchIntoModeling | SwitchOutOfModeling | EnforcerMismatch
        | NoopDuration => false
        end.
Proof.
  intros Hm Hck. exists (rejectedPolicy (scope c) newVp ck (clock w)).
  rewrite ignoreUpdate_firstMatch, Hm.
  destruct (gateOutcome_reject (scope c) newVp ck w Hck) as (_ & Htr & _).
  split; [exact Htr|]. unfold rejectedPolicy. split; [apply applyStatus_elem|].
  simpl. rewrite applyStatus_Ready. by destruct ck.
Qed.

(** A ready behavior-modeling policy that is [Completed] stays ready when
    its update is rejected; the same policy loses the flag when the
    rejection is for a changed target. *)
Lemma only_completed_lock_witness :
  (∃ vp', trace (ignoreUpdate nsController
                   (mkPolicy targetA "AppArmor" DefenseInDepthMode 30 "" "9"
                      (statusOf true VarmorPolicyCompleted [createdTrue]))
                   (mkProfile targetA "AppArmor" DefenseInDepthMode 30 "")
                   (worldOf plainPolicy plainProfile [])).2
          = [CallPolicyUpdateStatus vp']
          ∧ Ready (PolicyStatus vp') = true)
  ∧ (∃ vp', trace (ignoreUpdate nsController
                     (mkPolicy targetB "AppArmor" DefenseInDepthMode 30 "" "9"
                        (statusOf true VarmorPolicyCompleted [createdTrue]))
                     (mkProfile targetA "AppArmor" DefenseInDepthMode 30 "")
                     (worldOf plainPolicy plainProfile [])).2
            = [CallPolicyUpdateStatus vp']
            ∧ Ready (PolicyStatus vp') = false).
Proof.
  split.
  - destruct (only_completed_lock_keeps_ready nsController
                (mkPolicy targetA "AppArmor" DefenseInDepthMode 30 "" "9"
                   (statusOf true VarmorPolicyCompleted [createdTrue]))
                (mkProfile targetA "AppArmor" DefenseInDepthMode 30 "")
                (worldOf plainPolicy plainProfile []) CompletedLock)
      as (vp' & Htr & _ & Hready).
    + reflexivity.
    + discriminate.
    + exists vp'. split; [exact Htr | exact Hready].
  - destruct (only_completed_lock_keeps_ready nsController
                (mkPolicy targetB "AppArmor" DefenseInDepthMode 30 "" "9"
                   (statusOf true VarmorPolicyCompleted [createdTrue]))
                (mkProfile targetA "AppArmor" DefenseInDepthMode 30 "")
                (worldOf plainPolicy plainProfile []) TargetChange)
      as (vp' & Htr & _ & Hready).
    + reflexivity.
    + discriminate.
    + exists vp'. split; [exact Htr | exact Hready].
Defined.

(** ** Profile Synchronizer: update *)

(** Steps through the gate and the first status write of the update
    handler, given that no check matches ([Hm]) and that the store accepts
    the write ([Hok]). *)
Ltac enter_update Hm Hok :=
  unfold handleUpdateVarmorPolicy, bind at 1;
  rewrite ignoreUpdate_firstMatch, Hm; cbn [gateOutcome ret fst snd]; unfold bind at 1;
  match goal with
  | |- context [updateVarmorPolicyStatus ?vp ?pn ?rr ?ph ?ty ?st ?re ?me ?w] =>
      let Hvp := fresh "Hvp" in
      let Herr := fresh "Herr" in
      let Htr := fresh "Htr" in
      let Hans := fresh "Hans" in
      let Hpr := fresh "Hpr" in
      let Hclk := fresh "Hclk" in
      let E := fresh "E" in
      pose proof (updateVarmorPolicyStatus_facts vp pn rr ph ty st re me w)
        as (Hvp & Herr & Htr & Hans & Hpr & _ & _ & Hclk & _);
      destruct (updateVarmorPolicyStatus vp pn rr ph ty st re me w) as [[? ?] ?] eqn:E;
      cbn [fst snd] in Hvp, Herr, Htr, Hans, Hpr, Hclk |- *;
      subst; rewrite Hok;
      change (Spec (withStatus _ vp)) with (Spec vp);
      fold (pendingPolicy vp (clock w))
  end.

Lemma handleUpdate_equal pkg c newVp oldAp w newProfile :
  firstMatch newVp oldAp = None →
  hd None (answers w) = None →
  GenerateProfile pkg (SpecPolicy (Spec newVp)) (ProfName (ApProfile (ApSpec oldAp))) false ""
  = inl newProfile →
  buildApSpec c newVp oldAp newProfile = ApSpec oldAp →
  ∃ w1,
    trace w1 = trace w ++ [CallPolicyUpdateStatus (pendingPolicy newVp (clock w))]
    ∧ profiles w1 = profiles w
    ∧ handleUpdateVarmorPolicy pkg c newVp oldAp w
      = (None,
         set_trace (fun t => t ++ [SendUpdateStatusCh (statusKeyOf (scope c) newVp)])
           (set_UpdateDesiredNumber true
              (set_trace (fun t => t ++ [SetUpdateDesiredNumber]) w1))).
Proof.
  intros Hm Hok Hgen Heq.
  exists (updateVarmorPolicyStatus newVp "" true VarmorPolicyPending
            VarmorPolicyUpdated ConditionTrue "" "" w).2.
  pose proof (updateVarmorPolicyStatus_facts newVp "" true VarmorPolicyPending
                VarmorPolicyUpdated ConditionTrue "" "" w) as (_ & _ & Htr' & _ & Hpr' & _).
  split; [exact Htr'|]. split; [exact Hpr'|]. clear Htr' Hpr'.
  enter_update Hm Hok. rewrite Hgen.
  unfold bind, emit, modify, ret. cbn [fst snd].
  change (buildApSpec c (pendingPolicy newVp (clock w)) oldAp newProfile)
    with (buildApSpec c newVp oldAp newProfile).
  rewrite bool_decide_eq_true_2 by done. cbn [negb fst snd].
  unfold statusKeyOf. by destruct (scope c).
Qed.

Lemma handleUpdate_generation_failure pkg c newVp oldAp w err :
  firstMatch newVp oldAp = None →
  hd None (answers w) = None →
  GenerateProfile pkg (SpecPolicy (Spec newVp)) (ProfName (ApProfile (ApSpec oldAp))) false ""
  = inr err →
  ∃ w1,
    trace w1 = trace w ++ [CallPolicyUpdateStatus (pendingPolicy newVp (clock w))]
    ∧ answers w1 = tail (answers w)
    ∧ clock w1 = clock w + 1
    ∧ profiles w1 = profiles w
    ∧ handleUpdateVarmorPolicy pkg c newVp oldAp w
      = let r := updateVarmorPolicyStatus (pendingPolicy newVp (clock w)) "" true
                   VarmorPolicyError VarmorPolicyCreated ConditionFalse "Error"
                   (Error err) w1 in
        (r.1.2, r.2).
Proof.
  intros Hm Hok Hgen.
  exists (updateVarmorPolicyStatus newVp "" true VarmorPolicyPending
            VarmorPolicyUpdated ConditionTrue "" "" w).2.
  pose proof (updateVarmorPolicyStatus_facts newVp "" true VarmorPolicyPending
                VarmorPolicyUpdated ConditionTrue "" "" w)
    as (_ & _ & Htr' & Hans' & Hpr' & _ & _ & Hclk' & _).
  split; [exact Htr'|]. split; [exact Hans'|]. split; [exact Hclk'|]. split; [exact Hpr'|].
  clear Htr' Hans' Hpr' Hclk'.
  enter_update Hm Hok. rewrite Hgen. unfold bind, ret.
  destruct (updateVarmorPolicyStatus (pendingPolicy newVp (clock w)) _ _ _ _ _ _ _ _)
    as [[vp2 e2] w2].
  cbn [fst snd]. by destruct e2.
Qed.

(** C6.  An update that passes the gate and reaches the recompilation (the
    store accepted its [Pending]/[Updated] status write), and whose rebuilt
    profile spec equals the existing one, makes no call on the profile
    (neither [Update] nor [UpdateStatus]; the profile store is unchanged),
    starts no workload restart, and sends the status manager exactly one
    status-refresh request for the key. *)
Theorem equal_spec_only_refreshes_status pkg c newVp oldAp w newProfile :
  firstMatch newVp oldAp = None →
  hd None (answers w) = None →
  GenerateProfile pkg (SpecPolicy (Spec newVp)) (ProfName (ApProfile (ApSpec oldAp))) false ""
  = inl newProfile →
  buildApSpec c newVp oldAp newProfile = ApSpec oldAp →
  let r := handleUpdateVarmorPolicy pkg c newVp oldAp w in
  r.1 = None
  ∧ profiles r.2 = profiles w
  ∧ trace r.2
    = trace w ++ [CallPolicyUpdateStatus (pendingPolicy newVp (clock w));
                  SetUpdateDesiredNumber;
                  SendUpdateStatusCh (statusKeyOf (scope c) newVp)].
Proof.
  intros Hm Hok Hgen Heq r. subst r.
  destruct (handleUpdate_equal pkg c newVp oldAp w newProfile Hm Hok Hgen Heq)
    as (w1 & Htr & Hpr & ->).
  cbn [fst snd]. split; [reflexivity|]. split; [exact Hpr|].
  simpl. rewrite Htr, <- !app_assoc. reflexivity.
Qed.

(** Only a label of the policy changed: the profile is not written and
    the status manager is asked to refresh ["default/demo"]. *)
Lemma equal_spec_witness :
  trace (handleUpdateVarmorPolicy samplePkg nsController plainPolicy plainProfile
           (worldOf plainPolicy plainProfile [])).2
  = [CallPolicyUpdateStatus (pendingPolicy plainPolicy 100);
     SetUpdateDesiredNumber;
     SendUpdateStatusCh "default/demo"].
Proof.
  destruct (equal_spec_only_refreshes_status samplePkg nsController plainPolicy plainProfile
              (worldOf plainPolicy plainProfile [])
              (ApProfile (ApSpec plainProfile))) as (_ & _ & Htr).
  - reflexivity.
  - reflexivity.
  - reflexivity.
  - reflexivity.
  - exact Htr.
Defined.

(** C10.  When the recompilation fails in an update that passed the gate
    (and whose [Pending]/[Updated] status write was accepted), the handler
    submits a second status write: the conditions are those of the first
    write, [Updated]/[True] among them, followed by a new condition of
    type [Created], status [False], reason [Error] and the error text as
    message; the phase is [Error].  The handler returns the store's answer
    to that second write: [nil] when accepted, the store's error when not.
    No profile is touched. *)
Theorem generation_failure_is_reported pkg c newVp oldAp w err :
  firstMatch newVp oldAp = None →
  hd None (answers w) = None →
  GenerateProfile pkg (SpecPolicy (Spec newVp)) (ProfName (ApProfile (ApSpec oldAp))) false ""
  = inr err →
  let r := handleUpdateVarmorPolicy pkg c newVp oldAp w in
  let vp1 := pendingPolicy newVp (clock w) in
  let vp2 := failedPolicy vp1 err (clock w + 1) in
  r.1 = hd None (tail (answers w))
  ∧ trace r.2 = trace w ++ [CallPolicyUpdateStatus vp1; CallPolicyUpdateStatus vp2]
  ∧ Conditions (PolicyStatus vp2)
    = Conditions (PolicyStatus vp1)
      ++ [mkCondition VarmorPolicyCreated ConditionFalse (clock w + 1) "Error" (Error err)]
  ∧ mkCondition VarmorPolicyUpdated ConditionTrue (clock w) "" ""
    ∈ Conditions (PolicyStatus vp1)
  ∧ Phase (PolicyStatus vp2) = VarmorPolicyError
  ∧ profiles r.2 = profiles w.
Proof.
  intros Hm Hok Hgen r vp1 vp2. subst r.
  destruct (handleUpdate_generation_failure pkg c newVp oldAp w err Hm Hok Hgen)
    as (w1 & Htr & Hans & Hclk & Hpr & ->).
  pose proof (updateVarmorPolicyStatus_facts (pendingPolicy newVp (clock w)) "" true
                VarmorPolicyError VarmorPolicyCreated ConditionFalse "Error" (Error err) w1)
    as (_ & Herr2 & Htr2 & _ & Hpr2 & _).
  cbn [fst snd] in *. cbv zeta.
  split; [by rewrite Herr2, Hans|].
  split.
  { rewrite Htr2, Htr, Hclk, <- app_assoc. reflexivity. }
  split; [by apply applyStatus_append|].
  split; [apply applyStatus_elem|].
  split; [|by rewrite Hpr2, Hpr].
  subst vp2. unfold failedPolicy. cbn [PolicyStatus withStatus].
  by rewrite applyStatus_Phase.
Qed.

(** The rule set is one the generator refuses; the store accepts the
    first status write and answers the second with a conflict, which is
    what the handler returns. *)
Lemma generation_failure_witness :
  (handleUpdateVarmorPolicy samplePkg nsController
     (mkPolicy targetA "AppArmor" "AlwaysAllow" 0 "invalid" "2"
        (statusOf true VarmorPolicyProtecting [createdTrue]))
     plainProfile (worldOf plainPolicy plainProfile [None; Some conflict])).1
  = Some conflict.
Proof.
  destruct (generation_failure_is_reported samplePkg nsController
              (mkPolicy targetA "AppArmor" "AlwaysAllow" 0 "invalid" "2"
                 (statusOf true VarmorPolicyProtecting [createdTrue]))
              plainProfile (worldOf plainPolicy plainProfile [None; Some conflict])
              (ErrMsg "unknown rule")) as (Hres & _).
  - reflexivity.
  - reflexivity.
  - reflexivity.
  - exact Hres.
Defined.

(** ** Profile Synchronizer: dispatch *)

(** With the policy and its profile in the store and both reads answered,
    [syncPolicy] is the update handler run after the two reads. *)
Lemma syncPolicy_update pkg c key namespace name vp ap w :
  SplitMetaNamespaceKey key = inl (namespace, name) →
  hd None (answers w) = None →
  hd None (tail (answers w)) = None →
  policies w !! policyRef (scope c) namespace name = Some vp →
  profiles w !! profileRef pkg (scope c) vp = Some ap →
  syncPolicy pkg c key w
  = handleUpdateVarmorPolicy pkg c vp ap
      (set_answers (fun a => tail (tail a))
         (set_trace (fun t => t ++ [CallPolicyGet (policyRef (scope c) namespace name).1 name;
                                    CallProfileGet (profileRef pkg (scope c) vp).1
                                      (profileRef pkg (scope c) vp).2]) w)).
Proof.
  intros Hkey Ha1 Ha2 Hvp Hap.
  unfold syncPolicy. rewrite Hkey.
  unfold bind, PolicyGet, ProfileGet, bind, emit, modify, answer, ret.
  destruct w as [pols profs mods ans clk q udn tr].
  unfold policyRef, profileRef in *. simpl in *.
  destruct ans as [|a1 ans]; simpl in *.
  - destruct (scope c); simpl in *; rewrite Hvp; simpl; rewrite Hap;
      unfold set_answers, set_trace; simpl; by rewrite <- app_assoc.
  - subst a1. destruct ans as [|a2 ans]; simpl in *.
    + destruct (scope c); simpl in *; rewrite Hvp; simpl; rewrite Hap;
        unfold set_answers, set_trace; simpl; by rewrite <- app_assoc.
    + subst a2.
      destruct (scope c); simpl in *; rewrite Hvp; simpl; rewrite Hap;
        unfold set_answers, set_trace; simpl; by rewrite <- app_assoc.
Qed.

(** C7, as amended.  For a policy in behavior-modeling mode, in phase
    [Modeling], whose requested duration is the profile's recorded one,
    whose target is the profile's and whose recorded duration is not zero,
    the update handler returns [nil] and leaves the world as it was: no
    status write, no profile call, nothing sent.  Re-syncing the key of
    such a policy does the two reads and nothing else. *)
Theorem modeling_resync_is_noop pkg c newVp oldAp w :
  SpecTarget (Spec newVp) = ApTarget (ApSpec oldAp) →
  BmModelingDuration (ApBehaviorModeling (ApSpec oldAp)) ≠ 0 →
  Mode (SpecPolicy (Spec newVp)) = DefenseInDepthMode →
  Phase (PolicyStatus newVp) = VarmorPolicyModeling →
  ModelingDuration (PolicyDefenseInDepth (SpecPolicy (Spec newVp)))
  = BmModelingDuration (ApBehaviorModeling (ApSpec oldAp)) →
  handleUpdateVarmorPolicy pkg c newVp oldAp w = (None, w)
  ∧ (∀ key namespace name,
       SplitMetaNamespaceKey key = inl (namespace, name) →
       hd None (answers w) = None →
       hd None (tail (answers w)) = None →
       policies w !! policyRef (scope c) namespace name = Some newVp →
       profiles w !! profileRef pkg (scope c) newVp = Some oldAp →
       (syncPolicy pkg c key w).1 = None
       ∧ policies (syncPolicy pkg c key w).2 = policies w
       ∧ profiles (syncPolicy pkg c key w).2 = profiles w
       ∧ trace (syncPolicy pkg c key w).2
         = trace w ++ [CallPolicyGet (policyRef (scope c) namespace name).1 name;
                       CallProfileGet (profileRef pkg (scope c) newVp).1
                         (profileRef pkg (scope c) newVp).2]).
Proof.
  intros Ht Hrec Hmode Hphase Hdur.
  assert (∀ w', handleUpdateVarmorPolicy pkg c newVp oldAp w' = (None, w')) as Hnoop.
  { intros w'.
    destruct (ignoreUpdate_noop c newVp oldAp w' Ht Hrec Hmode Hphase Hdur) as [_ Hg].
    rewrite handleUpdate_ignored; by rewrite Hg. }
  split; [apply Hnoop|].
  intros key namespace name Hkey Ha1 Ha2 Hvp Hap.
  rewrite (syncPolicy_update pkg c key namespace name newVp oldAp w Hkey Ha1 Ha2 Hvp Hap).
  rewrite Hnoop. done.
Qed.

(** A policy modeling for 30 minutes, as recorded, is synced again. *)
Lemma modeling_resync_witness :
  syncPolicy samplePkg nsController "default/demo"
    (worldOf (modelingPolicy targetA "AppArmor" 30)
       (mkProfile targetA "AppArmor" DefenseInDepthMode 30 "") [])
  = (None,
     set_trace (fun _ => [CallPolicyGet "default" "demo";
                          CallProfileGet "default" "varmor-default-demo"])
       (worldOf (modelingPolicy targetA "AppArmor" 30)
          (mkProfile targetA "AppArmor" DefenseInDepthMode 30 "") [])).
Proof.
  destruct (modeling_resync_is_noop samplePkg nsController
              (modelingPolicy targetA "AppArmor" 30)
              (mkProfile targetA "AppArmor" DefenseInDepthMode 30 "")
              (set_answers (fun a => tail (tail a))
                 (set_trace (fun t => t ++ [CallPolicyGet "default" "demo";
                                            CallProfileGet "default" "varmor-default-demo"])
                    (worldOf (modelingPolicy targetA "AppArmor" 30)
                       (mkProfile targetA "AppArmor" DefenseInDepthMode 30 "") []))))
    as [Hnoop _].
  - reflexivity.
  - discriminate.
  - reflexivity.
  - reflexivity.
  - reflexivity.
  - rewrite (syncPolicy_update samplePkg nsController "default/demo" "default" "demo"
               (modelingPolicy targetA "AppArmor" 30)
               (mkProfile targetA "AppArmor" DefenseInDepthMode 30 "")).
    + exact Hnoop.
    + reflexivity.
    + reflexivity.
    + reflexivity.
    + reflexivity.
    + reflexivity.
Defined.

(** C7, counterexample.  The policy is in behavior-modeling mode, in phase
    [Modeling], and asks for the duration the profile records, which is
    zero; target and enforcer are the profile's.  Syncing it again is not
    a no-op: the switch-into-modeling check rejects it, and a status write
    is submitted that adds a Forbidden condition and resets the ready
    flag.  The same happens, through the target check, to a policy
    modeling for the recorded 30 minutes whose target is not the
    profile's. *)
Lemma modeling_resync_caught_by_earlier_check :
  (Mode (SpecPolicy (Spec (modelingPolicy targetA "AppArmor" 0))) = DefenseInDepthMode
   ∧ Phase (PolicyStatus (modelingPolicy targetA "AppArmor" 0)) = VarmorPolicyModeling
   ∧ ModelingDuration (PolicyDefenseInDepth (SpecPolicy (Spec (modelingPolicy targetA "AppArmor" 0))))
     = BmModelingDuration (ApBehaviorModeling
                             (ApSpec (mkProfile targetA "AppArmor" DefenseInDepthMode 0 "")))
   ∧ trace (syncPolicy samplePkg nsController "default/demo"
              (worldOf (modelingPolicy targetA "AppArmor" 0)
                 (mkProfile targetA "AppArmor" DefenseInDepthMode 0 "") [])).2
     = [CallPolicyGet "default" "demo";
        CallProfileGet "default" "varmor-default-demo";
        CallPolicyUpdateStatus
          (mkPolicy targetA "AppArmor" DefenseInDepthMode 0 "" "5"
             (statusOf false VarmorPolicyModeling
                [createdTrue;
                 mkCondition VarmorPolicyUpdated ConditionFalse 100 "Forbidden"
                   "Switch the mode from others to DefenseInDepth is not allowed. You need to recreate the VarmorPolicy object."]))])
  ∧ (Mode (SpecPolicy (Spec (modelingPolicy targetB "AppArmor" 30))) = DefenseInDepthMode
     ∧ Phase (PolicyStatus (modelingPolicy targetB "AppArmor" 30)) = VarmorPolicyModeling
     ∧ ModelingDuration (PolicyDefenseInDepth (SpecPolicy (Spec (modelingPolicy targetB "AppArmor" 30))))
       = BmModelingDuration (ApBehaviorModeling
                               (ApSpec (mkProfile targetA "AppArmor" DefenseInDepthMode 30 "")))
     ∧ trace (syncPolicy samplePkg nsController "default/demo"
                (worldOf (modelingPolicy targetB "AppArmor" 30)
                   (mkProfile targetA "AppArmor" DefenseInDepthMode 30 "") [])).2
       = [CallPolicyGet "default" "demo";
          CallProfileGet "default" "varmor-default-demo";
          CallPolicyUpdateStatus
            (mkPolicy targetB "AppArmor" DefenseInDepthMode 30 "" "5"
               (statusOf false VarmorPolicyModeling
                  [createdTrue;
                   mkCondition VarmorPolicyUpdated ConditionFalse 100 "Forbidden"
                     "Modify the target of VarmorPolicy is not allowed. You need to recreate the VarmorPolicy object."]))]).
Proof. repeat split; reflexivity. Qed.

(** ** Worker Loop *)

Lemma handleErr_retry e key w :
  (qNumRequeues key (queue w) < maxRetries)%nat →
  handleErr (Some e) key w
  = (tt, set_queue (qAddRateLimited key)
           (set_trace (fun t => t ++ [QueueAddRateLimited key]) w)).
Proof.
  intros Hn. unfold handleErr, bind, QNumRequeues.
  by rewrite bool_decide_eq_true_2.
Qed.

Lemma handleErr_drop e key w :
  (maxRetries ≤ qNumRequeues key (queue w))%nat →
  handleErr (Some e) key w
  = (tt, set_queue (qForget key)
           (set_trace (fun t => t ++ [RuntimeHandleError e; QueueForget key]) w)).
Proof.
  intros Hn. unfold handleErr, bind, QNumRequeues.
  rewrite bool_decide_eq_false_2 by lia.
  unfold QForget, bind, emit, modify. simpl. unfold set_queue, set_trace. simpl.
  by rewrite <- app_assoc.
Qed.

Lemma qNumRequeues_qAddRateLimited key q :
  qNumRequeues key (qAddRateLimited key q) = S (qNumRequeues key q).
Proof. unfold qNumRequeues at 1. simpl. by rewrite lookup_insert_eq. Qed.

(** While the counter stays below the ceiling every failure is answered
    by one rate-limited requeue. *)
Lemma handleErrs_retries errs key w :
  (qNumRequeues key (queue w) + length errs ≤ maxRetries)%nat →
  let w' := (handleErrs errs key w).2 in
  trace w' = trace w ++ replicate (length errs) (QueueAddRateLimited key)
  ∧ qNumRequeues key (queue w') = (qNumRequeues key (queue w) + length errs)%nat
  ∧ waiting (queue w')
    = waiting (queue w)
      ++ (if shuttingDown (queue w) then [] else replicate (length errs) key)
  ∧ items (queue w') = items (queue w)
  ∧ dirty (queue w') = dirty (queue w)
  ∧ processing (queue w') = processing (queue w)
  ∧ shuttingDown (queue w') = shuttingDown (queue w).
Proof.
  revert w. induction errs as [|e rest IH]; intros w Hn;
    cbn [handleErrs length replicate ret fst snd] in *.
  - rewrite app_nil_r, Nat.add_0_r.
    destruct (shuttingDown (queue w)); by rewrite app_nil_r.
  - unfold bind. rewrite handleErr_retry by lia.
    specialize (IH (set_queue (qAddRateLimited key)
                      (set_trace (fun t => t ++ [QueueAddRateLimited key]) w))).
    simpl in IH. rewrite qNumRequeues_qAddRateLimited in IH.
    destruct IH as (Htr & Hnum & Hwait & Hit & Hd & Hp & Hs); [lia|].
    rewrite Htr, Hnum, Hwait, Hit, Hd, Hp, Hs.
    repeat split; try done.
    + by rewrite <- app_assoc.
    + lia.
    + destruct (shuttingDown (queue w)); [done|]. by rewrite <- app_assoc.
Qed.

(** A key whose retry counter is at zero and whose sync fails six times in
    a row, as [handleErr] sees it: a rate-limited requeue on each of the
    first five failures, while the counter climbs from zero to
    [maxRetries]; on the sixth failure the error is handed to the
    process-wide error reporter once, the key is forgotten and it is not
    put back. *)
Lemma handleErr_ceiling key e1 e2 e3 e4 e5 e6 w :
  qNumRequeues key (queue w) = 0%nat →
  let w5 := (handleErrs [e1; e2; e3; e4; e5] key w).2 in
  let w6 := (handleErr (Some e6) key w5).2 in
  trace w5 = trace w ++ replicate 5 (QueueAddRateLimited key)
  ∧ qNumRequeues key (queue w5) = maxRetries
  ∧ waiting (queue w5)
    = waiting (queue w) ++ (if shuttingDown (queue w) then [] else replicate 5 key)
  ∧ trace w6 = trace w5 ++ [RuntimeHandleError e6; QueueForget key]
  ∧ failures (queue w6) !! key = None
  ∧ waiting (queue w6) = waiting (queue w5)
  ∧ items (queue w6) = items (queue w)
  ∧ dirty (queue w6) = dirty (queue w).
Proof.
  intros H0 w5 w6.
  destruct (handleErrs_retries [e1; e2; e3; e4; e5] key w)
    as (Htr & Hnum & Hwait & Hit & Hd & _); [rewrite H0; simpl; unfold maxRetries; lia|].
  fold w5 in Htr, Hnum, Hwait, Hit, Hd. rewrite H0 in Hnum. simpl in Hnum, Hwait, Htr.
  subst w6. rewrite handleErr_drop by (rewrite Hnum; unfold maxRetries; lia).
  simpl. rewrite lookup_delete_eq. done.
Qed.

(** The same through the worker itself on [failingWorld]: the store fails
    the policy read six times; after six turns the error has been reported
    once, the key has been requeued five times and is nowhere in the queue
    any more. *)
Lemma worker_drops_key_after_six_failures :
  let w := Nat.iter 6 (workerTurn samplePkg nsController) failingWorld in
  filter (fun call => call ≠ CallPolicyGet "default" "demo") (trace w)
  = [QueueAddRateLimited "default/demo"; QueueDone "default/demo";
     QueueAddRateLimited "default/demo"; QueueDone "default/demo";
     QueueAddRateLimited "default/demo"; QueueDone "default/demo";
     QueueAddRateLimited "default/demo"; QueueDone "default/demo";
     QueueAddRateLimited "default/demo"; QueueDone "default/demo";
     RuntimeHandleError conflict; QueueForget "default/demo"; QueueDone "default/demo"]
  ∧ items (queue w) = []
  ∧ waiting (queue w) = []
  ∧ failures (queue w) !! "default/demo" = None
  ∧ processNextWorkItem samplePkg nsController w = None.
Proof. vm_compute. done. Qed.

(** * Further properties *)

(** ** Which calls a handler makes *)

Lemma extends_refl allowed w : extends allowed w w.
Proof. split; [done|]. exists []. by rewrite app_nil_r. Qed.

Lemma extends_trans allowed w1 w2 w3 :
  extends allowed w1 w2 → extends allowed w2 w3 → extends allowed w1 w3.
Proof.
  intros (Hq1 & t1 & Ht1 & Hf1) (Hq2 & t2 & Ht2 & Hf2). split; [congruence|].
  exists (t1 ++ t2). split; [by rewrite Ht2, Ht1, app_assoc|]. by apply Forall_app.
Qed.

Lemma extends_weaken (allowed allowed' : Call -> bool) w w' :
  (∀ call, allowed call = true → allowed' call = true) →
  extends allowed w w' → extends allowed' w w'.
Proof.
  intros Hsub (Hq & t & Ht & Hf). split; [done|]. exists t. split; [done|].
  eapply Forall_impl; [exact Hf|]. done.
Qed.

Lemma confined_ret {A} allowed (a : A) : confined allowed (ret a).
Proof. intros w. apply extends_refl. Qed.

Lemma confined_bind {A B} allowed (m : M A) (k : A -> M B) :
  confined allowed m → (∀ a, confined allowed (k a)) → confined allowed (bind m k).
Proof.
  intros Hm Hk w. unfold bind. specialize (Hm w).
  destruct (m w) as [a w1]. eapply extends_trans; [exact Hm|]. apply Hk.
Qed.

Lemma confined_emit allowed call : allowed call = true → confined allowed (emit call).
Proof.
  intros Hc w. split; [done|]. exists [call]. split; [done|]. by constructor.
Qed.

Lemma confined_answer allowed : confined allowed answer.
Proof.
  intros w. unfold answer. destruct (answers w); [apply extends_refl|].
  split; [done|]. exists []. by rewrite app_nil_r.
Qed.

Lemma confined_silent {A} allowed (m : M A) :
  (∀ w, queue (m w).2 = queue w ∧ trace (m w).2 = trace w) → confined allowed m.
Proof.
  intros Hm w. destruct (Hm w) as [Hq Ht]. split; [done|].
  exists []. by rewrite app_nil_r.
Qed.

Lemma confined_weaken {A} (allowed allowed' : Call -> bool) (m : M A) :
  (∀ call, allowed call = true → allowed' call = true) →
  confined allowed m → confined allowed' m.
Proof. intros Hsub Hm w. eapply extends_weaken; [exact Hsub | apply Hm]. Qed.

(** Decomposes a goal [confined allowed m] along the structure of [m]. *)
Ltac confine :=
  repeat first
    [ apply confined_ret
    | apply confined_bind; [|intros ?]
    | apply confined_emit; reflexivity
    | apply confined_answer
    | apply confined_silent; intros ?; simpl;
      repeat match goal with |- context [match ?x with _ => _ end] => destruct x end;
      done
    | match goal with
      | |- confined _ (match ?x with _ => _ end) => destruct x
      | |- confined _ (if ?b then _ else _) => destruct b
      end ].

Lemma confined_updateVarmorPolicyStatus allowed vp profileName resetReady phase condType
    status reason message :
  (∀ vp', allowed (CallPolicyUpdateStatus vp') = true) →
  confined allowed (updateVarmorPolicyStatus vp profileName resetReady phase condType
                      status reason message).
Proof.
  intros Hall. unfold updateVarmorPolicyStatus, PolicyUpdateStatus.
  apply confined_bind; [by apply confined_silent|]. intros now.
  apply confined_bind; [|intros ?; apply confined_ret].
  apply confined_bind; [apply confined_emit, Hall|]. intros _.
  apply confined_bind; [apply confined_answer|]. intros [e|]; [apply confined_ret|].
  apply confined_bind; [by apply confined_silent | intros _; apply confined_ret].
Qed.

Lemma confined_resetArmorProfileModelStatus allowed namespace name :
  (∀ ns n, allowed (CallModelGet ns n) = true) →
  (∀ ns n st, allowed (CallModelUpdateStatus ns n st) = true) →
  confined allowed (resetArmorProfileModelStatus namespace name).
Proof.
  intros Hget Hupd. unfold resetArmorProfileModelStatus, ModelGet, ModelUpdateStatus.
  apply confined_bind.
  - apply confined_bind; [apply confined_emit, Hget|]. intros _.
    apply confined_bind; [apply confined_answer|]. intros [e|]; [apply confined_ret|].
    apply confined_silent. intros w. by destruct (models w !! (namespace, name)).
  - intros [apm|e]; [|apply confined_ret].
    apply confined_bind; [apply confined_emit, Hupd|]. intros _.
    apply confined_bind; [apply confined_answer|]. intros [e|]; [apply confined_ret|].
    apply confined_bind; [by apply confined_silent | intros _; apply confined_ret].
Qed.

Ltac confine_handler :=
  repeat first
    [ apply confined_updateVarmorPolicyStatus; intros; reflexivity
    | apply confined_resetArmorProfileModelStatus; intros; reflexivity
    | progress confine ].

Lemma confined_handleDelete pkg c namespace name :
  confined deleteCalls (handleDeleteVarmorPolicy pkg c namespace name).
Proof. unfold handleDeleteVarmorPolicy, ProfileGet, ProfileDelete. confine_handler. Qed.

Lemma confined_ignoreAdd pkg c vp : confined addCalls (ignoreAdd pkg c vp).
Proof.
  destruct (ignoreAdd_cases pkg c vp) as [-> | [message ->]]; [apply confined_ret|].
  unfold forbidAdd. confine_handler.
Qed.

Lemma confined_handleAdd pkg c vp : confined addCalls (handleAddVarmorPolicy pkg c vp).
Proof.
  unfold handleAddVarmorPolicy. apply confined_bind; [apply confined_ignoreAdd|].
  intros ignore. unfold ProfileCreate. confine_handler.
Qed.

Lemma confined_ignoreUpdate c newVp oldAp : confined updateCalls (ignoreUpdate c newVp oldAp).
Proof.
  rewrite ignoreUpdate_firstMatch. unfold gateOutcome.
  destruct (firstMatch newVp oldAp) as [[]|]; confine_handler.
Qed.

Lemma confined_handleUpdate pkg c newVp oldAp :
  confined updateCalls (handleUpdateVarmorPolicy pkg c newVp oldAp).
Proof.
  unfold handleUpdateVarmorPolicy. apply confined_bind; [apply confined_ignoreUpdate|].
  intros g. unfold ProfileUpdateStatus, ProfileUpdate. confine_handler.
Qed.

Lemma deleteCalls_syncCalls call : deleteCalls call = true → syncCalls call = true.
Proof. by destruct call. Qed.

Lemma addCalls_syncCalls call : addCalls call = true → syncCalls call = true.
Proof. by destruct call. Qed.

Lemma updateCalls_syncCalls call : updateCalls call = true → syncCalls call = true.
Proof. by destruct call. Qed.

Lemma confined_syncPolicy pkg c key : confined syncCalls (syncPolicy pkg c key).
Proof.
  unfold syncPolicy.
  destruct (SplitMetaNamespaceKey key) as [[namespace name]|err]; [|apply confined_ret].
  apply confined_bind; [unfold PolicyGet; confine|].
  intros [vp|err].
  - apply confined_bind; [unfold ProfileGet; confine|].
    intros [ap|err].
    + apply (confined_weaken _ _ _ updateCalls_syncCalls), confined_handleUpdate.
    + destruct (IsNotFound err); [|apply confined_ret].
      apply (confined_weaken _ _ _ addCalls_syncCalls), confined_handleAdd.
  - destruct (IsNotFound err); [|apply confined_ret].
    apply (confined_weaken _ _ _ deleteCalls_syncCalls), confined_handleDelete.
Qed.

(** ** Stepping through the server *)

Lemma answer_eq w : answer w = (nextAnswer w, set_answers tail w).
Proof. unfold answer, nextAnswer. destruct w as [? ? ? [|a rest] ? ? ? ?]; reflexivity. Qed.

Lemma PolicyGet_eq ns name w :
  PolicyGet ns name w
  = (match nextAnswer w with
     | Some e => inr e
     | None => match policies w !! (ns, name) with
               | Some vp => inl vp
               | None => inr ErrNotFound
               end
     end, answered (CallPolicyGet ns name) w).
Proof.
  unfold PolicyGet, bind, emit, modify, ret. cbn [fst snd]. rewrite answer_eq.
  unfold nextAnswer, answered. simpl. by destruct (hd None (answers w)); [|destruct (_ !! _)].
Qed.

Lemma ProfileGet_eq ns name w :
  ProfileGet ns name w
  = (match nextAnswer w with
     | Some e => inr e
     | None => match profiles w !! (ns, name) with
               | Some ap => inl ap
               | None => inr ErrNotFound
               end
     end, answered (CallProfileGet ns name) w).
Proof.
  unfold ProfileGet, bind, emit, modify, ret. cbn [fst snd]. rewrite answer_eq.
  unfold nextAnswer, answered. simpl. by destruct (hd None (answers w)); [|destruct (_ !! _)].
Qed.

Lemma ProfileDelete_eq ns name w :
  ProfileDelete ns name w
  = (nextAnswer w,
     match nextAnswer w with
     | Some _ => answered (CallProfileDelete ns name) w
     | None => set_profiles (delete (ns, name)) (answered (CallProfileDelete ns name) w)
     end).
Proof.
  unfold ProfileDelete, bind, emit, modify, ret. cbn [fst snd]. rewrite answer_eq.
  unfold nextAnswer, answered. simpl. by destruct (hd None (answers w)).
Qed.

Lemma ProfileCreate_eq ns ap w :
  ProfileCreate ns ap w
  = (match nextAnswer w with Some e => inr e | None => inl ap end,
     match nextAnswer w with
     | Some _ => answered (CallProfileCreate ns ap) w
     | None => set_profiles (insert (ns, ApName ap) ap) (answered (CallProfileCreate ns ap) w)
     end).
Proof.
  unfold ProfileCreate, bind, emit, modify, ret. cbn [fst snd]. rewrite answer_eq.
  unfold nextAnswer, answered. simpl. by destruct (hd None (answers w)).
Qed.

Lemma ProfileUpdateStatus_eq ns ap w :
  ProfileUpdateStatus ns ap w
  = (match nextAnswer w with Some e => inr e | None => inl ap end,
     match nextAnswer w with
     | Some _ => answered (CallProfileUpdateStatus ns ap) w
     | None => set_profiles (alter (withApStatus (ApStatus ap)) (ns, ApName ap))
                 (answered (CallProfileUpdateStatus ns ap) w)
     end).
Proof.
  unfold ProfileUpdateStatus, bind, emit, modify, ret. cbn [fst snd]. rewrite answer_eq.
  unfold nextAnswer, answered. simpl. by destruct (hd None (answers w)).
Qed.

Lemma ProfileUpdate_eq ns ap w :
  ProfileUpdate ns ap w
  = (nextAnswer w,
     match nextAnswer w with
     | Some _ => answered (CallProfileUpdate ns ap) w
     | None => set_profiles (alter (withApSpec (ApSpec ap)) (ns, ApName ap))
                 (answered (CallProfileUpdate ns ap) w)
     end).
Proof.
  unfold ProfileUpdate, bind, emit, modify, ret. cbn [fst snd]. rewrite answer_eq.
  unfold nextAnswer, answered. simpl. by destruct (hd None (answers w)).
Qed.

Lemma updateVarmorPolicyStatus_eq vp profileName resetReady phase condType status
    reason message w :
  let vp' := withStatus (applyStatus (PolicyStatus vp) profileName resetReady phase
                            condType status reason message (clock w)) vp in
  let w1 := answered (CallPolicyUpdateStatus vp') (set_clock (fun t => t + 1) w) in
  updateVarmorPolicyStatus vp profileName resetReady phase condType status reason message w
  = ((vp', nextAnswer w),
     match nextAnswer w with
     | Some _ => w1
     | None => set_policies (alter (withStatus (PolicyStatus vp')) (Namespace vp, Name vp)) w1
     end).
Proof.
  unfold updateVarmorPolicyStatus, PolicyUpdateStatus, bind, Now, emit, modify, ret.
  cbn [fst snd]. rewrite answer_eq. unfold nextAnswer, answered. simpl.
  by destruct (hd None (answers w)).
Qed.

(** ** Profile Synchronizer: delete *)

Lemma handleDelete_unfold pkg c namespace name w :
  handleDeleteVarmorPolicy pkg c namespace name w
  = let ref := deleteRef pkg c namespace name in
    let w1 := answered (CallProfileGet ref.1 ref.2) w in
    match nextAnswer w with
    | Some err => (if IsNotFound err then None else Some err, w1)
    | None =>
        match profiles w !! ref with
        | None => (None, w1)
        | Some ap =>
            match nextAnswer w1 with
            | Some e => (Some e, answered (CallProfileDelete ref.1 ref.2) w1)
            | None =>
                (None,
                 set_trace
                   (fun t =>
                      t ++ (if restartExistWorkloads c
                            then [GoUpdateWorkloadAnnotationsAndEnv
                                    (match scope c with
                                     | Namespaced => namespace
                                     | Cluster => NamespaceAll
                                     end)
                                    (ProfEnforcer (ApProfile (ApSpec ap)))
                                    (ApTarget (ApSpec ap)) "" "" false]
                            else [])
                        ++ [SendDeleteCh (match scope c with
                                          | Namespaced => namespace +:+ "/" +:+ name
                                          | Cluster => name
                                          end)])
                   (set_profiles (delete ref) (answered (CallProfileDelete ref.1 ref.2) w1)))
            end
        end
    end.
Proof.
  unfold handleDeleteVarmorPolicy, deleteRef, bind.
  destruct (scope c); cbn [fst snd]; rewrite ProfileGet_eq;
    (destruct (nextAnswer w) as [err|]; [by destruct (IsNotFound err)|]);
    (destruct (profiles w !! _) as [ap|]; [|done]);
    rewrite ProfileDelete_eq;
    (destruct (nextAnswer (answered _ w)) as [e|]; [done|]);
    unfold emit, modify, ret; destruct (restartExistWorkloads c); cbn;
    unfold set_trace; cbn; by rewrite <- ?app_assoc.
Qed.

(** X1.  Deleting is idempotent on "not found": with no profile in the store
    (or with the read answered "not found") the delete handler returns
    [nil] after the one read; it deletes nothing and tells the status
    manager nothing. *)
Theorem delete_without_profile_is_noop pkg c namespace name w :
  (nextAnswer w = None ∧ profiles w !! deleteRef pkg c namespace name = None)
  ∨ nextAnswer w = Some ErrNotFound →
  let r := handleDeleteVarmorPolicy pkg c namespace name w in
  r.1 = None
  ∧ trace r.2 = trace w ++ [CallProfileGet (deleteRef pkg c namespace name).1
                              (deleteRef pkg c namespace name).2]
  ∧ profiles r.2 = profiles w.
Proof.
  intros H r. subst r. rewrite handleDelete_unfold. cbv zeta.
  destruct H as [[-> ->] | ->]; done.
Qed.

Lemma delete_without_profile_witness :
  handleDeleteVarmorPolicy samplePkg nsController "default" "gone"
    (worldOf plainPolicy plainProfile [])
  = (None, set_trace (fun _ => [CallProfileGet "default" "varmor-default-gone"])
             (worldOf plainPolicy plainProfile [])).
Proof.
  destruct (delete_without_profile_is_noop samplePkg nsController "default" "gone"
              (worldOf plainPolicy plainProfile [])) as (Hres & Htr & Hpr).
  - left. split; reflexivity.
  - reflexivity.
Defined.

(** X2.  With the profile in the store and both calls accepted, the delete
    handler removes the profile, starts the clearing of the workload
    annotations exactly when the controller restarts existing workloads
    (with an empty profile name), then tells the status manager to drop
    the key, and returns [nil]. *)
Theorem delete_removes_profile_and_notifies pkg c namespace name ap w :
  nextAnswer w = None →
  hd None (tail (answers w)) = None →
  profiles w !! deleteRef pkg c namespace name = Some ap →
  let ref := deleteRef pkg c namespace name in
  let r := handleDeleteVarmorPolicy pkg c namespace name w in
  r.1 = None
  ∧ profiles r.2 = delete ref (profiles w)
  ∧ profiles r.2 !! ref = None
  ∧ trace r.2
    = trace w
      ++ [CallProfileGet ref.1 ref.2; CallProfileDelete ref.1 ref.2]
      ++ (if restartExistWorkloads c
          then [GoUpdateWorkloadAnnotationsAndEnv
                  (match scope c with Namespaced => namespace | Cluster => "" end)
                  (ProfEnforcer (ApProfile (ApSpec ap))) (ApTarget (ApSpec ap)) "" "" false]
          else [])
      ++ [SendDeleteCh (match scope c with
                        | Namespaced => namespace +:+ "/" +:+ name
                        | Cluster => name
                        end)].
Proof.
  intros Ha1 Ha2 Hap ref r. subst r. rewrite handleDelete_unfold. cbv zeta.
  rewrite Ha1, Hap. fold ref.
  assert (nextAnswer (answered (CallProfileGet ref.1 ref.2) w) = None) as -> by done.
  cbn. split; [done|]. split; [done|]. split; [apply lookup_delete_eq|].
  by rewrite <- !app_assoc.
Qed.

Lemma delete_removes_profile_witness :
  profiles (handleDeleteVarmorPolicy samplePkg nsController "default" "demo"
              (worldOf plainPolicy plainProfile [])).2 = ∅
  ∧ trace (handleDeleteVarmorPolicy samplePkg nsController "default" "demo"
             (worldOf plainPolicy plainProfile [])).2
    = [CallProfileGet "default" "varmor-default-demo";
       CallProfileDelete "default" "varmor-default-demo";
       GoUpdateWorkloadAnnotationsAndEnv "default" "AppArmor" targetA "" "" false;
       SendDeleteCh "default/demo"].
Proof.
  destruct (delete_removes_profile_and_notifies samplePkg nsController "default" "demo"
              plainProfile (worldOf plainPolicy plainProfile []))
    as (_ & Hpr & _ & Htr).
  - reflexivity.
  - reflexivity.
  - reflexivity.
  - split; [rewrite Hpr; apply delete_singleton_eq | exact Htr].
Defined.

(** X3.  A store error stops the delete handler: a failed read (other than
    "not found") or a failed delete is returned, the profile stays in the
    store, no workload is restarted and the status manager is not told to
    drop the key. *)
Theorem delete_store_error_is_returned pkg c namespace name w e :
  (nextAnswer w = Some e ∧ IsNotFound e = false)
  ∨ (nextAnswer w = None
     ∧ is_Some (profiles w !! deleteRef pkg c namespace name)
     ∧ hd None (tail (answers w)) = Some e) →
  let r := handleDeleteVarmorPolicy pkg c namespace name w in
  r.1 = Some e
  ∧ profiles r.2 = profiles w
  ∧ ∃ t, trace r.2 = trace w ++ t
         ∧ Forall (fun call => match call with
                               | GoUpdateWorkloadAnnotationsAndEnv _ _ _ _ _ _
                               | SendDeleteCh _ => False
                               | _ => True
                               end) t.
Proof.
  intros H r. subst r. rewrite handleDelete_unfold. cbv zeta.
  destruct H as [[-> ->] | (-> & [ap ->] & Ha2)].
  - split; [done|]. split; [done|]. eexists. split; [reflexivity|].
    repeat constructor.
  - assert (nextAnswer (answered (CallProfileGet (deleteRef pkg c namespace name).1
                                   (deleteRef pkg c namespace name).2) w) = Some e) as ->
      by done.
    split; [done|]. split; [done|].
    exists [CallProfileGet (deleteRef pkg c namespace name).1 (deleteRef pkg c namespace name).2;
            CallProfileDelete (deleteRef pkg c namespace name).1 (deleteRef pkg c namespace name).2].
    split; [cbn; by rewrite <- app_assoc|]. repeat constructor.
Qed.

Lemma delete_store_error_witness :
  (handleDeleteVarmorPolicy samplePkg nsController "default" "demo"
     (worldOf plainPolicy plainProfile [None; Some conflict])).1 = Some conflict
  ∧ profiles (handleDeleteVarmorPolicy samplePkg nsController "default" "demo"
                (worldOf plainPolicy plainProfile [None; Some conflict])).2
    = {[ ("default", "varmor-default-demo") := plainProfile ]}.
Proof.
  destruct (delete_store_error_is_returned samplePkg nsController "default" "demo"
              (worldOf plainPolicy plainProfile [None; Some conflict]) conflict)
    as (Hres & Hpr & _).
  - right. split; [reflexivity|]. split; [by eexists | reflexivity].
  - split; [exact Hres | exact Hpr].
Defined.

(** ** Validation Gate: create *)

Lemma forbidAdd_true vp message w : (forbidAdd vp message w).1 = true.
Proof. by destruct (forbidAdd_facts vp message w) as (H & _). Qed.

(** X5.  The create gate lets a policy through exactly when its target kind is
    one of Deployment, StatefulSet, DaemonSet and Pod, exactly one of the
    target's name and selector is given, the behavior-modeling mode is not
    asked for unless the controller is the namespace-scoped one with the
    mode enabled, and the derived profile name has at most 63 bytes; a
    policy let through leaves the world untouched. *)
Theorem create_gate_accepts_iff_admissible pkg c vp w :
  ((ignoreAdd pkg c vp w).1 = false ↔ admissible pkg c vp)
  ∧ ((ignoreAdd pkg c vp w).1 = false → (ignoreAdd pkg c vp w).2 = w).
Proof.
  unfold ignoreAdd, admissible, derivedName.
  set (target := SpecTarget (Spec vp)).
  destruct (bool_decide (Kind target ≠ "Deployment") && bool_decide (Kind target ≠ "StatefulSet")
            && bool_decide (Kind target ≠ "DaemonSet") && bool_decide (Kind target ≠ "Pod"))
    eqn:E1.
  { rewrite forbidAdd_true. split; [|done]. split; [done|]. intros (Hk & _).
    rewrite !andb_true_iff, !bool_decide_eq_true in E1.
    rewrite !elem_of_cons, elem_of_nil in Hk. tauto. }
  assert (Kind target ∈ ["Deployment"; "StatefulSet"; "DaemonSet"; "Pod"]) as Hk.
  { rewrite !andb_false_iff, !bool_decide_eq_false in E1.
    rewrite !elem_of_cons.
    destruct (decide (Kind target = "Deployment")); [tauto|].
    destruct (decide (Kind target = "StatefulSet")); [tauto|].
    destruct (decide (Kind target = "DaemonSet")); [tauto|].
    destruct (decide (Kind target = "Pod")); tauto. }
  destruct (bool_decide (TargetName target = "") && bool_decide (Selector target = None)) eqn:E2.
  { rewrite forbidAdd_true. split; [|done]. split; [done|]. intros (_ & Hx & _).
    rewrite andb_true_iff, !bool_decide_eq_true in E2. tauto. }
  destruct (bool_decide (TargetName target ≠ "") && bool_decide (Selector target ≠ None)) eqn:E3.
  { rewrite forbidAdd_true. split; [|done]. split; [done|]. intros (_ & Hx & _).
    rewrite andb_true_iff, !bool_decide_eq_true in E3. tauto. }
  assert (TargetName target = "" ↔ Selector target ≠ None) as Hx.
  { rewrite andb_false_iff, !bool_decide_eq_false in E2.
    rewrite andb_false_iff, !bool_decide_eq_false in E3.
    destruct (decide (TargetName target = "")), (decide (Selector target = None)); tauto. }
  destruct (match scope c with
            | Namespaced => negb (enableDefenseInDepth c)
                            && bool_decide (Mode (SpecPolicy (Spec vp)) = DefenseInDepthMode)
            | Cluster => bool_decide (Mode (SpecPolicy (Spec vp)) = DefenseInDepthMode)
            end) eqn:E4.
  { rewrite forbidAdd_true. split; [|done]. split; [done|]. intros (_ & _ & Hm & _).
    destruct (scope c).
    - rewrite andb_true_iff, bool_decide_eq_true, negb_true_iff in E4.
      destruct E4 as [Hen Hmode]. destruct (Hm Hmode) as [_ Hen']. congruence.
    - rewrite bool_decide_eq_true in E4. by destruct (Hm E4). }
  assert (Mode (SpecPolicy (Spec vp)) = DefenseInDepthMode →
          scope c = Namespaced ∧ enableDefenseInDepth c = true) as Hm.
  { intros Hmode. destruct (scope c).
    - rewrite andb_false_iff, bool_decide_eq_false, negb_false_iff in E4. tauto.
    - rewrite bool_decide_eq_false in E4. done. }
  match goal with
  | |- context [bool_decide ?P] => destruct (bool_decide P) eqn:E5
  end.
  { rewrite forbidAdd_true. split; [|done]. split; [done|]. intros (_ & _ & _ & Hl).
    apply bool_decide_eq_true in E5. destruct (scope c); lia. }
  apply bool_decide_eq_false in E5.
  split; [|done]. split; [|done]. intros _.
  split; [done|]. split; [done|]. split; [done|]. destruct (scope c); lia.
Qed.

(** The policy of the end-to-end scenario passes the create gate. *)
Lemma create_gate_witness : ignoreAdd samplePkg nsController plainPolicy
                              (worldOf plainPolicy plainProfile [])
                            = (false, worldOf plainPolicy plainProfile []).
Proof.
  destruct (create_gate_accepts_iff_admissible samplePkg nsController plainPolicy
              (worldOf plainPolicy plainProfile [])) as [Hiff Hw].
  assert ((ignoreAdd samplePkg nsController plainPolicy
             (worldOf plainPolicy plainProfile [])).1 = false) as Hacc.
  { apply Hiff. split; [|split; [|split]].
    - left.
    - split; [discriminate | intros H; by destruct H].
    - discriminate.
    - vm_compute. lia. }
  specialize (Hw Hacc).
  destruct (ignoreAdd samplePkg nsController plainPolicy (worldOf plainPolicy plainProfile []))
    as [b w']. simpl in *. by subst.
Defined.

(** ** Profile Synchronizer: create *)

Lemma set_trace_nil w : set_trace (fun t => t ++ []) w = w.
Proof. destruct w. unfold set_trace. simpl. by rewrite app_nil_r. Qed.

Lemma ignoreAdd_accepted pkg c vp w :
  (ignoreAdd pkg c vp w).1 = false → ignoreAdd pkg c vp w = (false, w).
Proof.
  destruct (ignoreAdd_cases pkg c vp) as [-> | [message ->]]; [done|].
  by rewrite forbidAdd_true.
Qed.

(** The create handler past the gate, for a policy that does not ask for
    behavior modeling. *)
Lemma handleAdd_unfold pkg c vp w :
  (ignoreAdd pkg c vp w).1 = false →
  handleAddVarmorPolicy pkg c vp w
  = match NewArmorProfile pkg vp (isCluster (scope c)) with
    | inr err =>
        (nextAnswer w,
         (updateVarmorPolicyStatus vp "" true VarmorPolicyError VarmorPolicyCreated
            ConditionFalse "Error" (Error err) w).2)
    | inl ap =>
        let w1 := (updateVarmorPolicyStatus vp (ProfName (ApProfile (ApSpec ap))) true
                     VarmorPolicyPending VarmorPolicyCreated ConditionTrue "" "" w).2 in
        match nextAnswer w with
        | Some e => (Some e, w1)
        | None =>
            let w2 :=
              match scope c with
              | Namespaced =>
                  if bool_decide (Mode (SpecPolicy (Spec vp)) = DefenseInDepthMode)
                  then (resetArmorProfileModelStatus (ApNamespace ap) (ApName ap) w1).2
                  else w1
              | Cluster => w1
              end in
            let w3 := set_UpdateDesiredNumber true
                        (set_trace (fun t => t ++ [SetUpdateDesiredNumber]) w2) in
            match nextAnswer w3 with
            | Some e => (Some e, answered (CallProfileCreate (createNamespace pkg c vp) ap) w3)
            | None =>
                (None,
                 set_trace (fun t => t ++ (if restartExistWorkloads c
                                           then [createRestart c vp ap] else []))
                   (set_profiles (insert (createNamespace pkg c vp, ApName ap) ap)
                      (answered (CallProfileCreate (createNamespace pkg c vp) ap) w3)))
            end
        end
    end.
Proof.
  intros Hacc. unfold handleAddVarmorPolicy, bind at 1.
  rewrite (ignoreAdd_accepted pkg c vp w Hacc).
  destruct (NewArmorProfile pkg vp (isCluster (scope c))) as [ap|err].
  - unfold bind at 1. rewrite updateVarmorPolicyStatus_eq. cbn [fst snd].
    destruct (nextAnswer w) as [e|]; [done|].
    unfold bind at 1.
    match goal with
    | |- (let (_, w') := ?m ?w0 in _) = _ =>
        assert (m w0 = (tt, match scope c with
                            | Namespaced =>
                                if bool_decide (Mode (SpecPolicy (Spec vp)) = DefenseInDepthMode)
                                then (resetArmorProfileModelStatus (ApNamespace ap) (ApName ap) w0).2
                                else w0
                            | Cluster => w0
                            end)) as ->
    end.
    { destruct (scope c); [|done]. case_bool_decide; [|done].
      unfold bind. by destruct (resetArmorProfileModelStatus _ _ _) as [? ?]. }
    unfold bind at 1. unfold bind at 1. cbn [emit modify fst snd].
    unfold bind at 1. rewrite ProfileCreate_eq. unfold createNamespace.
    destruct (nextAnswer _) as [e|]; [done|].
    unfold bind, emit, modify, ret, createRestart.
    destruct (restartExistWorkloads c); [done|]. by rewrite set_trace_nil.
  - unfold bind. rewrite updateVarmorPolicyStatus_eq. cbn [fst snd].
    by destruct (nextAnswer w).
Qed.

(** X6.  A create that passes the gate, for a policy that does not ask for
    behavior modeling, with both writes accepted: the policy's status is
    written first (phase [Pending], ready reset, a [Created]/[True]
    condition appended), then the profile is created under its name in the
    namespace of the policy (of vArmor, for the cluster scope), and the
    workloads are restarted exactly when the controller is configured to;
    the handler returns [nil]. *)
Theorem create_writes_status_then_profile pkg c vp ap w :
  (ignoreAdd pkg c vp w).1 = false →
  NewArmorProfile pkg vp (isCluster (scope c)) = inl ap →
  Mode (SpecPolicy (Spec vp)) ≠ DefenseInDepthMode →
  nextAnswer w = None →
  hd None (tail (answers w)) = None →
  let r := handleAddVarmorPolicy pkg c vp w in
  let vp1 := createdPolicy vp ap (clock w) in
  r.1 = None
  ∧ profiles r.2 = <[(createNamespace pkg c vp, ApName ap) := ap]> (profiles w)
  ∧ trace r.2
    = trace w
      ++ [CallPolicyUpdateStatus vp1; SetUpdateDesiredNumber;
          CallProfileCreate (createNamespace pkg c vp) ap]
      ++ (if restartExistWorkloads c then [createRestart c vp ap] else [])
  ∧ Phase (PolicyStatus vp1) = VarmorPolicyPending
  ∧ Ready (PolicyStatus vp1) = false
  ∧ Conditions (PolicyStatus vp1)
    = Conditions (PolicyStatus vp)
      ++ [mkCondition VarmorPolicyCreated ConditionTrue (clock w) "" ""]
  ∧ UpdateDesiredNumber r.2 = true.
Proof.
  intros Hacc Hgen Hmode Ha1 Ha2 r vp1. subst r.
  rewrite (handleAdd_unfold pkg c vp w Hacc), Hgen. cbv zeta.
  rewrite updateVarmorPolicyStatus_eq. cbn [fst snd]. rewrite Ha1.
  rewrite (bool_decide_eq_false_2 _ Hmode).
  assert (∀ w0 : World, match scope c with Namespaced => w0 | Cluster => w0 end = w0) as Hsc
    by (intros; by destruct (scope c)).
  rewrite Hsc.
  match goal with
  | |- context [nextAnswer ?w3] =>
      assert (nextAnswer w3 = None) as -> by (unfold nextAnswer; cbn; exact Ha2)
  end.
  cbn [fst snd]. fold (createdPolicy vp ap (clock w)). fold vp1.
  split; [done|]. split; [done|].
  split; [cbn; by rewrite <- !app_assoc|].
  subst vp1. unfold createdPolicy. cbn [PolicyStatus withStatus].
  rewrite applyStatus_Phase, applyStatus_Ready.
  split; [done|]. split; [done|]. split; [by apply applyStatus_append|done].
Qed.

Lemma create_writes_witness :
  (handleAddVarmorPolicy samplePkg nsController plainPolicy
     (worldOf plainPolicy plainProfile [])).1 = None
  ∧ profiles (handleAddVarmorPolicy samplePkg nsController plainPolicy
                (worldOf plainPolicy plainProfile [])).2
    !! ("default", "varmor-default-demo")
    = Some (withApStatus resetStatus (mkProfile targetA "AppArmor" "AlwaysAllow" 0 "")).
Proof.
  destruct (create_writes_status_then_profile samplePkg nsController plainPolicy
              (withApStatus resetStatus (mkProfile targetA "AppArmor" "AlwaysAllow" 0 ""))
              (worldOf plainPolicy plainProfile [])) as (Hres & Hpr & _).
  - reflexivity.
  - reflexivity.
  - discriminate.
  - reflexivity.
  - reflexivity.
  - split; [exact Hres|]. rewrite Hpr. apply lookup_insert_eq.
Defined.

(** X7.  A store error stops the create: when the status write fails, or (for a
    policy that does not ask for behavior modeling) when the status write
    is accepted and the creation of the profile fails, the handler returns
    that error, no profile is stored and no workload is restarted.  When
    the status write fails the profile creation is not even attempted. *)
Theorem create_store_error_is_returned pkg c vp ap w e :
  (ignoreAdd pkg c vp w).1 = false →
  NewArmorProfile pkg vp (isCluster (scope c)) = inl ap →
  nextAnswer w = Some e
  ∨ (Mode (SpecPolicy (Spec vp)) ≠ DefenseInDepthMode
     ∧ nextAnswer w = None ∧ hd None (tail (answers w)) = Some e) →
  let r := handleAddVarmorPolicy pkg c vp w in
  r.1 = Some e
  ∧ profiles r.2 = profiles w
  ∧ (∃ t, trace r.2 = trace w ++ t ∧ Forall (fun call => isRestart call = false) t)
  ∧ (nextAnswer w = Some e →
     trace r.2 = trace w ++ [CallPolicyUpdateStatus (createdPolicy vp ap (clock w))]).
Proof.
  intros Hacc Hgen H r. subst r.
  rewrite (handleAdd_unfold pkg c vp w Hacc), Hgen. cbv zeta.
  rewrite updateVarmorPolicyStatus_eq. cbn [fst snd].
  destruct H as [Ha1 | (Hmode & Ha1 & Ha2)]; rewrite Ha1.
  - split; [done|]. split; [done|]. split; [|done].
    eexists. split; [reflexivity|]. by repeat constructor.
  - rewrite (bool_decide_eq_false_2 _ Hmode).
    assert (∀ w0 : World, match scope c with Namespaced => w0 | Cluster => w0 end = w0) as Hsc
      by (intros; by destruct (scope c)).
    rewrite Hsc.
    match goal with
    | |- context [nextAnswer ?w3] =>
        assert (nextAnswer w3 = Some e) as -> by (unfold nextAnswer; cbn; exact Ha2)
    end.
    split; [done|]. split; [done|]. split; [|done].
    eexists. split; [cbn; rewrite <- !app_assoc; reflexivity|]. by repeat constructor.
Qed.

Lemma create_store_error_witness :
  (handleAddVarmorPolicy samplePkg nsController plainPolicy
     (worldOf plainPolicy plainProfile [None; Some conflict])).1 = Some conflict.
Proof.
  destruct (create_store_error_is_returned samplePkg nsController plainPolicy
              (withApStatus resetStatus (mkProfile targetA "AppArmor" "AlwaysAllow" 0 ""))
              (worldOf plainPolicy plainProfile [None; Some conflict]) conflict)
    as (Hres & _).
  - reflexivity.
  - reflexivity.
  - right. split; [discriminate|]. split; reflexivity.
  - exact Hres.
Defined.

(** X8.  When the generator refuses a policy at create time, the handler writes
    phase [Error] with a [Created]/[False] condition whose reason is
    [Error] and whose message is the generator's error, creates no
    profile, and returns the store's answer to that write: unlike a
    rejection by the gate, a failed status write is returned here. *)
Theorem create_generation_failure_is_reported pkg c vp err w :
  (ignoreAdd pkg c vp w).1 = false →
  NewArmorProfile pkg vp (isCluster (scope c)) = inr err →
  let r := handleAddVarmorPolicy pkg c vp w in
  let vp1 := withStatus (applyStatus (PolicyStatus vp) "" true VarmorPolicyError
                           VarmorPolicyCreated ConditionFalse "Error" (Error err) (clock w))
               vp in
  r.1 = nextAnswer w
  ∧ profiles r.2 = profiles w
  ∧ trace r.2 = trace w ++ [CallPolicyUpdateStatus vp1]
  ∧ Phase (PolicyStatus vp1) = VarmorPolicyError
  ∧ Ready (PolicyStatus vp1) = false
  ∧ Conditions (PolicyStatus vp1)
    = Conditions (PolicyStatus vp)
      ++ [mkCondition VarmorPolicyCreated ConditionFalse (clock w) "Error" (Error err)].
Proof.
  intros Hacc Hgen r vp1. subst r.
  rewrite (handleAdd_unfold pkg c vp w Hacc), Hgen.
  rewrite updateVarmorPolicyStatus_eq. cbn [fst snd]. fold vp1.
  split; [done|]. split; [by destruct (nextAnswer w)|].
  split; [by destruct (nextAnswer w)|].
  subst vp1. cbn [PolicyStatus withStatus]. rewrite applyStatus_Phase, applyStatus_Ready.
  split; [done|]. split; [done|]. by apply applyStatus_append.
Qed.

Lemma create_generation_failure_witness :
  (handleAddVarmorPolicy samplePkg nsController
     (mkPolicy targetA "AppArmor" "AlwaysAllow" 0 "invalid" "1" (statusOf false "" []))
     (worldOf plainPolicy plainProfile [Some conflict])).1 = Some conflict.
Proof.
  destruct (create_generation_failure_is_reported samplePkg nsController
              (mkPolicy targetA "AppArmor" "AlwaysAllow" 0 "invalid" "1" (statusOf false "" []))
              (ErrMsg "unknown rule") (worldOf plainPolicy plainProfile [Some conflict]))
    as (Hres & _).
  - reflexivity.
  - reflexivity.
  - exact Hres.
Defined.

(** ** Profile Synchronizer: the rebuild path of an update *)

Lemma ModelGet_eq ns name w :
  ModelGet ns name w
  = (match nextAnswer w with
     | Some e => inr e
     | None => match models w !! (ns, name) with
               | Some st => inl st
               | None => inr ErrNotFound
               end
     end, answered (CallModelGet ns name) w).
Proof.
  unfold ModelGet, bind, emit, modify, ret. cbn [fst snd]. rewrite answer_eq.
  unfold nextAnswer, answered. simpl. by destruct (hd None (answers w)); [|destruct (_ !! _)].
Qed.

Lemma ModelUpdateStatus_eq ns name st w :
  ModelUpdateStatus ns name st w
  = (nextAnswer w,
     match nextAnswer w with
     | Some _ => answered (CallModelUpdateStatus ns name st) w
     | None => set_models (alter (fun _ => st) (ns, name))
                 (answered (CallModelUpdateStatus ns name st) w)
     end).
Proof.
  unfold ModelUpdateStatus, bind, emit, modify, ret. cbn [fst snd]. rewrite answer_eq.
  unfold nextAnswer, answered. simpl. by destruct (hd None (answers w)).
Qed.

(** The reset of a behavior model touches neither the policies nor the
    profiles. *)
Lemma resetArmorProfileModelStatus_stores namespace name w :
  profiles (resetArmorProfileModelStatus namespace name w).2 = profiles w
  ∧ policies (resetArmorProfileModelStatus namespace name w).2 = policies w.
Proof.
  unfold resetArmorProfileModelStatus, bind. rewrite ModelGet_eq.
  destruct (nextAnswer w) as [e|]; [done|].
  destruct (models w !! (namespace, name)) as [apm|]; [|done].
  rewrite ModelUpdateStatus_eq. by destruct (nextAnswer _).
Qed.

(** The update handler once it has decided to rebuild the profile. *)
Lemma handleUpdate_rebuild_unfold pkg c newVp oldAp w newProfile :
  firstMatch newVp oldAp = None →
  nextAnswer w = None →
  GenerateProfile pkg (SpecPolicy (Spec newVp)) (ProfName (ApProfile (ApSpec oldAp))) false ""
  = inl newProfile →
  buildApSpec c newVp oldAp newProfile ≠ ApSpec oldAp →
  handleUpdateVarmorPolicy pkg c newVp oldAp w
  = let ref := updateRef c newVp oldAp in
    let newApSpec := buildApSpec c newVp oldAp newProfile in
    let cleared := withApStatus resetStatus oldAp in
    let w1 := (updateVarmorPolicyStatus newVp "" true VarmorPolicyPending
                 VarmorPolicyUpdated ConditionTrue "" "" w).2 in
    let w2 := set_UpdateDesiredNumber true
                (set_trace (fun t => t ++ [SetUpdateDesiredNumber]) w1) in
    match nextAnswer w2 with
    | Some e => (Some e, answered (CallProfileUpdateStatus ref.1 cleared) w2)
    | None =>
        let w3 := set_profiles (alter (withApStatus resetStatus) ref)
                    (answered (CallProfileUpdateStatus ref.1 cleared) w2) in
        let w4 :=
          match scope c with
          | Namespaced =>
              if bool_decide (Mode (SpecPolicy (Spec newVp)) = DefenseInDepthMode)
              then (resetArmorProfileModelStatus (Namespace newVp) (ApName oldAp) w3).2
              else w3
          | Cluster => w3
          end in
        let w5 := set_trace (fun t => t ++ [SendResetCh (statusKeyOf (scope c) newVp)]) w4 in
        (nextAnswer w5,
         match nextAnswer w5 with
         | Some _ => answered (CallProfileUpdate ref.1 (withApSpec newApSpec cleared)) w5
         | None =>
             set_profiles (alter (withApSpec newApSpec) ref)
               (answered (CallProfileUpdate ref.1 (withApSpec newApSpec cleared)) w5)
         end)
    end.
Proof.
  intros Hm Hok Hgen Hne.
  unfold handleUpdateVarmorPolicy, bind at 1.
  rewrite ignoreUpdate_firstMatch, Hm. cbn [gateOutcome ret fst snd]. unfold bind at 1.
  rewrite updateVarmorPolicyStatus_eq. cbn [fst snd]. rewrite Hok. cbv zeta. cbn [fst snd].
  change (Spec (withStatus _ newVp)) with (Spec newVp). rewrite Hgen.
  match goal with
  | |- context [buildApSpec c ?vp1 oldAp newProfile] =>
      change (buildApSpec c vp1 oldAp newProfile) with (buildApSpec c newVp oldAp newProfile)
  end.
  unfold bind at 1. unfold bind at 1. cbn [emit modify fst snd].
  rewrite bool_decide_eq_false_2 by done. cbn [negb].
  unfold bind at 1. rewrite ProfileUpdateStatus_eq. unfold updateRef, statusKeyOf.
  cbn [fst snd ApName ApNamespace withApStatus Namespace Name withStatus].
  set (w2 := set_UpdateDesiredNumber true _).
  destruct (nextAnswer w2) as [e|] eqn:Ha2; [by destruct (scope c)|].
  unfold bind at 1.
  match goal with
  | |- (let (_, w') := ?m ?w0 in _) = _ =>
      assert (m w0 = (tt, match scope c with
                          | Namespaced =>
                              if bool_decide (Mode (SpecPolicy (Spec newVp)) = DefenseInDepthMode)
                              then (resetArmorProfileModelStatus (Namespace newVp) (ApName oldAp) w0).2
                              else w0
                          | Cluster => w0
                          end)) as ->
  end.
  { destruct (scope c); [|done]. case_bool_decide; [|done].
    unfold bind. by destruct (resetArmorProfileModelStatus _ _ _) as [? ?]. }
  unfold bind at 1. cbn [emit modify fst snd]. unfold bind at 1.
  rewrite ProfileUpdate_eq. unfold resetStatus.
  cbn [ApName ApNamespace ApSpec ApStatus withApSpec withApStatus].
  destruct (scope c);
    match goal with |- context [nextAnswer ?x] => destruct (nextAnswer x) end;
    reflexivity.
Qed.

(** X11.  The rebuild path, for a policy that does not ask for behavior
    modeling, with every write accepted: after the policy's status write
    the handler first clears the profile's status (loaded count zero, no
    conditions), then tells the status manager to reset the key, and only
    then stores the rebuilt spec; it asks for no status refresh and
    returns [nil].  The stored profile ends up with the rebuilt spec,
    whose target is the old one, and the cleared status. *)
Theorem rebuild_clears_status_then_updates_spec pkg c newVp oldAp w newProfile :
  firstMatch newVp oldAp = None →
  Mode (SpecPolicy (Spec newVp)) ≠ DefenseInDepthMode →
  GenerateProfile pkg (SpecPolicy (Spec newVp)) (ProfName (ApProfile (ApSpec oldAp))) false ""
  = inl newProfile →
  buildApSpec c newVp oldAp newProfile ≠ ApSpec oldAp →
  nextAnswer w = None →
  hd None (tail (answers w)) = None →
  hd None (tail (tail (answers w))) = None →
  let r := handleUpdateVarmorPolicy pkg c newVp oldAp w in
  let ref := updateRef c newVp oldAp in
  let newApSpec := buildApSpec c newVp oldAp newProfile in
  r.1 = None
  ∧ trace r.2
    = trace w
      ++ [CallPolicyUpdateStatus (pendingPolicy newVp (clock w));
          SetUpdateDesiredNumber;
          CallProfileUpdateStatus ref.1 (withApStatus resetStatus oldAp);
          SendResetCh (statusKeyOf (scope c) newVp);
          CallProfileUpdate ref.1 (withApSpec newApSpec (withApStatus resetStatus oldAp))]
  ∧ profiles r.2
    = alter (withApSpec newApSpec) ref (alter (withApStatus resetStatus) ref (profiles w))
  ∧ (profiles w !! ref = Some oldAp →
     profiles r.2 !! ref = Some (withApSpec newApSpec (withApStatus resetStatus oldAp)))
  ∧ ApTarget newApSpec = ApTarget (ApSpec oldAp).
Proof.
  intros Hm Hmode Hgen Hne Ha1 Ha2 Ha3 r ref newApSpec. subst r.
  rewrite (handleUpdate_rebuild_unfold pkg c newVp oldAp w newProfile Hm Ha1 Hgen Hne).
  cbv zeta. rewrite updateVarmorPolicyStatus_eq. cbn [fst snd]. rewrite Ha1.
  fold ref newApSpec (pendingPolicy newVp (clock w)).
  rewrite (bool_decide_eq_false_2 _ Hmode).
  assert (∀ w0 : World, match scope c with Namespaced => w0 | Cluster => w0 end = w0) as Hsc
    by (intros; by destruct (scope c)).
  rewrite Hsc.
  match goal with
  | |- context [nextAnswer ?w2] =>
      assert (nextAnswer w2 = None) as -> by (unfold nextAnswer; cbn; exact Ha2)
  end.
  match goal with
  | |- context [nextAnswer ?w5] =>
      assert (nextAnswer w5 = None) as -> by (unfold nextAnswer; cbn; exact Ha3)
  end.
  cbn [fst snd]. split; [done|]. split; [cbn; by rewrite <- !app_assoc|].
  split; [done|]. split; [|done].
  intros Hst. cbn. by rewrite !lookup_alter_eq, Hst.
Qed.

Lemma rebuild_witness :
  profiles (handleUpdateVarmorPolicy samplePkg nsController
              (mkPolicy targetA "AppArmor" "AlwaysAllow" 0 "deny-exec" "2"
                 (statusOf true VarmorPolicyProtecting [createdTrue]))
              plainProfile (worldOf plainPolicy plainProfile [])).2
  !! ("default", "varmor-default-demo")
  = Some (withApStatus resetStatus (mkProfile targetA "AppArmor" "AlwaysAllow" 0 "deny-exec")).
Proof.
  destruct (rebuild_clears_status_then_updates_spec samplePkg nsController
              (mkPolicy targetA "AppArmor" "AlwaysAllow" 0 "deny-exec" "2"
                 (statusOf true VarmorPolicyProtecting [createdTrue]))
              plainProfile (worldOf plainPolicy plainProfile [])
              (ApProfile (ApSpec (mkProfile targetA "AppArmor" "AlwaysAllow" 0 "deny-exec"))))
    as (_ & _ & _ & Hst & _).
  - reflexivity.
  - discriminate.
  - reflexivity.
  - discriminate.
  - reflexivity.
  - reflexivity.
  - reflexivity.
  - exact (Hst eq_refl).
Defined.

(** X12.  When the store refuses to clear the profile's status the rebuild
    stops there: the error is returned, the profile store is as it was,
    the status manager is not told to reset the key and the new spec is
    not submitted. *)
Theorem rebuild_stops_when_status_reset_fails pkg c newVp oldAp w newProfile e :
  firstMatch newVp oldAp = None →
  GenerateProfile pkg (SpecPolicy (Spec newVp)) (ProfName (ApProfile (ApSpec oldAp))) false ""
  = inl newProfile →
  buildApSpec c newVp oldAp newProfile ≠ ApSpec oldAp →
  nextAnswer w = None →
  hd None (tail (answers w)) = Some e →
  let r := handleUpdateVarmorPolicy pkg c newVp oldAp w in
  r.1 = Some e
  ∧ profiles r.2 = profiles w
  ∧ trace r.2
    = trace w
      ++ [CallPolicyUpdateStatus (pendingPolicy newVp (clock w));
          SetUpdateDesiredNumber;
          CallProfileUpdateStatus (updateRef c newVp oldAp).1 (withApStatus resetStatus oldAp)].
Proof.
  intros Hm Hgen Hne Ha1 Ha2 r. subst r.
  rewrite (handleUpdate_rebuild_unfold pkg c newVp oldAp w newProfile Hm Ha1 Hgen Hne).
  cbv zeta. rewrite updateVarmorPolicyStatus_eq. cbn [fst snd]. rewrite Ha1.
  fold (pendingPolicy newVp (clock w)).
  match goal with
  | |- context [nextAnswer ?w2] =>
      assert (nextAnswer w2 = Some e) as -> by (unfold nextAnswer; cbn; exact Ha2)
  end.
  cbn [fst snd]. split; [done|]. split; [done|]. cbn. by rewrite <- !app_assoc.
Qed.

Lemma rebuild_stops_witness :
  (handleUpdateVarmorPolicy samplePkg nsController
     (mkPolicy targetA "AppArmor" "AlwaysAllow" 0 "deny-exec" "2"
        (statusOf true VarmorPolicyProtecting [createdTrue]))
     plainProfile (worldOf plainPolicy plainProfile [None; Some conflict])).1
  = Some conflict.
Proof.
  destruct (rebuild_stops_when_status_reset_fails samplePkg nsController
              (mkPolicy targetA "AppArmor" "AlwaysAllow" 0 "deny-exec" "2"
                 (statusOf true VarmorPolicyProtecting [createdTrue]))
              plainProfile (worldOf plainPolicy plainProfile [None; Some conflict])
              (ApProfile (ApSpec (mkProfile targetA "AppArmor" "AlwaysAllow" 0 "deny-exec")))
              conflict) as (Hres & _).
  - reflexivity.
  - reflexivity.
  - discriminate.
  - reflexivity.
  - reflexivity.
  - exact Hres.
Defined.

(** ** What an update never does *)

Lemma handleUpdate_status_write_fails pkg c newVp oldAp w e :
  firstMatch newVp oldAp = None →
  nextAnswer w = Some e →
  handleUpdateVarmorPolicy pkg c newVp oldAp w
  = (Some e, (updateVarmorPolicyStatus newVp "" true VarmorPolicyPending
                VarmorPolicyUpdated ConditionTrue "" "" w).2).
Proof.
  intros Hm Ha. unfold handleUpdateVarmorPolicy, bind at 1.
  rewrite ignoreUpdate_firstMatch, Hm. cbn [gateOutcome ret fst snd]. unfold bind at 1.
  rewrite updateVarmorPolicyStatus_eq. cbn [fst snd]. by rewrite Ha.
Qed.

(** The profile store after an update: as it was, or with the status of
    the profile cleared, or with that and the rebuilt spec. *)
Lemma handleUpdate_profiles pkg c newVp oldAp w :
  let w' := (handleUpdateVarmorPolicy pkg c newVp oldAp w).2 in
  let ref := updateRef c newVp oldAp in
  profiles w' = profiles w
  ∨ profiles w' = alter (withApStatus resetStatus) ref (profiles w)
  ∨ ∃ newProfile,
      profiles w'
      = alter (withApSpec (buildApSpec c newVp oldAp newProfile)) ref
          (alter (withApStatus resetStatus) ref (profiles w)).
Proof.
  intros w' ref. subst w'.
  destruct (firstMatch newVp oldAp) as [ck|] eqn:Hm.
  { left. destruct (decide (ck = NoopDuration)) as [->|Hck].
    - rewrite handleUpdate_ignored; rewrite ignoreUpdate_firstMatch, Hm; done.
    - rewrite (handleUpdate_rejected pkg c newVp oldAp w ck Hm Hck).
      by destruct (gateOutcome_reject (scope c) newVp ck w Hck) as (_ & _ & _ & Hpr & _). }
  destruct (nextAnswer w) as [e|] eqn:Ha1.
  { left. rewrite (handleUpdate_status_write_fails pkg c newVp oldAp w e Hm Ha1).
    by destruct (updateVarmorPolicyStatus_facts newVp "" true VarmorPolicyPending
                   VarmorPolicyUpdated ConditionTrue "" "" w) as (_ & _ & _ & _ & Hpr & _). }
  destruct (GenerateProfile pkg (SpecPolicy (Spec newVp))
              (ProfName (ApProfile (ApSpec oldAp))) false "") as [newProfile|err] eqn:Hgen.
  2:{ left.
      destruct (handleUpdate_generation_failure pkg c newVp oldAp w err Hm Ha1 Hgen)
        as (w1 & _ & _ & _ & Hpr & ->).
      destruct (updateVarmorPolicyStatus_facts (pendingPolicy newVp (clock w)) "" true
                  VarmorPolicyError VarmorPolicyCreated ConditionFalse "Error" (Error err) w1)
        as (_ & _ & _ & _ & Hpr2 & _).
      cbn [fst snd] in *. congruence. }
  destruct (decide (buildApSpec c newVp oldAp newProfile = ApSpec oldAp)) as [Heq|Hne].
  { left. by destruct (handleUpdate_equal pkg c newVp oldAp w newProfile Hm Ha1 Hgen Heq)
      as (w1 & _ & Hpr & ->). }
  rewrite (handleUpdate_rebuild_unfold pkg c newVp oldAp w newProfile Hm Ha1 Hgen Hne).
  cbv zeta. fold ref.
  destruct (updateVarmorPolicyStatus_facts newVp "" true VarmorPolicyPending
              VarmorPolicyUpdated ConditionTrue "" "" w) as (_ & _ & _ & _ & Hpr & _).
  set (w1 := (updateVarmorPolicyStatus newVp "" true VarmorPolicyPending
                VarmorPolicyUpdated ConditionTrue "" "" w).2) in *.
  set (w2 := set_UpdateDesiredNumber true _).
  destruct (nextAnswer w2) as [e|]; [by left|].
  set (w3 := set_profiles _ _).
  assert (profiles w3 = alter (withApStatus resetStatus) ref (profiles w)) as Hw3
    by (subst w3 w2; cbn; by rewrite Hpr).
  set (w4 := match scope c with Namespaced => _ | Cluster => _ end).
  assert (profiles w4 = profiles w3) as Hw4.
  { subst w4. destruct (scope c); [|done]. case_bool_decide; [|done].
    by destruct (resetArmorProfileModelStatus_stores (Namespace newVp) (ApName oldAp) w3). }
  set (w5 := set_trace _ w4).
  destruct (nextAnswer w5) as [e|]; cbn [fst snd].
  - right. left. cbn. by rewrite Hw4, Hw3.
  - right. right. exists newProfile. cbn. by rewrite Hw4, Hw3.
Qed.

(** X14.  No update, accepted or rejected, complete or cut short by a store
    error, changes the target of a stored profile or adds or removes a
    profile, as long as the profile it was handed carries the target of
    the stored one. *)
Theorem update_keeps_every_profile_target pkg c newVp oldAp w :
  (∀ ap, profiles w !! updateRef c newVp oldAp = Some ap →
         ApTarget (ApSpec ap) = ApTarget (ApSpec oldAp)) →
  ∀ k, (fun ap => ApTarget (ApSpec ap))
         <$> profiles (handleUpdateVarmorPolicy pkg c newVp oldAp w).2 !! k
       = (fun ap => ApTarget (ApSpec ap)) <$> profiles w !! k.
Proof.
  intros Hst k.
  destruct (handleUpdate_profiles pkg c newVp oldAp w) as [-> | [-> | [newProfile ->]]];
    [done| |].
  - destruct (decide (updateRef c newVp oldAp = k)) as [<-|Hk].
    + rewrite lookup_alter_eq. by destruct (profiles w !! _).
    + by rewrite lookup_alter_ne.
  - destruct (decide (updateRef c newVp oldAp = k)) as [<-|Hk].
    + rewrite !lookup_alter_eq.
      destruct (profiles w !! updateRef c newVp oldAp) as [ap|] eqn:Hap; [|done].
      cbn. f_equal. symmetry. by apply Hst.
    + by rewrite !lookup_alter_ne.
Qed.

Lemma update_keeps_target_witness :
  (fun ap => ApTarget (ApSpec ap))
    <$> profiles (handleUpdateVarmorPolicy samplePkg nsController
                    (mkPolicy targetA "BPF" "AlwaysAllow" 0 "deny-exec" "2"
                       (statusOf true VarmorPolicyProtecting [createdTrue]))
                    plainProfile (worldOf plainPolicy plainProfile [])).2
        !! ("default", "varmor-default-demo")
  = Some targetA.
Proof.
  rewrite (update_keeps_every_profile_target samplePkg nsController
             (mkPolicy targetA "BPF" "AlwaysAllow" 0 "deny-exec" "2"
                (statusOf true VarmorPolicyProtecting [createdTrue]))
             plainProfile (worldOf plainPolicy plainProfile [])).
  - reflexivity.
  - intros ap Hap. cbn in Hap. rewrite lookup_singleton_eq in Hap. by injection Hap as <-.
Defined.

(** X15.  Whatever the store answers, the calls of an update are status writes
    on the policy, the two writes on the profile, the reset of the
    behavior model and the two messages to the status manager: it never
    creates or deletes a profile, never restarts a workload, never asks
    the status manager to drop the key and never touches the work
    queue. *)
Theorem update_makes_only_update_calls pkg c newVp oldAp w :
  queue (handleUpdateVarmorPolicy pkg c newVp oldAp w).2 = queue w
  ∧ ∃ t, trace (handleUpdateVarmorPolicy pkg c newVp oldAp w).2 = trace w ++ t
         ∧ Forall (fun call =>
                     match call with
                     | CallPolicyUpdateStatus _ | CallModelGet _ _
                     | CallModelUpdateStatus _ _ _ | SetUpdateDesiredNumber
                     | CallProfileUpdateStatus _ _ | CallProfileUpdate _ _
                     | SendResetCh _ | SendUpdateStatusCh _ => True
                     | _ => False
                     end) t.
Proof.
  destruct (confined_handleUpdate pkg c newVp oldAp w) as (Hq & t & Ht & Hf).
  split; [done|]. exists t. split; [done|].
  eapply Forall_impl; [exact Hf|]. intros call. by destruct call.
Qed.

(** ** Profile Synchronizer: dispatch, further *)

Lemma syncPolicy_unfold pkg c key namespace name w :
  SplitMetaNamespaceKey key = inl (namespace, name) →
  syncPolicy pkg c key w
  = let pref := policyRef (scope c) namespace name in
    let w1 := answered (CallPolicyGet pref.1 name) w in
    match nextAnswer w with
    | Some err =>
        if IsNotFound err then handleDeleteVarmorPolicy pkg c namespace name w1
        else (Some err, w1)
    | None =>
        match policies w !! pref with
        | None => handleDeleteVarmorPolicy pkg c namespace name w1
        | Some vp =>
            let aref := profileRef pkg (scope c) vp in
            let w2 := answered (CallProfileGet aref.1 aref.2) w1 in
            match nextAnswer w1 with
            | Some err =>
                if IsNotFound err then handleAddVarmorPolicy pkg c vp w2 else (Some err, w2)
            | None =>
                match profiles w !! aref with
                | None => handleAddVarmorPolicy pkg c vp w2
                | Some ap => handleUpdateVarmorPolicy pkg c vp ap w2
                end
            end
        end
    end.
Proof.
  intros Hkey. unfold syncPolicy. rewrite Hkey. unfold bind at 1, policyRef, profileRef.
  destruct (scope c); cbn [fst snd]; rewrite PolicyGet_eq;
    (destruct (nextAnswer w) as [err|]; [by destruct (IsNotFound err)|]);
    (destruct (policies w !! _) as [vp|]; [|done]);
    unfold bind at 1; rewrite ProfileGet_eq;
    match goal with |- context [nextAnswer ?x] => destruct (nextAnswer x) as [err|] end;
    try (by destruct (IsNotFound err));
    change (profiles (answered _ w)) with (profiles w);
    by destruct (profiles w !! _).
Qed.

(** X16.  A sync that cannot read what it needs does nothing else: a malformed
    key is refused before any call, and a failed read of the policy or of
    the profile (other than "not found") is returned after the reads, with
    no write, no message and no restart. *)
Theorem sync_read_failure_is_returned pkg c key w :
  (∀ err, SplitMetaNamespaceKey key = inr err → syncPolicy pkg c key w = (Some err, w))
  ∧ (∀ namespace name e,
       SplitMetaNamespaceKey key = inl (namespace, name) →
       nextAnswer w = Some e → IsNotFound e = false →
       syncPolicy pkg c key w
       = (Some e, answered (CallPolicyGet (policyRef (scope c) namespace name).1 name) w))
  ∧ (∀ namespace name vp e,
       SplitMetaNamespaceKey key = inl (namespace, name) →
       nextAnswer w = None →
       policies w !! policyRef (scope c) namespace name = Some vp →
       hd None (tail (answers w)) = Some e → IsNotFound e = false →
       syncPolicy pkg c key w
       = (Some e,
          answered (CallProfileGet (profileRef pkg (scope c) vp).1 (profileRef pkg (scope c) vp).2)
            (answered (CallPolicyGet (policyRef (scope c) namespace name).1 name) w))).
Proof.
  split; [|split].
  - intros err Hkey. unfold syncPolicy. by rewrite Hkey.
  - intros namespace name e Hkey Ha Hnf.
    rewrite (syncPolicy_unfold pkg c key namespace name w Hkey). cbv zeta.
    by rewrite Ha, Hnf.
  - intros namespace name vp e Hkey Ha Hvp Ha2 Hnf.
    rewrite (syncPolicy_unfold pkg c key namespace name w Hkey). cbv zeta.
    rewrite Ha, Hvp.
    match goal with
    | |- context [nextAnswer ?x] =>
        assert (nextAnswer x = Some e) as -> by (unfold nextAnswer; cbn; exact Ha2)
    end.
    by rewrite Hnf.
Qed.

Lemma sync_read_failure_witness :
  syncPolicy samplePkg nsController "a/b/c" (worldOf plainPolicy plainProfile [])
  = (Some (ErrMsg ("unexpected key format: "
                   +:+ String doubleQuote "a/b/c" +:+ String doubleQuote "")),
     worldOf plainPolicy plainProfile [])
  ∧ syncPolicy samplePkg nsController "default/demo"
      (worldOf plainPolicy plainProfile [Some conflict])
    = (Some conflict,
       answered (CallPolicyGet "default" "demo")
         (worldOf plainPolicy plainProfile [Some conflict])).
Proof.
  destruct (sync_read_failure_is_returned samplePkg nsController "a/b/c"
              (worldOf plainPolicy plainProfile [])) as (H1 & _).
  destruct (sync_read_failure_is_returned samplePkg nsController "default/demo"
              (worldOf plainPolicy plainProfile [Some conflict])) as (_ & H2 & _).
  split.
  - apply H1. reflexivity.
  - apply (H2 "default" "demo" conflict); reflexivity.
Defined.

(** X17.  A sync is a delete when the policy is gone and a create when the
    policy is there but its profile is not: after the reads, [syncPolicy]
    is the delete handler for the key, respectively the create handler
    for the policy read. *)
Theorem sync_dispatches_on_what_is_missing pkg c key namespace name w :
  SplitMetaNamespaceKey key = inl (namespace, name) →
  nextAnswer w = None →
  let pref := policyRef (scope c) namespace name in
  let w1 := answered (CallPolicyGet pref.1 name) w in
  (policies w !! pref = None →
   syncPolicy pkg c key w = handleDeleteVarmorPolicy pkg c namespace name w1)
  ∧ (∀ vp, policies w !! pref = Some vp →
           hd None (tail (answers w)) = None →
           profiles w !! profileRef pkg (scope c) vp = None →
           syncPolicy pkg c key w
           = handleAddVarmorPolicy pkg c vp
               (answered (CallProfileGet (profileRef pkg (scope c) vp).1
                            (profileRef pkg (scope c) vp).2) w1)).
Proof.
  intros Hkey Ha pref w1. split.
  - intros Hvp. rewrite (syncPolicy_unfold pkg c key namespace name w Hkey). cbv zeta.
    fold pref. by rewrite Ha, Hvp.
  - intros vp Hvp Ha2 Hap.
    rewrite (syncPolicy_unfold pkg c key namespace name w Hkey). cbv zeta.
    fold pref. rewrite Ha, Hvp. fold w1.
    assert (nextAnswer w1 = None) as -> by (unfold nextAnswer; cbn; exact Ha2).
    by rewrite Hap.
Qed.

(** The policy is gone, its profile is still there: the sync deletes the
    profile and tells the status manager. *)
Lemma sync_dispatch_witness :
  trace (syncPolicy samplePkg nsController "default/demo"
           (set_policies (fun _ => ∅) (worldOf plainPolicy plainProfile []))).2
  = [CallPolicyGet "default" "demo";
     CallProfileGet "default" "varmor-default-demo";
     CallProfileDelete "default" "varmor-default-demo";
     GoUpdateWorkloadAnnotationsAndEnv "default" "AppArmor" targetA "" "" false;
     SendDeleteCh "default/demo"].
Proof.
  destruct (sync_dispatches_on_what_is_missing samplePkg nsController "default/demo"
              "default" "demo"
              (set_policies (fun _ => ∅) (worldOf plainPolicy plainProfile [])))
    as [Hdel _].
  - reflexivity.
  - reflexivity.
  - rewrite Hdel; reflexivity.
Defined.

(** ** Worker Loop, further *)

(** X19.  A success gives a key its full retry budget back, and whatever
    [handleErr] does for one key leaves the retry counter of every other
    key alone. *)
Theorem retry_budget_is_per_key_and_reset_by_success err key w :
  (err = None →
   qNumRequeues key (queue (handleErr err key w).2) = 0%nat
   ∧ trace (handleErr err key w).2 = trace w ++ [QueueForget key]
   ∧ waiting (queue (handleErr err key w).2) = waiting (queue w))
  ∧ (∀ key', key' ≠ key →
       qNumRequeues key' (queue (handleErr err key w).2) = qNumRequeues key' (queue w)).
Proof.
  split.
  - intros ->. cbn. unfold qNumRequeues. cbn. by rewrite lookup_delete_eq.
  - intros key' Hne. destruct err as [e|].
    + destruct (decide (qNumRequeues key (queue w) < maxRetries)%nat) as [Hlt|Hge].
      * rewrite handleErr_retry by done. cbn. unfold qNumRequeues at 1. cbn.
        by rewrite lookup_insert_ne.
      * rewrite handleErr_drop by lia. cbn. unfold qNumRequeues at 1. cbn.
        by rewrite lookup_delete_ne.
    + cbn. unfold qNumRequeues at 1. cbn. by rewrite lookup_delete_ne.
Qed.

Lemma retry_budget_witness :
  qNumRequeues "default/demo"
    (queue (handleErr None "default/demo"
              (handleErrs [conflict; conflict; conflict] "default/demo"
                 (worldOf plainPolicy plainProfile [])).2).2) = 0%nat.
Proof.
  destruct (retry_budget_is_per_key_and_reset_by_success None "default/demo"
              (handleErrs [conflict; conflict; conflict] "default/demo"
                 (worldOf plainPolicy plainProfile [])).2) as [Hreset _].
  destruct Hreset as (H0 & _); [reflexivity | exact H0].
Defined.

Lemma handleErr_verdict err key w :
  handleErr err key w
  = (tt, set_queue (match err with
                    | None => qForget key
                    | Some _ => if bool_decide (qNumRequeues key (queue w) < maxRetries)%nat
                                then qAddRateLimited key else qForget key
                    end)
           (set_trace (fun t => t ++ verdictCalls err (qNumRequeues key (queue w)) key) w)).
Proof.
  destruct err as [e|]; [|reflexivity]. unfold verdictCalls.
  destruct (decide (qNumRequeues key (queue w) < maxRetries)%nat) as [Hlt|Hge].
  - rewrite handleErr_retry by done. by rewrite bool_decide_eq_true_2.
  - rewrite handleErr_drop by lia. by rewrite bool_decide_eq_false_2.
Qed.

Lemma doneKeys_syncCalls t : Forall (fun call => syncCalls call = true) t → doneKeys t = [].
Proof.
  induction 1 as [|call t Hcall _ IH]; [done|]. unfold doneKeys in *. cbn.
  destruct call; try done.
Qed.

Lemma taken_head w key rest :
  shuttingDown (queue w) = false →
  items (queue w) = key :: rest →
  taken w
  = set_queue (fun _ => {| items := rest; dirty := dirty (queue w) ∖ {[key]};
                           processing := {[key]} ∪ processing (queue w);
                           shuttingDown := shuttingDown (queue w);
                           failures := failures (queue w);
                           waiting := waiting (queue w) |}) w.
Proof. intros Hs Hitems. unfold taken, qGet. by rewrite Hs, Hitems. Qed.

(** One turn of a worker on an open queue that hands out [key]: the sync
    of [key] runs on the world [Get] leaves, [handleErr] is given what the
    sync returned, and [Done] closes the turn. *)
Lemma processNextWorkItem_turn pkg c w key rest :
  shuttingDown (queue w) = false →
  items (queue w) = key :: rest →
  let s := syncPolicy pkg c key (taken w) in
  let n := qNumRequeues key (queue w) in
  let w' := turn pkg c w in
  processNextWorkItem pkg c w = Some (true, w')
  ∧ trace w' = trace s.2 ++ verdictCalls s.1 n key ++ [QueueDone key]
  ∧ (∃ t, trace s.2 = trace w ++ t ∧ Forall (fun call => syncCalls call = true) t)
  ∧ policies w' = policies s.2
  ∧ profiles w' = profiles s.2
  ∧ models w' = models s.2
  ∧ items (queue w') = rest
  ∧ dirty (queue w') = dirty (queue w) ∖ {[key]}
  ∧ processing (queue w') = ({[key]} ∪ processing (queue w)) ∖ {[key]}
  ∧ shuttingDown (queue w') = false
  ∧ failures (queue w')
    = match s.1 with
      | None => delete key (failures (queue w))
      | Some _ => if bool_decide (n < maxRetries)%nat then <[key := S n]> (failures (queue w))
                  else delete key (failures (queue w))
      end
  ∧ waiting (queue w')
    = match s.1 with
      | None => waiting (queue w)
      | Some _ => if bool_decide (n < maxRetries)%nat then waiting (queue w) ++ [key]
                  else waiting (queue w)
      end.
Proof.
  intros Hs Hitems s n w'.
  pose proof (taken_head w key rest Hs Hitems) as Htk.
  assert (processNextWorkItem pkg c w
          = Some (true, (QDone key (handleErr s.1 key s.2).2).2)) as Hrun.
  { unfold processNextWorkItem. subst s. rewrite Htk. unfold qGet. rewrite Hs, Hitems.
    unfold bind.
    destruct (syncPolicy pkg c key _) as [err w2]. cbn [fst snd].
    destruct (handleErr err key w2) as [[] w3]. cbn [fst snd].
    by destruct (QDone key w3). }
  assert (w' = (QDone key (handleErr s.1 key s.2).2).2) as Hw'
    by (subst w'; unfold turn; by rewrite Hrun).
  destruct (confined_syncPolicy pkg c key (taken w)) as (Hq2 & t2 & Ht2 & Hf2).
  fold s in Hq2, Ht2.
  assert (queue (taken w)
          = {| items := rest; dirty := dirty (queue w) ∖ {[key]};
               processing := {[key]} ∪ processing (queue w);
               shuttingDown := shuttingDown (queue w);
               failures := failures (queue w); waiting := waiting (queue w) |})
    as Hqt by (rewrite Htk; reflexivity).
  assert (trace (taken w) = trace w) as Htt by (rewrite Htk; reflexivity).
  assert (qNumRequeues key (queue s.2) = n) as Hn
    by (rewrite Hq2, Hqt; reflexivity).
  assert (key ∉ dirty (queue s.2)) as Hnd.
  { rewrite Hq2, Hqt. cbn. intros Hin. apply elem_of_difference in Hin as [_ Hin].
    apply Hin. by apply elem_of_singleton. }
  split; [by rewrite Hw'|].
  rewrite Hw', handleErr_verdict, Hn. clear Hw' Hrun.
  destruct s as [err w2]. cbn [fst snd] in *.
  unfold QDone, bind, emit, modify. cbn.
  split; [by rewrite <- app_assoc|].
  split; [exists t2; by rewrite Ht2, Htt|].
  split; [done|]. split; [done|]. split; [done|].
  destruct err as [e|]; [destruct (bool_decide (n < maxRetries)%nat)|]; cbn;
    rewrite ?decide_False by done; rewrite Hq2, Hqt; cbn; rewrite ?Hs; done.
Qed.

(** X20.  A turn of a worker on an open, non-empty queue takes the key at the
    head, syncs it in the world [Get] leaves, and returns [true]: the
    stores are as the sync left them, and the calls of the turn are those
    of the sync, then what the sync's result demands for a key with that
    many failures (a forget, a rate-limited requeue, or a report and a
    forget), then [Done] for that key, once and as the last call of the
    turn.  Afterwards the key is no longer being processed, is not queued
    again by the turn, and the rest of the queue is as it was. *)
Theorem turn_takes_head_and_marks_it_done pkg c w key rest :
  shuttingDown (queue w) = false →
  items (queue w) = key :: rest →
  let s := syncPolicy pkg c key (taken w) in
  ∃ w',
    processNextWorkItem pkg c w = Some (true, w')
    ∧ trace w' = trace s.2 ++ verdictCalls s.1 (qNumRequeues key (queue w)) key
                 ++ [QueueDone key]
    ∧ (∃ t, trace s.2 = trace w ++ t ∧ doneKeys t = [])
    ∧ policies w' = policies s.2
    ∧ profiles w' = profiles s.2
    ∧ models w' = models s.2
    ∧ items (queue w') = rest
    ∧ (key ∉ processing (queue w'))
    ∧ (key ∉ dirty (queue w')).
Proof.
  intros Hs Hitems s.
  destruct (processNextWorkItem_turn pkg c w key rest Hs Hitems)
    as (Hrun & Htr & (t & Ht & Hf) & Hpo & Hpr & Hmo & Hit & Hd & Hp & _).
  exists (turn pkg c w).
  split; [done|]. split; [done|].
  split; [exists t; split; [done | by apply doneKeys_syncCalls]|].
  split; [done|]. split; [done|]. split; [done|]. split; [done|]. split.
  - rewrite Hp. intros Hin. apply elem_of_difference in Hin as [_ Hin].
    apply Hin. by apply elem_of_singleton.
  - rewrite Hd. intros Hin. apply elem_of_difference in Hin as [_ Hin].
    apply Hin. by apply elem_of_singleton.
Qed.

(** The read of the policy fails, the key has not failed before: the turn
    is the read, a rate-limited requeue and [Done]. *)
Lemma turn_witness :
  ∃ w', processNextWorkItem samplePkg nsController failingWorld = Some (true, w')
        ∧ trace w' = [CallPolicyGet "default" "demo";
                      QueueAddRateLimited "default/demo"; QueueDone "default/demo"]
        ∧ items (queue w') = [].
Proof.
  destruct (turn_takes_head_and_marks_it_done samplePkg nsController failingWorld
              "default/demo" []) as (w' & Hrun & Htr & _ & _ & _ & _ & Hit & _).
  - reflexivity.
  - reflexivity.
  - exists w'. split; [exact Hrun|]. split; [rewrite Htr; reflexivity | exact Hit].
Defined.

(** The retry counter of a key at the turns of a run of failures. *)
Lemma failingRun_counter pkg c key run :
  ∀ n, failingRun pkg c key run →
       (∀ w e, head run = Some (w, e) → qNumRequeues key (queue w) = n) →
       (n + length run ≤ S maxRetries)%nat →
       ∀ i w e, run !! i = Some (w, e) →
                qNumRequeues key (queue w) = (n + i)%nat
                ∧ shuttingDown (queue w) = false
                ∧ head (items (queue w)) = Some key
                ∧ (syncPolicy pkg c key (taken w)).1 = Some e.
Proof.
  induction run as [|[w0 e0] rest IH]; intros n Hrun H0 Hlen i w e Hi; [done|].
  cbn [failingRun] in Hrun. destruct Hrun as (Hs & Hhd & Hfail & Hnext & Hrest).
  destruct i as [|i]; cbn in Hi.
  - injection Hi as <- <-. rewrite Nat.add_0_r. by rewrite (H0 w0 e0).
  - replace (n + S i)%nat with (S n + i)%nat by lia.
    apply (IH (S n)); [done | | cbn [length] in Hlen; lia | done].
    intros w2 e2 Hhead. destruct rest as [|[w2' e2'] rest']; [done|].
    cbn in Hhead. injection Hhead as -> ->. rewrite Hnext.
    destruct (items (queue w0)) as [|key0 its] eqn:Hitems; [done|].
    cbn in Hhd. injection Hhd as ->.
    destruct (processNextWorkItem_turn pkg c w0 key its Hs Hitems)
      as (_ & _ & _ & _ & _ & _ & _ & _ & _ & _ & Hfl & _).
    unfold qNumRequeues at 1. rewrite Hfl, Hfail, (H0 w0 e0) by done.
    cbn [length] in Hlen.
    rewrite bool_decide_eq_true_2 by (unfold maxRetries in *; lia).
    by rewrite lookup_insert_eq.
Qed.

(** C8.  The worker loop on a key whose sync fails six times in a row,
    starting with a retry counter of zero.  Every turn on the key runs the
    sync, whose calls are store calls, messages and restarts, none on the
    queue or to the error reporter.  Each of the first five turns then
    requeues the key with rate limiting: the calls of the turn are those of
    the sync, one [AddRateLimited] and [Done]; the counter goes up by one
    and the key is parked, so there are exactly five requeues.  The sixth
    turn hands the error to the process-wide error reporter, once, and
    forgets the key: the calls of the turn are those of the sync, the
    report, [Forget] and [Done]; the counter is gone, and the key is
    neither parked nor put back in the queue, which holds what was behind
    the key. *)
Theorem worker_retries_five_times_then_drops pkg c key run :
  length run = S maxRetries →
  failingRun pkg c key run →
  (∀ w e, head run = Some (w, e) → qNumRequeues key (queue w) = 0%nat) →
  ∀ i w e, run !! i = Some (w, e) →
    let s := syncPolicy pkg c key (taken w) in
    ∃ w' t,
      processNextWorkItem pkg c w = Some (true, w')
      ∧ s.1 = Some e
      ∧ trace s.2 = trace w ++ t
      ∧ Forall (fun call => syncCalls call = true) t
      ∧ ((i < maxRetries)%nat →
           trace w' = trace w ++ t ++ [QueueAddRateLimited key; QueueDone key]
           ∧ qNumRequeues key (queue w') = S i
           ∧ waiting (queue w') = waiting (queue w) ++ [key]
           ∧ items (queue w') = tail (items (queue w)))
      ∧ (i = maxRetries →
           trace w' = trace w ++ t
                      ++ [RuntimeHandleError e; QueueForget key; QueueDone key]
           ∧ failures (queue w') !! key = None
           ∧ waiting (queue w') = waiting (queue w)
           ∧ items (queue w') = tail (items (queue w))).
Proof.
  intros Hlen Hrun H0 i w e Hi s.
  destruct (failingRun_counter pkg c key run 0 Hrun H0 ltac:(lia) i w e Hi)
    as (Hn & Hs & Hhd & Hfail).
  destruct (items (queue w)) as [|key0 its] eqn:Hitems; [done|].
  cbn in Hhd. injection Hhd as ->.
  destruct (processNextWorkItem_turn pkg c w key its Hs Hitems)
    as (Hturn & Htr & (t & Ht & Hf) & _ & _ & _ & Hit & _ & _ & _ & Hfl & Hwt).
  fold s in Htr, Ht, Hfl, Hwt. subst s. rewrite Hfail in Htr, Hfl, Hwt.
  rewrite Hn, Ht in Htr. rewrite Hn in Hfl, Hwt. cbn [Nat.add] in *.
  exists (turn pkg c w), t.
  split; [done|]. split; [done|]. split; [done|]. split; [done|]. cbn [tail]. split.
  - intros Hlt. unfold verdictCalls in Htr.
    rewrite bool_decide_eq_true_2 in Htr, Hfl, Hwt by done.
    split; [by rewrite Htr, <- app_assoc|]. split; [|done].
    unfold qNumRequeues. by rewrite Hfl, lookup_insert_eq.
  - intros ->. unfold verdictCalls in Htr.
    rewrite bool_decide_eq_false_2 in Htr, Hfl, Hwt by lia.
    split; [by rewrite Htr, <- app_assoc|]. split; [|done].
    by rewrite Hfl, lookup_delete_eq.
Qed.

(** The six turns on [failingWorld]: the first requeues the key, the sixth
    reports the conflict and drops the key. *)
Lemma worker_retries_witness :
  (∃ w', processNextWorkItem samplePkg nsController failingWorld = Some (true, w')
         ∧ trace w' = [CallPolicyGet "default" "demo";
                       QueueAddRateLimited "default/demo"; QueueDone "default/demo"]
         ∧ qNumRequeues "default/demo" (queue w') = 1%nat
         ∧ waiting (queue w') = ["default/demo"])
  ∧ (∃ w', processNextWorkItem samplePkg nsController
             (Nat.iter 5 (workerTurn samplePkg nsController) failingWorld)
           = Some (true, w')
           ∧ trace w'
             = trace (Nat.iter 5 (workerTurn samplePkg nsController) failingWorld)
               ++ [CallPolicyGet "default" "demo"; RuntimeHandleError conflict;
                   QueueForget "default/demo"; QueueDone "default/demo"]
           ∧ failures (queue w') !! "default/demo" = None
           ∧ waiting (queue w') = []
           ∧ items (queue w') = []).
Proof.
  assert (failingRun samplePkg nsController "default/demo" sixFailures) as Hrun
    by (vm_compute; tauto).
  assert (∀ w e, head sixFailures = Some (w, e)
                 → qNumRequeues "default/demo" (queue w) = 0%nat) as H0
    by (intros w e [= <- <-]; reflexivity).
  split.
  - destruct (worker_retries_five_times_then_drops samplePkg nsController "default/demo"
                sixFailures eq_refl Hrun H0 0%nat failingWorld conflict eq_refl)
      as (w' & t & Hturn & _ & Ht & _ & Hretry & _).
    destruct Hretry as (Htr & Hn & Hwt & _); [unfold maxRetries; lia|].
    vm_compute in Ht. subst t.
    exists w'. split; [exact Hturn|]. split; [rewrite Htr; reflexivity|].
    split; [exact Hn | rewrite Hwt; reflexivity].
  - destruct (worker_retries_five_times_then_drops samplePkg nsController "default/demo"
                sixFailures eq_refl Hrun H0 5%nat
                (Nat.iter 5 (workerTurn samplePkg nsController) failingWorld) conflict
                eq_refl)
      as (w' & t & Hturn & _ & Ht & _ & _ & Hdrop).
    destruct Hdrop as (Htr & Hf & Hwt & Hit); [reflexivity|].
    vm_compute in Ht. injection Ht as <-.
    exists w'. split; [exact Hturn|]. split; [rewrite Htr; reflexivity|].
    split; [exact Hf|]. split; [rewrite Hwt; reflexivity | rewrite Hit; reflexivity].
Defined.

Lemma set_queue_same w : set_queue (fun _ => queue w) w = w.
Proof. by destruct w. Qed.

(** X21.  A worker on an empty queue waits, and [CleanUp] ends it.  While the
    queue is open and holds no key, a turn blocks.  Once [CleanUp] has shut
    the queue down the worker returns at its next turn and has made no
    call.  A key enqueued after [CleanUp] is not taken up: the queue stays
    empty and the worker still returns. *)
Theorem worker_returns_after_cleanup pkg c w n :
  items (queue w) = [] →
  (shuttingDown (queue w) = false → worker pkg c (S n) w = Blocked w)
  ∧ worker pkg c (S n) (CleanUp w).2 = Returned (CleanUp w).2
  ∧ trace (CleanUp w).2 = trace w
  ∧ ∀ vp, let w' := (enqueuePolicy vp (CleanUp w).2).2 in
          items (queue w') = []
          ∧ worker pkg c (S n) w' = Returned w'.
Proof.
  intros Hitems. split; [|split; [|split; [reflexivity|]]].
  - intros Hs. cbn [worker]. unfold processNextWorkItem, qGet. by rewrite Hs, Hitems.
  - cbn [worker]. unfold processNextWorkItem, qGet.
    replace (shuttingDown (queue (CleanUp w).2)) with true by reflexivity.
    by rewrite set_queue_same.
  - intros vp w'.
    assert (shuttingDown (queue w') = true) as Hs by reflexivity.
    split; [subst w'; cbn; done|].
    cbn [worker]. unfold processNextWorkItem, qGet. rewrite Hs.
    by rewrite set_queue_same.
Qed.

Lemma worker_returns_witness :
  worker samplePkg nsController 1 (worldOf plainPolicy plainProfile [])
  = Blocked (worldOf plainPolicy plainProfile [])
  ∧ worker samplePkg nsController 1 (CleanUp (worldOf plainPolicy plainProfile [])).2
    = Returned (CleanUp (worldOf plainPolicy plainProfile [])).2.
Proof.
  destruct (worker_returns_after_cleanup samplePkg nsController
              (worldOf plainPolicy plainProfile []) 0) as (Hblock & Hret & _).
  - reflexivity.
  - split; [apply Hblock; reflexivity | exact Hret].
Defined.

(** ** Status Reporter, further *)

Lemma setUpdatedCondition_keeps conds status now reason message i cnd :
  conds !! i = Some cnd →
  Type_ cnd ≠ VarmorPolicyUpdated →
  (setUpdatedCondition conds status now reason message).1 !! i = Some cnd.
Proof.
  revert i. induction conds as [|c0 rest IH]; intros i Hi Hty; [done|]. cbn.
  destruct (decide (Type_ c0 = VarmorPolicyUpdated)) as [Hc0|Hc0].
  - destruct i as [|i]; cbn in *; [|done]. congruence.
  - destruct i as [|i]; cbn in *.
    + by destruct (setUpdatedCondition rest status now reason message).
    + specialize (IH i Hi Hty).
      by destruct (setUpdatedCondition rest status now reason message).
Qed.

Lemma setUpdatedCondition_length conds status now reason message :
  length (setUpdatedCondition conds status now reason message).1 = length conds.
Proof.
  induction conds as [|c0 rest IH]; [done|]. cbn.
  destruct (decide (Type_ c0 = VarmorPolicyUpdated)); [done|].
  destruct (setUpdatedCondition rest status now reason message) as [rest' ex]. cbn in *.
  by rewrite IH.
Qed.

(** X22.  A status report never loses a condition and never touches the policy
    beyond its status: the object keeps its namespace, name, resource
    version and spec; every condition of a type other than [Updated] stays
    at its place unchanged (every condition, when the reported type is not
    [Updated]); and the list grows by at most one entry. *)
Theorem status_report_keeps_other_conditions vp profileName resetReady phase condType
    status reason message w :
  let vp' := (updateVarmorPolicyStatus vp profileName resetReady phase condType status
                reason message w).1.1 in
  Namespace vp' = Namespace vp
  ∧ Name vp' = Name vp
  ∧ ResourceVersion vp' = ResourceVersion vp
  ∧ Spec vp' = Spec vp
  ∧ (∀ i cnd, Conditions (PolicyStatus vp) !! i = Some cnd →
              condType ≠ VarmorPolicyUpdated ∨ Type_ cnd ≠ VarmorPolicyUpdated →
              Conditions (PolicyStatus vp') !! i = Some cnd)
  ∧ (length (Conditions (PolicyStatus vp)) ≤ length (Conditions (PolicyStatus vp'))
     ≤ S (length (Conditions (PolicyStatus vp))))%nat.
Proof.
  intros vp'. subst vp'. rewrite updateVarmorPolicyStatus_eq. cbn [fst snd].
  cbn [Namespace Name ResourceVersion Spec PolicyStatus withStatus].
  split; [done|]. split; [done|]. split; [done|]. split; [done|].
  unfold applyStatus.
  destruct (decide (condType = VarmorPolicyUpdated)) as [->|Hne].
  - pose proof (setUpdatedCondition_length (Conditions (PolicyStatus vp)) status
                  (clock w) reason message) as Hlen.
    pose proof (fun i cnd => setUpdatedCondition_keeps (Conditions (PolicyStatus vp)) status
                  (clock w) reason message i cnd) as Hkeep.
    destruct (setUpdatedCondition (Conditions (PolicyStatus vp)) status (clock w)
                reason message) as [conds' [|]]; cbn in *.
    + split; [|lia]. intros i cnd Hi [Hty|Hty]; [done | by apply Hkeep].
    + split; [|rewrite length_app; cbn; lia].
      intros i cnd Hi [Hty|Hty]; [done|]. apply lookup_app_l_Some. by apply Hkeep.
  - cbn. split; [|rewrite length_app; cbn; lia].
    intros i cnd Hi _. by apply lookup_app_l_Some.
Qed.

Lemma status_report_keeps_witness :
  Conditions (PolicyStatus
    (updateVarmorPolicyStatus plainPolicy "" true VarmorPolicyUnchanged VarmorPolicyUpdated
       ConditionFalse "Forbidden" "no" (worldOf plainPolicy plainProfile [])).1.1)
  !! 0%nat = Some createdTrue.
Proof.
  destruct (status_report_keeps_other_conditions plainPolicy "" true VarmorPolicyUnchanged
              VarmorPolicyUpdated ConditionFalse "Forbidden" "no"
              (worldOf plainPolicy plainProfile [])) as (_ & _ & _ & _ & Hkeep & _).
  apply Hkeep; [reflexivity|]. right. discriminate.
Defined.

Lemma setUpdatedCondition_missing conds status now reason message conds' :
  setUpdatedCondition conds status now reason message = (conds', false) → conds' = conds.
Proof.
  revert conds'. induction conds as [|c0 rest IH]; intros conds'; cbn; [by intros [= <-]|].
  destruct (decide (Type_ c0 = VarmorPolicyUpdated)); [done|].
  destruct (setUpdatedCondition rest status now reason message) as [rest' ex].
  intros [= <- ->]. by rewrite (IH rest').
Qed.

Lemma setUpdatedCondition_again conds s1 t1 r1 m1 s2 t2 r2 m2 :
  let first := setUpdatedCondition conds s1 t1 r1 m1 in
  let conds1 := if first.2 then first.1
                else conds ++ [mkCondition VarmorPolicyUpdated s1 t1 r1 m1] in
  let direct := setUpdatedCondition conds s2 t2 r2 m2 in
  setUpdatedCondition conds1 s2 t2 r2 m2
  = (if direct.2 then direct.1
     else conds ++ [mkCondition VarmorPolicyUpdated s2 t2 r2 m2], true).
Proof.
  induction conds as [|c0 rest IH]; cbn.
  - by rewrite decide_True.
  - destruct (decide (Type_ c0 = VarmorPolicyUpdated)) as [Hc0|Hc0]; cbn.
    + by rewrite decide_True.
    + cbn in IH.
      destruct (setUpdatedCondition rest s1 t1 r1 m1) as [rest1 [|]];
      destruct (setUpdatedCondition rest s2 t2 r2 m2) as [rest2 [|]];
        cbn in *; rewrite decide_False by done; by rewrite IH.
Qed.

(** X23.  Reports of type [Updated] absorb each other: reporting [Updated] a
    second time leaves the conditions as if only the second report had
    been made, so the list does not grow from one report to the next.
    Reports of any other type pile up: two of them make the list two
    entries longer. *)
Theorem updated_reports_absorb_others_accumulate st pn1 rr1 ph1 s1 r1 m1 t1
    pn2 rr2 ph2 s2 r2 m2 t2 :
  Conditions (applyStatus (applyStatus st pn1 rr1 ph1 VarmorPolicyUpdated s1 r1 m1 t1)
                pn2 rr2 ph2 VarmorPolicyUpdated s2 r2 m2 t2)
  = Conditions (applyStatus st pn2 rr2 ph2 VarmorPolicyUpdated s2 r2 m2 t2)
  ∧ (∀ condType, condType ≠ VarmorPolicyUpdated →
       Conditions (applyStatus (applyStatus st pn1 rr1 ph1 condType s1 r1 m1 t1)
                     pn2 rr2 ph2 condType s2 r2 m2 t2)
       = Conditions st ++ [mkCondition condType s1 t1 r1 m1; mkCondition condType s2 t2 r2 m2]).
Proof.
  split.
  - unfold applyStatus at 1 3. rewrite !decide_True by done.
    assert (Conditions (applyStatus st pn1 rr1 ph1 VarmorPolicyUpdated s1 r1 m1 t1)
            = let first := setUpdatedCondition (Conditions st) s1 t1 r1 m1 in
              if first.2 then first.1
              else Conditions st ++ [mkCondition VarmorPolicyUpdated s1 t1 r1 m1]) as ->.
    { unfold applyStatus. rewrite decide_True by done.
      destruct (setUpdatedCondition (Conditions st) s1 t1 r1 m1) as [l [|]] eqn:E;
        [reflexivity|].
      apply setUpdatedCondition_missing in E as ->. reflexivity. }
    cbv zeta. rewrite setUpdatedCondition_again. cbn.
    destruct (setUpdatedCondition (Conditions st) s2 t2 r2 m2) as [l [|]] eqn:E;
      [reflexivity|].
    apply setUpdatedCondition_missing in E as ->. reflexivity.
  - intros condType Hne. rewrite !applyStatus_append by done.
    by rewrite <- app_assoc.
Qed.

(** ** Event Router, further *)

(** X24.  The controller's own status writes never come back as work: the
    policy object a status report produces, handed back by the server
    under whatever resource version, is skipped by the update handler of
    the event router, because its spec is the old one. *)
Theorem own_status_write_is_not_enqueued vp profileName resetReady phase condType
    status reason message w rv w' :
  updateVarmorPolicy vp
    (withResourceVersion rv
       (updateVarmorPolicyStatus vp profileName resetReady phase condType status
          reason message w).1.1) w'
  = (tt, w').
Proof.
  rewrite updateVarmorPolicyStatus_eq. cbn [fst snd]. unfold updateVarmorPolicy.
  cbn [Spec withResourceVersion withStatus].
  rewrite (bool_decide_eq_true_2 (Spec vp = Spec vp)) by done.
  by rewrite orb_true_r.
Qed.

(** ** Validation Gate, further *)

Lemma firstMatch_None_iff newVp oldAp :
  firstMatch newVp oldAp = None ↔ updatable newVp oldAp.
Proof.
  unfold firstMatch, updatable. cbn.
  destruct (decide (SpecTarget (Spec newVp) = ApTarget (ApSpec oldAp))) as [Ht|Ht];
    [rewrite (bool_decide_eq_true_2 _ Ht) | rewrite (bool_decide_eq_false_2 _ Ht)];
    cbn; [|split; [done | tauto]].
  destruct (decide (Mode (SpecPolicy (Spec newVp)) = DefenseInDepthMode)) as [Hm|Hm];
    [rewrite (bool_decide_eq_true_2 _ Hm) | rewrite (bool_decide_eq_false_2 _ Hm)];
    destruct (decide (BmModelingDuration (ApBehaviorModeling (ApSpec oldAp)) = 0)) as [Hr|Hr];
    rewrite ?(bool_decide_eq_true_2 _ Hr), ?(bool_decide_eq_false_2 _ Hr); cbn;
    try (split; [done | tauto]).
  - destruct (decide (Phase (PolicyStatus newVp) = VarmorPolicyCompleted)) as [Hc|Hc];
      [rewrite (bool_decide_eq_true_2 _ Hc) | rewrite (bool_decide_eq_false_2 _ Hc)];
      cbn; [split; [done | tauto]|].
    destruct (decide (Phase (PolicyStatus newVp) = VarmorPolicyProtecting)) as [Hp|Hp];
      [rewrite (bool_decide_eq_true_2 _ Hp) | rewrite (bool_decide_eq_false_2 _ Hp)];
      cbn; [split; [done | tauto]|].
    destruct (decide (Phase (PolicyStatus newVp) = VarmorPolicyModeling)) as [Hmo|Hmo];
      [rewrite (bool_decide_eq_true_2 _ Hmo) | rewrite (bool_decide_eq_false_2 _ Hmo)];
      cbn.
    + destruct (decide (ModelingDuration (PolicyDefenseInDepth (SpecPolicy (Spec newVp)))
                        = BmModelingDuration (ApBehaviorModeling (ApSpec oldAp)))) as [Hd|Hd];
        [rewrite (bool_decide_eq_true_2 _ Hd) | rewrite (bool_decide_eq_false_2 _ Hd)];
        cbn; [split; [done | tauto]|].
      destruct (decide (Enforcer (SpecPolicy (Spec newVp))
                        = ProfEnforcer (ApProfile (ApSpec oldAp)))) as [He|He];
        [rewrite (bool_decide_eq_true_2 _ He) | rewrite (bool_decide_eq_false_2 _ He)];
        cbn; [tauto | split; [done | tauto]].
    + destruct (decide (Enforcer (SpecPolicy (Spec newVp))
                        = ProfEnforcer (ApProfile (ApSpec oldAp)))) as [He|He];
        [rewrite (bool_decide_eq_true_2 _ He) | rewrite (bool_decide_eq_false_2 _ He)];
        cbn; [tauto | split; [done | tauto]].
  - destruct (decide (Enforcer (SpecPolicy (Spec newVp))
                      = ProfEnforcer (ApProfile (ApSpec oldAp)))) as [He|He];
      [rewrite (bool_decide_eq_true_2 _ He) | rewrite (bool_decide_eq_false_2 _ He)];
      cbn; [tauto | split; [done | tauto]].
Qed.

(** X10.  The update gate lets an update through exactly when the target is the
    profile's, the policy asks for behavior modeling exactly when the
    profile records a modeling duration, a behavior-modeling policy is
    neither [Completed] nor [Protecting] nor [Modeling] with the recorded
    duration, and the enforcer is the profile's; an update let through
    leaves the world untouched.  In particular the mode cannot be switched
    into or out of behavior modeling. *)
Theorem update_gate_proceeds_iff_updatable c newVp oldAp w :
  ((ignoreUpdate c newVp oldAp w).1.1 = false ↔ updatable newVp oldAp)
  ∧ ((ignoreUpdate c newVp oldAp w).1.1 = false → ignoreUpdate c newVp oldAp w = ((false, None), w)).
Proof.
  rewrite <- firstMatch_None_iff, ignoreUpdate_firstMatch.
  destruct (firstMatch newVp oldAp) as [ck|]; [|done].
  destruct (decide (ck = NoopDuration)) as [->|Hck]; [done|].
  destruct (gateOutcome_reject (scope c) newVp ck w Hck) as (-> & _). done.
Qed.

Lemma update_gate_witness :
  ignoreUpdate nsController
    (mkPolicy targetA "AppArmor" "AlwaysAllow" 0 "deny-exec" "2"
       (statusOf true VarmorPolicyProtecting [createdTrue]))
    plainProfile (worldOf plainPolicy plainProfile [])
  = ((false, None), worldOf plainPolicy plainProfile []).
Proof.
  destruct (update_gate_proceeds_iff_updatable nsController
              (mkPolicy targetA "AppArmor" "AlwaysAllow" 0 "deny-exec" "2"
                 (statusOf true VarmorPolicyProtecting [createdTrue]))
              plainProfile (worldOf plainPolicy plainProfile [])) as [Hiff Hw].
  apply Hw, Hiff. split; [reflexivity|]. split; [|split; [|reflexivity]].
  - split; [discriminate | intros H; by destruct H].
  - discriminate.
Defined.

(** X13.  A namespace-scoped policy that is modeling and asks for another
    duration than the recorded one passes the gate, and the spec rebuilt
    for it carries the new duration, so it differs from the stored spec:
    the update takes the rebuild path, not the status refresh. *)
Theorem changed_duration_forces_rebuild pkg c newVp oldAp newProfile :
  scope c = Namespaced →
  updatable newVp oldAp →
  Mode (SpecPolicy (Spec newVp)) = DefenseInDepthMode →
  ModelingDuration (PolicyDefenseInDepth (SpecPolicy (Spec newVp)))
  ≠ BmModelingDuration (ApBehaviorModeling (ApSpec oldAp)) →
  firstMatch newVp oldAp = None
  ∧ BmModelingDuration (ApBehaviorModeling (buildApSpec c newVp oldAp newProfile))
    = ModelingDuration (PolicyDefenseInDepth (SpecPolicy (Spec newVp)))
  ∧ buildApSpec c newVp oldAp newProfile ≠ ApSpec oldAp
  ∧ ∀ w, nextAnswer w = None →
         GenerateProfile pkg (SpecPolicy (Spec newVp))
           (ProfName (ApProfile (ApSpec oldAp))) false "" = inl newProfile →
         ∃ t, trace (handleUpdateVarmorPolicy pkg c newVp oldAp w).2
              = trace w
                ++ [CallPolicyUpdateStatus (pendingPolicy newVp (clock w));
                    SetUpdateDesiredNumber;
                    CallProfileUpdateStatus (Namespace newVp) (withApStatus resetStatus oldAp)]
                ++ t.
Proof.
  intros Hsc Hup Hmode Hdur.
  assert (firstMatch newVp oldAp = None) as Hm by by apply firstMatch_None_iff.
  assert (BmModelingDuration (ApBehaviorModeling (buildApSpec c newVp oldAp newProfile))
          = ModelingDuration (PolicyDefenseInDepth (SpecPolicy (Spec newVp)))) as Hnew.
  { unfold buildApSpec. rewrite Hsc. cbn. by rewrite (bool_decide_eq_true_2 _ Hmode). }
  assert (buildApSpec c newVp oldAp newProfile ≠ ApSpec oldAp) as Hne.
  { intros Heq. apply Hdur. by rewrite <- Hnew, Heq. }
  split; [done|]. split; [done|]. split; [done|].
  intros w Ha Hgen.
  rewrite (handleUpdate_rebuild_unfold pkg c newVp oldAp w newProfile Hm Ha Hgen Hne).
  cbv zeta. rewrite updateVarmorPolicyStatus_eq. cbn [fst snd]. rewrite Ha.
  fold (pendingPolicy newVp (clock w)). unfold updateRef. rewrite Hsc. cbn [fst snd].
  rewrite (bool_decide_eq_true_2 _ Hmode).
  set (w2 := set_UpdateDesiredNumber true _).
  assert (trace w2 = trace w ++ [CallPolicyUpdateStatus (pendingPolicy newVp (clock w));
                                 SetUpdateDesiredNumber]) as Hw2
    by (subst w2; cbn; by rewrite <- app_assoc).
  clearbody w2.
  destruct (nextAnswer w2) as [e|].
  - exists []. cbn [fst snd]. cbn. rewrite Hw2, <- !app_assoc. reflexivity.
  - set (w3 := set_profiles _ _).
    assert (trace w3 = trace w2 ++ [CallProfileUpdateStatus (Namespace newVp)
                                      (withApStatus resetStatus oldAp)]) as Hw3
      by (subst w3; reflexivity).
    clearbody w3.
    destruct (confined_resetArmorProfileModelStatus updateCalls (Namespace newVp)
                (ApName oldAp)) with (w := w3) as (_ & t4 & Ht4 & _); [done | done |].
    set (w4 := (resetArmorProfileModelStatus (Namespace newVp) (ApName oldAp) w3).2) in *.
    clearbody w4.
    match goal with |- context [nextAnswer ?w5] => destruct (nextAnswer w5) end;
      eexists; cbn [fst snd]; cbn; rewrite Ht4, Hw3, Hw2, <- !app_assoc; reflexivity.
Qed.

Lemma changed_duration_witness :
  buildApSpec nsController (modelingPolicy targetA "AppArmor" 60)
    (mkProfile targetA "AppArmor" DefenseInDepthMode 30 "")
    (ApProfile (ApSpec (mkProfile targetA "AppArmor" DefenseInDepthMode 30 "")))
  ≠ ApSpec (mkProfile targetA "AppArmor" DefenseInDepthMode 30 "").
Proof.
  destruct (changed_duration_forces_rebuild samplePkg nsController
              (modelingPolicy targetA "AppArmor" 60)
              (mkProfile targetA "AppArmor" DefenseInDepthMode 30 "")
              (ApProfile (ApSpec (mkProfile targetA "AppArmor" DefenseInDepthMode 30 ""))))
    as (_ & _ & Hne & _).
  - reflexivity.
  - split; [reflexivity|]. split; [split; [discriminate | reflexivity]|].
    split; [|reflexivity].
    intros _. split; [discriminate|]. split; [discriminate|]. intros [_ H]. discriminate.
  - reflexivity.
  - discriminate.
  - exact Hne.
Defined.

(** ** What the create and delete handlers never do *)

(** X9.  Whatever the store answers, the calls of a create are status writes on
    the policy, the reset of the behavior model, the desired-number flag,
    the creation of the profile and the workload restart: a create never
    updates or deletes a profile, sends the status manager no message and
    never touches the work queue. *)
Theorem create_makes_only_create_calls pkg c vp w :
  queue (handleAddVarmorPolicy pkg c vp w).2 = queue w
  ∧ ∃ t, trace (handleAddVarmorPolicy pkg c vp w).2 = trace w ++ t
         ∧ Forall (fun call =>
                     match call with
                     | CallPolicyUpdateStatus _ | CallModelGet _ _
                     | CallModelUpdateStatus _ _ _ | SetUpdateDesiredNumber
                     | CallProfileCreate _ _
                     | GoUpdateWorkloadAnnotationsAndEnv _ _ _ _ _ _ => True
                     | _ => False
                     end) t.
Proof.
  destruct (confined_handleAdd pkg c vp w) as (Hq & t & Ht & Hf).
  split; [done|]. exists t. split; [done|].
  eapply Forall_impl; [exact Hf|]. intros call. by destruct call.
Qed.

(** X4.  Whatever the store answers, the calls of a delete are the read and the
    deletion of the profile, the workload restart and the message that
    drops the key: a delete never writes a policy's status, never creates
    or updates a profile and never touches the work queue. *)
Theorem delete_makes_only_delete_calls pkg c namespace name w :
  queue (handleDeleteVarmorPolicy pkg c namespace name w).2 = queue w
  ∧ policies (handleDeleteVarmorPolicy pkg c namespace name w).2 = policies w
  ∧ ∃ t, trace (handleDeleteVarmorPolicy pkg c namespace name w).2 = trace w ++ t
         ∧ Forall (fun call =>
                     match call with
                     | CallProfileGet _ _ | CallProfileDelete _ _
                     | GoUpdateWorkloadAnnotationsAndEnv _ _ _ _ _ _
                     | SendDeleteCh _ => True
                     | _ => False
                     end) t.
Proof.
  destruct (confined_handleDelete pkg c namespace name w) as (Hq & t & Ht & Hf).
  split; [done|]. split.
  { rewrite handleDelete_unfold. cbv zeta.
    destruct (nextAnswer w) as [err|]; [by destruct (IsNotFound err)|].
    destruct (profiles w !! _); [|done].
    by match goal with |- context [nextAnswer ?x] => destruct (nextAnswer x) end. }
  exists t. split; [done|].
  eapply Forall_impl; [exact Hf|]. intros call. by destruct call.
Qed.

(** ** Keys *)

Lemma splitSlash_noSlash s : noSlash s = true → splitSlash s = [s].
Proof.
  induction s as [|a rest IH]; [done|]. intros H. cbn [noSlash] in H. cbn [splitSlash].
  apply andb_true_iff in H as [Ha Hrest]. apply negb_true_iff, bool_decide_eq_false in Ha.
  rewrite decide_False by done. by rewrite (IH Hrest).
Qed.

Lemma splitSlash_prefix a b :
  noSlash a = true → splitSlash (a +:+ "/" +:+ b) = a :: splitSlash b.
Proof.
  induction a as [|ch rest IH]; [done|]. intros H. cbn [noSlash] in H.
  change (String ch rest +:+ "/" +:+ b) with (String ch (rest +:+ "/" +:+ b)).
  cbn [splitSlash].
  apply andb_true_iff in H as [Ha Hrest]. apply negb_true_iff, bool_decide_eq_false in Ha.
  rewrite decide_False by done. by rewrite (IH Hrest).
Qed.

(** X18.  The key under which the event router queues a policy leads the sync
    back to that policy: for a namespace and a name without a slash, the
    key splits into exactly that namespace and name, and the first call of
    the sync of that key is the read of the policy under them (under the
    bare name in the cluster scope). *)
Theorem enqueued_key_reads_its_policy pkg c vp w :
  noSlash (Namespace vp) = true →
  noSlash (Name vp) = true →
  SplitMetaNamespaceKey (MetaNamespaceKeyFunc vp) = inl (Namespace vp, Name vp)
  ∧ ∃ t, trace (syncPolicy pkg c (MetaNamespaceKeyFunc vp) w).2
         = trace w
           ++ CallPolicyGet (policyRef (scope c) (Namespace vp) (Name vp)).1 (Name vp) :: t.
Proof.
  intros Hns Hname.
  assert (SplitMetaNamespaceKey (MetaNamespaceKeyFunc vp) = inl (Namespace vp, Name vp))
    as Hkey.
  { unfold SplitMetaNamespaceKey, MetaNamespaceKeyFunc.
    destruct (decide (Namespace vp = "")) as [Hempty|_].
    - rewrite Hempty. by rewrite (splitSlash_noSlash _ Hname).
    - by rewrite (splitSlash_prefix _ _ Hns), (splitSlash_noSlash _ Hname). }
  split; [done|].
  rewrite (syncPolicy_unfold pkg c _ _ _ w Hkey). cbv zeta.
  set (w1 := answered _ w).
  assert (trace w1 = trace w
                     ++ [CallPolicyGet (policyRef (scope c) (Namespace vp) (Name vp)).1 (Name vp)])
    as Hw1 by done.
  clearbody w1.
  assert (∀ (m : M error) allowed w0, confined allowed m →
            trace w0 = trace w1 ∨ (∃ call, trace w0 = trace w1 ++ [call]) →
            ∃ t, trace (m w0).2
                 = trace w ++ CallPolicyGet (policyRef (scope c) (Namespace vp) (Name vp)).1
                                (Name vp) :: t) as Hrun.
  { intros m allowed w0 Hm Hw0. destruct (Hm w0) as (_ & t & Ht & _).
    destruct Hw0 as [Hw0 | [call Hw0]]; rewrite Ht, Hw0, Hw1, <- !app_assoc; by eexists. }
  assert (∀ (e : error),
            ∃ t, trace (e, w1).2
                 = trace w ++ CallPolicyGet (policyRef (scope c) (Namespace vp) (Name vp)).1
                                (Name vp) :: t) as Hstop
    by (intros e; exists []; exact Hw1).
  destruct (nextAnswer w) as [err|].
  { destruct (IsNotFound err); [|apply Hstop].
    eapply Hrun; [apply confined_handleDelete | by left]. }
  destruct (policies w !! _) as [vp0|];
    [|eapply Hrun; [apply confined_handleDelete | by left]].
  set (w2 := answered _ w1).
  assert (∃ call, trace w2 = trace w1 ++ [call]) as Hw2 by (by eexists).
  clearbody w2.
  destruct (nextAnswer w1) as [err|].
  { destruct (IsNotFound err).
    - eapply Hrun; [apply confined_handleAdd | by right].
    - destruct Hw2 as [call Hw2]. eexists. cbn [snd].
      rewrite Hw2, Hw1, <- app_assoc. reflexivity. }
  destruct (profiles w !! _) as [ap|].
  - eapply Hrun; [apply confined_handleUpdate | by right].
  - eapply Hrun; [apply confined_handleAdd | by right].
Qed.

Lemma enqueued_key_witness :
  SplitMetaNamespaceKey (MetaNamespaceKeyFunc plainPolicy) = inl ("default", "demo").
Proof.
  destruct (enqueued_key_reads_its_policy samplePkg nsController plainPolicy
              (worldOf plainPolicy plainProfile [])) as [Hkey _].
  - reflexivity.
  - reflexivity.
  - exact Hkey.
Defined.

(** ** The reset of a behavior model *)

(** X25.  [resetArmorProfileModelStatus] swallows every failure to read the
    model, not only "not found": it then writes nothing and returns
    [nil].  When the model is read it submits one status write that zeroes
    the completed count, empties the conditions and clears the ready flag,
    and returns the store's answer to that write. *)
Theorem model_reset_ignores_read_failures namespace name w :
  let r := resetArmorProfileModelStatus namespace name w in
  (nextAnswer w ≠ None ∨ models w !! (namespace, name) = None →
   r.1 = None
   ∧ trace r.2 = trace w ++ [CallModelGet namespace name]
   ∧ models r.2 = models w)
  ∧ (nextAnswer w = None → is_Some (models w !! (namespace, name)) →
     r.1 = hd None (tail (answers w))
     ∧ trace r.2 = trace w
                   ++ [CallModelGet namespace name;
                       CallModelUpdateStatus namespace name
                         {| CompletedNumber := 0; ApmConditions := []; ApmReady := false |}]
     ∧ (hd None (tail (answers w)) = None →
        models r.2 !! (namespace, name)
        = Some {| CompletedNumber := 0; ApmConditions := []; ApmReady := false |})).
Proof.
  intros r. subst r. unfold resetArmorProfileModelStatus, bind. rewrite ModelGet_eq.
  split.
  - intros [Ha | Hm].
    + by destruct (nextAnswer w).
    + destruct (nextAnswer w); [done|]. by rewrite Hm.
  - intros Ha [st Hst]. rewrite Ha, Hst, ModelUpdateStatus_eq.
    assert (nextAnswer (answered (CallModelGet namespace name) w) = hd None (tail (answers w)))
      as -> by done.
    cbn [fst snd]. split; [done|]. split.
    + destruct (hd None (tail (answers w))); cbn; by rewrite <- app_assoc.
    + intros ->. cbn. by rewrite lookup_alter_eq, Hst.
Qed.

Lemma model_reset_witness :
  resetArmorProfileModelStatus "default" "varmor-default-demo"
    (worldOf plainPolicy plainProfile [Some conflict])
  = (None, answered (CallModelGet "default" "varmor-default-demo")
             (worldOf plainPolicy plainProfile [Some conflict])).
Proof.
  destruct (model_reset_ignores_read_failures "default" "varmor-default-demo"
              (worldOf plainPolicy plainProfile [Some conflict])) as [Hfail _].
  destruct Hfail as (Hres & _).
  - left. discriminate.
  - reflexivity.
Defined.

Lemma updated_reports_witness :
  Conditions (applyStatus (applyStatus (statusOf true VarmorPolicyError [createdTrue])
                             "" true VarmorPolicyError VarmorPolicyCreated ConditionFalse
                             "Error" "unknown rule" 100)
                "" true VarmorPolicyError VarmorPolicyCreated ConditionFalse
                "Error" "unknown rule" 101)
  = [createdTrue;
     mkCondition VarmorPolicyCreated ConditionFalse 100 "Error" "unknown rule";
     mkCondition VarmorPolicyCreated ConditionFalse 101 "Error" "unknown rule"].
Proof.
  destruct (updated_reports_absorb_others_accumulate
              (statusOf true VarmorPolicyError [createdTrue])
              "" true VarmorPolicyError ConditionFalse "Error" "unknown rule" 100
              "" true VarmorPolicyError ConditionFalse "Error" "unknown rule" 101)
    as [_ Hacc].
  apply (Hacc VarmorPolicyCreated). discriminate.
Defined.
